(** * CHIP-8 virtual processor: a shallow embedding and its properties

    The development follows the Go sources of the emulator:
    - [cpu.go]: the [Processor] aggregate, [Write], [Read], [Load], [Reset],
      [OpcodeAt], [Execute] and [Step];
    - the instruction handlers ([callSubroutine], [orXY], [addXY],
      [binaryCodedDecimal], ...), written in the sources as functions over
      the processor [cpu];
    - the older [Emulator] with its own [Load] and [drawSprite].

    Conventions.  Every Go unsigned integer is a [Z] together with the
    wrap-around of its width written out ([u8], [u16], [u32]).  A Go array
    is a [list] of fixed length read and written through [index_get] and
    [index_set], which raise the run-time "index out of range" panic exactly
    where Go does (the indices of the sources are unsigned; a negative one
    is out of range here).  A Go [panic] is the [Panic] constructor of [result]. *)

From Stdlib Require Import String ZArith Lia List Bool.
From stdpp Require Import base list.

Local Open Scope Z_scope.

(** ** Panics as an error monad *)

Inductive result (A : Type) : Type :=
| Ok (a : A)
| Panic (msg : string).

Arguments Ok {A} a.
Arguments Panic {A} msg.

Definition bind {A B} (m : result A) (k : A -> result B) : result B :=
  match m with
  | Ok a => k a
  | Panic msg => Panic msg
  end.

Notation "x <- m ;; k" := (bind m (fun x => k))
  (at level 100, m at next level, right associativity).

(** ** Machine integers *)

Definition u8 (z : Z) : Z := z mod 256.
Definition u16 (z : Z) : Z := z mod 65536.
Definition u32 (z : Z) : Z := z mod 4294967296.

Definition is_byte (z : Z) : Prop := 0 <= z < 256.
Definition is_word (z : Z) : Prop := 0 <= z < 65536.

(** ** Arrays with Go's bounds check *)

Definition out_of_range : string := "index out of range"%string.

Definition index_get {A} (a : list A) (k : Z) : result A :=
  if k <? 0 then Panic out_of_range
  else
    match a !! Z.to_nat k with
    | Some x => Ok x
    | None => Panic out_of_range
    end.

Definition index_set {A} (a : list A) (k : Z) (x : A) : result (list A) :=
  if k <? 0 then Panic out_of_range
  else if (Z.to_nat k <? length a)%nat then Ok (<[Z.to_nat k := x]> a)
  else Panic out_of_range.

(** ** Constants of [cpu.go] *)

Definition RegisterCount : Z := 16.
Definition KeyCount : Z := 16.
Definition FontStartAddress : Z := 0x50.
Definition LastAddress : Z := 0xFFE.
Definition ProgramStartAddress : Z := 0x200.
Definition CarryFlag : Z := 0xF.

(** [time.Duration] counts nanoseconds; the division is Go's integer one. *)
Definition Second : Z := 1000000000.
Definition TimerRate : Z := Second / 60.
Definition ClockRate : Z := Second / 700.

Definition Width : Z := 64.
Definition Height : Z := 32.
Definition Area : Z := Width * Height.

Definition Delay : Z := 1.
Definition Sound : Z := 2.
Definition Redraw : Z := 4.

Definition fontSet : list Z :=
  [ 0xF0; 0x90; 0x90; 0x90; 0xF0;
    0x20; 0x60; 0x20; 0x20; 0x70;
    0xF0; 0x10; 0xF0; 0x80; 0xF0;
    0xF0; 0x10; 0xF0; 0x10; 0xF0;
    0x90; 0x90; 0xF0; 0x10; 0x10;
    0xF0; 0x80; 0xF0; 0x10; 0xF0;
    0xF0; 0x80; 0xF0; 0x90; 0xF0;
    0xF0; 0x10; 0x20; 0x40; 0x40;
    0xF0; 0x90; 0xF0; 0x90; 0xF0;
    0xF0; 0x90; 0xF0; 0x10; 0xF0;
    0xF0; 0x90; 0xF0; 0x90; 0x90;
    0xE0; 0x90; 0xE0; 0x90; 0xE0;
    0xF0; 0x80; 0x80; 0x80; 0xF0;
    0xE0; 0x90; 0x90; 0x90; 0xE0;
    0xF0; 0x80; 0xF0; 0x80; 0xF0;
    0xF0; 0x80; 0xF0; 0x80; 0x80 ].

(** ** The processor state

    [keyState] holds the value each atomic flag has while the step runs;
    [lastTimerUpdate] is an instant in nanoseconds counted from Go's zero
    [time.Time]. *)

Record Processor : Type := mkProcessor {
  memory : list Z;
  v : list Z;
  keyState : list bool;
  display : list Z;
  stack : list Z;
  sp : Z;
  pc : Z;
  i : Z;
  delay : Z;
  sound : Z;
  lastTimerUpdate : Z
}.

Definition set_memory (p : Processor) (m : list Z) : Processor :=
  mkProcessor m p.(v) p.(keyState) p.(display) p.(stack) p.(sp) p.(pc) p.(i)
    p.(delay) p.(sound) p.(lastTimerUpdate).
Definition set_v (p : Processor) (r : list Z) : Processor :=
  mkProcessor p.(memory) r p.(keyState) p.(display) p.(stack) p.(sp) p.(pc)
    p.(i) p.(delay) p.(sound) p.(lastTimerUpdate).
Definition set_keyState (p : Processor) (ks : list bool) : Processor :=
  mkProcessor p.(memory) p.(v) ks p.(display) p.(stack) p.(sp) p.(pc) p.(i)
    p.(delay) p.(sound) p.(lastTimerUpdate).
Definition set_display (p : Processor) (d : list Z) : Processor :=
  mkProcessor p.(memory) p.(v) p.(keyState) d p.(stack) p.(sp) p.(pc) p.(i)
    p.(delay) p.(sound) p.(lastTimerUpdate).
Definition set_stack (p : Processor) (s : list Z) : Processor :=
  mkProcessor p.(memory) p.(v) p.(keyState) p.(display) s p.(sp) p.(pc) p.(i)
    p.(delay) p.(sound) p.(lastTimerUpdate).
Definition set_sp (p : Processor) (z : Z) : Processor :=
  mkProcessor p.(memory) p.(v) p.(keyState) p.(display) p.(stack) z p.(pc)
    p.(i) p.(delay) p.(sound) p.(lastTimerUpdate).
Definition set_pc (p : Processor) (z : Z) : Processor :=
  mkProcessor p.(memory) p.(v) p.(keyState) p.(display) p.(stack) p.(sp) z
    p.(i) p.(delay) p.(sound) p.(lastTimerUpdate).
Definition set_i (p : Processor) (z : Z) : Processor :=
  mkProcessor p.(memory) p.(v) p.(keyState) p.(display) p.(stack) p.(sp)
    p.(pc) z p.(delay) p.(sound) p.(lastTimerUpdate).
Definition set_delay (p : Processor) (z : Z) : Processor :=
  mkProcessor p.(memory) p.(v) p.(keyState) p.(display) p.(stack) p.(sp)
    p.(pc) p.(i) z p.(sound) p.(lastTimerUpdate).
Definition set_sound (p : Processor) (z : Z) : Processor :=
  mkProcessor p.(memory) p.(v) p.(keyState) p.(display) p.(stack) p.(sp)
    p.(pc) p.(i) p.(delay) z p.(lastTimerUpdate).
Definition set_lastTimerUpdate (p : Processor) (t : Z) : Processor :=
  mkProcessor p.(memory) p.(v) p.(keyState) p.(display) p.(stack) p.(sp)
    p.(pc) p.(i) p.(delay) p.(sound) t.

(** Register and memory cells: [cpu.v[x]], [cpu.v[x] = b],
    [cpu.memory[a]], [cpu.memory[a] = b]. *)

Definition reg (x : Z) (cpu : Processor) : result Z := index_get cpu.(v) x.

Definition set_reg (x b : Z) (cpu : Processor) : result Processor :=
  r <- index_set cpu.(v) x b ;; Ok (set_v cpu r).

Definition mem (a : Z) (cpu : Processor) : result Z := index_get cpu.(memory) a.

Definition set_mem (a b : Z) (cpu : Processor) : result Processor :=
  m <- index_set cpu.(memory) a b ;; Ok (set_memory cpu m).

(** The zero value [Processor{}]. *)
Definition zero_Processor : Processor :=
  mkProcessor (replicate 4096 0) (replicate 16 0) (replicate 16 false)
    (replicate 2048 0) (replicate 16 0) 0 0 0 0 0 0.

Arguments Panic {A} msg%_string.

(** ** Bulk memory access ([cpu.go])

    [Write] and [Read] loop while [loc+i < 0xFFF && int(i) < len(data)];
    [loc+i] is a 16-bit sum.  The loops are written by recursion on the
    bytes still to be transferred, [k] being the Go counter [i] (so that the
    head of [data] is [data[i]]). *)

Fixpoint Write_loop (loc k : Z) (data : list Z) (p : Processor)
  : result (Processor * Z) :=
  match data with
  | [] => Ok (p, k)
  | b :: rest =>
      if u16 (loc + k) <? 0xFFF then
        p' <- set_mem (u16 (loc + k)) b p ;;
        Write_loop loc (u16 (k + 1)) rest p'
      else Ok (p, k)
  end.

Definition Write (loc : Z) (data : list Z) (p : Processor)
  : result (Processor * Z) :=
  Write_loop loc 0 data p.

(** [Read] fills the caller's slice [data]: the result is the slice after
    the call, with the number of bytes read.  [n] counts the cells of
    [data] from [k] on. *)
Fixpoint Read_loop (loc k : Z) (n : nat) (data : list Z) (p : Processor)
  : result (list Z * Z) :=
  match n with
  | O => Ok (data, k)
  | S n' =>
      if u16 (loc + k) <? 0xFFF then
        b <- mem (u16 (loc + k)) p ;;
        data' <- index_set data k b ;;
        Read_loop loc (u16 (k + 1)) n' data' p
      else Ok (data, k)
  end.

Definition Read (loc : Z) (data : list Z) (p : Processor)
  : result (list Z * Z) :=
  Read_loop loc 0 (length data) data p.

Definition Reset : result Processor :=
  r <- Write FontStartAddress fontSet zero_Processor ;;
  let '(p, written) := r in
  if written <? Z.of_nat (length fontSet)
  then Panic "insufficient memory to write font set"
  else Ok p.

Definition Load (b : list Z) (p : Processor) : result Processor :=
  r <- Write ProgramStartAddress b p ;;
  let '(p', written) := r in
  if written <? Z.of_nat (length b)
  then Panic "insufficient memory"
  else Ok (set_pc p' ProgramStartAddress).

Definition SetKey (key : Z) (value : bool) (p : Processor) : result Processor :=
  ks <- index_set p.(keyState) (Z.land key 0x0F) value ;;
  Ok (set_keyState p ks).

Definition Register (r : Z) (p : Processor) : result Z :=
  let key := Z.land r 0xF in
  reg key p.

Definition StackDepth (p : Processor) : Z := p.(sp).
Definition Index (p : Processor) : Z := p.(i).
Definition ProgramCounter (p : Processor) : Z := p.(pc).

(** [OpcodeAt] reads into the two-byte package buffer; both of its cells
    are overwritten whenever the read is complete, so its previous contents
    never reach the result and the buffer starts here as two zero bytes. *)
Definition OpcodeAt (offset : Z) (p : Processor) : result Z :=
  r <- Read offset [0; 0] p ;;
  let '(buffer, read) := r in
  if read <? 2 then Panic "program runaway"
  else
    high <- index_get buffer 0 ;;
    low <- index_get buffer 1 ;;
    Ok (Z.lor (u16 (Z.shiftl (u16 high) 8)) (u16 low)).

(** ** Instruction handlers *)

Definition clearScreen (info : Z) (cpu : Processor) : Processor * Z :=
  (set_display cpu (replicate (length cpu.(display)) 0), Z.lor info Redraw).

Definition callSubroutine (nnn : Z) (cpu : Processor) : result Processor :=
  if 16 <=? cpu.(sp) then Panic "stack overflow"
  else
    s <- index_set cpu.(stack) cpu.(sp) cpu.(pc) ;;
    let cpu := set_stack cpu s in
    let cpu := set_sp cpu (u8 (cpu.(sp) + 1)) in
    Ok (set_pc cpu nnn).

Definition returnFromSubroutine (cpu : Processor) : result Processor :=
  if cpu.(sp) =? 0 then Panic "stack underflow"
  else
    let cpu := set_sp cpu (u8 (cpu.(sp) - 1)) in
    a <- index_get cpu.(stack) cpu.(sp) ;;
    Ok (set_pc cpu a).

Definition jumpToLocation (nnn : Z) (cpu : Processor) : result Processor :=
  Ok (set_pc cpu nnn).

Definition jumpWithOffset (nnn : Z) (cpu : Processor) : result Processor :=
  v0 <- reg 0x0 cpu ;;
  Ok (set_pc cpu (u16 (nnn + u16 v0))).

Definition skip (cpu : Processor) : Processor :=
  set_pc cpu (u16 (cpu.(pc) + 2)).

Definition stepIfXEqualsNN (x nn : Z) (cpu : Processor) : result Processor :=
  vx <- reg x cpu ;;
  if vx =? u8 nn then Ok (skip cpu) else Ok cpu.

Definition stepIfXNotEqualsNN (x nn : Z) (cpu : Processor) : result Processor :=
  vx <- reg x cpu ;;
  if negb (vx =? u8 nn) then Ok (skip cpu) else Ok cpu.

Definition stepIfXEqualsY (x y : Z) (cpu : Processor) : result Processor :=
  vx <- reg x cpu ;;
  vy <- reg y cpu ;;
  if vx =? vy then Ok (skip cpu) else Ok cpu.

Definition stepIfXNotEqualsY (x y : Z) (cpu : Processor) : result Processor :=
  vx <- reg x cpu ;;
  vy <- reg y cpu ;;
  if negb (vx =? vy) then Ok (skip cpu) else Ok cpu.

Definition setXToNN (x nn : Z) (cpu : Processor) : result Processor :=
  set_reg x (u8 nn) cpu.

Definition addNNToX (x nn : Z) (cpu : Processor) : result Processor :=
  vx <- reg x cpu ;;
  set_reg x (u8 (vx + u8 nn)) cpu.

Definition setXToY (x y : Z) (cpu : Processor) : result Processor :=
  vy <- reg y cpu ;;
  set_reg x vy cpu.

(** The three logical handlers first store 0 in [v[CarryFlag]] and then run
    [cpu.v[x] op= cpu.v[y]] on the registers as they are after that store. *)
Definition orXY (x y : Z) (cpu : Processor) : result Processor :=
  cpu <- set_reg CarryFlag 0 cpu ;;
  vx <- reg x cpu ;;
  vy <- reg y cpu ;;
  set_reg x (Z.lor vx vy) cpu.

Definition andXY (x y : Z) (cpu : Processor) : result Processor :=
  cpu <- set_reg CarryFlag 0 cpu ;;
  vx <- reg x cpu ;;
  vy <- reg y cpu ;;
  set_reg x (Z.land vx vy) cpu.

Definition xorXY (x y : Z) (cpu : Processor) : result Processor :=
  cpu <- set_reg CarryFlag 0 cpu ;;
  vx <- reg x cpu ;;
  vy <- reg y cpu ;;
  set_reg x (Z.lxor vx vy) cpu.

Definition addXY (x y : Z) (cpu : Processor) : result Processor :=
  vx <- reg x cpu ;;
  vy <- reg y cpu ;;
  let sum := u16 (u16 vx + u16 vy) in
  cpu <- set_reg CarryFlag 0 cpu ;;
  cpu <- (if 255 <? sum then set_reg CarryFlag 1 cpu else Ok cpu) ;;
  set_reg x (u8 (Z.land sum 0xFF)) cpu.

Definition subtractYFromX (x y : Z) (cpu : Processor) : result Processor :=
  cpu <- set_reg CarryFlag 0 cpu ;;
  vx <- reg x cpu ;;
  vy <- reg y cpu ;;
  cpu <- (if vy <=? vx then set_reg CarryFlag 1 cpu else Ok cpu) ;;
  vx <- reg x cpu ;;
  vy <- reg y cpu ;;
  set_reg x (u8 (vx - vy)) cpu.

Definition subtractXFromY (x y : Z) (cpu : Processor) : result Processor :=
  cpu <- set_reg CarryFlag 0 cpu ;;
  vy <- reg y cpu ;;
  vx <- reg x cpu ;;
  cpu <- (if vx <=? vy then set_reg CarryFlag 1 cpu else Ok cpu) ;;
  vy <- reg y cpu ;;
  vx <- reg x cpu ;;
  set_reg x (u8 (vy - vx)) cpu.

Definition shiftRightX (x : Z) (cpu : Processor) : result Processor :=
  vx <- reg x cpu ;;
  cpu <- set_reg CarryFlag (Z.land vx 0x1) cpu ;;
  vx <- reg x cpu ;;
  set_reg x (Z.shiftr vx 1) cpu.

Definition shiftLeftX (x : Z) (cpu : Processor) : result Processor :=
  vx <- reg x cpu ;;
  cpu <- set_reg CarryFlag (Z.shiftr (Z.land vx 0x80) 7) cpu ;;
  vx <- reg x cpu ;;
  set_reg x (u8 (Z.shiftl vx 1)) cpu.

Definition setIToNNN (nnn : Z) (cpu : Processor) : result Processor :=
  Ok (set_i cpu nnn).

(** [rnd] is the value drawn by [rand.Uint32N(256)]. *)
Definition setXToRandom (rnd : Z) (x nn : Z) (cpu : Processor)
  : result Processor :=
  let randomByte := u8 rnd in
  set_reg x (Z.land randomByte (u8 nn)) cpu.

Definition stepIfKeyDown (x : Z) (cpu : Processor) : result Processor :=
  vx <- reg x cpu ;;
  let key := Z.land vx 0x0F in
  down <- index_get cpu.(keyState) key ;;
  if down then Ok (skip cpu) else Ok cpu.

Definition stepIfKeyUp (x : Z) (cpu : Processor) : result Processor :=
  vx <- reg x cpu ;;
  let key := Z.land vx 0x0F in
  down <- index_get cpu.(keyState) key ;;
  if negb down then Ok (skip cpu) else Ok cpu.

Definition setXToDelay (x : Z) (cpu : Processor) : result Processor :=
  set_reg x cpu.(delay) cpu.

(** [pauseUntilKeyPressed]: the [for i := range uint8(len(cpu.keyState))]
    scan, [n] keys left to look at from index [k] on.  The boolean is
    [keyPressed]. *)
Fixpoint scan_keys (x : Z) (n : nat) (k : Z) (cpu : Processor)
  : result (bool * Processor) :=
  match n with
  | O => Ok (false, cpu)
  | S n' =>
      down <- index_get cpu.(keyState) k ;;
      if down then
        cpu' <- set_reg x k cpu ;;
        Ok (true, cpu')
      else scan_keys x n' (k + 1) cpu
  end.

Definition pauseUntilKeyPressed (x : Z) (cpu : Processor) : result Processor :=
  r <- scan_keys x (length cpu.(keyState)) 0 cpu ;;
  let '(keyPressed, cpu) := r in
  if negb keyPressed
  then Ok (set_pc cpu (u16 (cpu.(pc) - 2)))
  else Ok cpu.

Definition setDelayToX (x : Z) (cpu : Processor) : result Processor :=
  vx <- reg x cpu ;;
  Ok (set_delay cpu vx).

Definition setSoundToX (x : Z) (cpu : Processor) : result Processor :=
  vx <- reg x cpu ;;
  Ok (set_sound cpu vx).

Definition setIToX (x : Z) (cpu : Processor) : result Processor :=
  vx <- reg x cpu ;;
  Ok (set_i cpu (u16 (cpu.(i) + u16 vx))).

Definition setIToSymbol (x : Z) (cpu : Processor) : result Processor :=
  vx <- reg x cpu ;;
  let digit := u16 (Z.land vx 0x0F) in
  Ok (set_i cpu (u16 (FontStartAddress + u16 (digit * 5)))).

(** One round of the double-dabble loop for the counter value [k]:
    the three nibble corrections, then the shift that pulls in bit
    [7 - k] of [val].  [bcd] and [val] are [uint32]. *)
Definition bcd_round (val bcd k : Z) : Z :=
  let bcd := if 5 <=? Z.land bcd 0x00F then u32 (bcd + 3) else bcd in
  let bcd := if 0x050 <=? Z.land bcd 0x0F0 then u32 (bcd + 0x030) else bcd in
  let bcd := if 0x500 <=? Z.land bcd 0xF00 then u32 (bcd + 0x300) else bcd in
  Z.lor (u32 (Z.shiftl bcd 1)) (Z.land (Z.shiftr val (7 - k)) 1).

(** [for i := range 8]: [n] rounds left, the next one for counter [k]. *)
Fixpoint bcd_rounds (val : Z) (n : nat) (k : Z) (bcd : Z) : Z :=
  match n with
  | O => bcd
  | S n' => bcd_rounds val n' (k + 1) (bcd_round val bcd k)
  end.

Definition double_dabble (val : Z) : Z := bcd_rounds val 8 0 0.

Definition binaryCodedDecimal (x : Z) (cpu : Processor) : result Processor :=
  vx <- reg x cpu ;;
  let val := u32 vx in
  let bcd := double_dabble val in
  cpu <- set_mem cpu.(i) (u8 (Z.land (Z.shiftr bcd 8) 0xF)) cpu ;;
  cpu <- set_mem (u16 (cpu.(i) + 1)) (u8 (Z.land (Z.shiftr bcd 4) 0xF)) cpu ;;
  set_mem (u16 (cpu.(i) + 2)) (u8 (Z.land bcd 0xF)) cpu.

(** [for i := uint16(0); i <= x; i++]: the body runs for [i = 0, 1, .., x];
    [n] is the number of rounds left and [k] the counter.  (The counter
    cannot wrap before a round fails: [cpu.v[16]] is out of range.) *)
Fixpoint setRegistersToMemory_loop (n : nat) (k : Z) (cpu : Processor)
  : result Processor :=
  match n with
  | O => Ok cpu
  | S n' =>
      vk <- reg k cpu ;;
      cpu' <- set_mem (u16 (cpu.(i) + k)) vk cpu ;;
      setRegistersToMemory_loop n' (u16 (k + 1)) cpu'
  end.

Definition setRegistersToMemory (x : Z) (cpu : Processor) : result Processor :=
  setRegistersToMemory_loop (Z.to_nat (x + 1)) 0 cpu.

Fixpoint setMemoryToRegisters_loop (n : nat) (k : Z) (cpu : Processor)
  : result Processor :=
  match n with
  | O => Ok cpu
  | S n' =>
      b <- mem (u16 (cpu.(i) + k)) cpu ;;
      cpu' <- set_reg k b cpu ;;
      setMemoryToRegisters_loop n' (u16 (k + 1)) cpu'
  end.

Definition setMemoryToRegisters (x : Z) (cpu : Processor) : result Processor :=
  setMemoryToRegisters_loop (Z.to_nat (x + 1)) 0 cpu.

(** ** Decoding, dispatch and the step loop

    The sprite blitter [DrawSprite] called by the [0xD] family and the
    random source are not part of the sources at hand: the blitter is a
    parameter of this section, the random byte an argument of [Execute].
    The fields of an instruction word ([kind], [x], [y], [n], [nn], [nnn])
    are taken as the [execute] function of the handlers' file decodes
    them. *)

Definition op_kind (opcode : Z) : Z := Z.shiftr (Z.land opcode 0xF000) 12.
Definition op_x (opcode : Z) : Z := Z.shiftr (Z.land opcode 0x0F00) 8.
Definition op_y (opcode : Z) : Z := Z.shiftr (Z.land opcode 0x00F0) 4.
Definition op_n (opcode : Z) : Z := Z.land opcode 0x000F.
Definition op_nn (opcode : Z) : Z := Z.land opcode 0x00FF.
Definition op_nnn (opcode : Z) : Z := Z.land opcode 0x0FFF.

(** [time.Since(t)] is a [Duration], saturated at the ends of [int64]. *)
Definition maxDuration : Z := 9223372036854775807.
Definition minDuration : Z := -9223372036854775808.
Definition Since (now t : Z) : Z := Z.max minDuration (Z.min maxDuration (now - t)).

Definition no_info (r : result Processor) (info : Z) : result (Processor * Z) :=
  cpu <- r ;; Ok (cpu, info).

Section StepLoop.

Variable DrawSprite : Z -> Z -> Z -> Processor -> result Processor.

Definition drawSprite (x y n : Z) (info : Z) (cpu : Processor)
  : result (Processor * Z) :=
  vx <- reg x cpu ;;
  vy <- reg y cpu ;;
  cpu' <- DrawSprite vx vy (u8 n) cpu ;;
  Ok (cpu', Z.lor info Redraw).

Definition Execute (rnd : Z) (op : Z) (info : Z) (p : Processor)
  : result (Processor * Z) :=
  let x := op_x op in
  let y := op_y op in
  let n := op_n op in
  let nn := op_nn op in
  let nnn := op_nnn op in
  match op_kind op with
  | 0x0 =>
      match op with
      | 0x00E0 => Ok (clearScreen info p)
      | 0x00EE => no_info (returnFromSubroutine p) info
      | _ => Panic "unknown 0x0 opcode"
      end
  | 0x1 => no_info (jumpToLocation nnn p) info
  | 0x2 => no_info (callSubroutine nnn p) info
  | 0x3 => no_info (stepIfXEqualsNN x nn p) info
  | 0x4 => no_info (stepIfXNotEqualsNN x nn p) info
  | 0x5 => no_info (stepIfXEqualsY x y p) info
  | 0x6 => no_info (setXToNN x nn p) info
  | 0x7 => no_info (addNNToX x nn p) info
  | 0x8 =>
      match n with
      | 0x0 => no_info (setXToY x y p) info
      | 0x1 => no_info (orXY x y p) info
      | 0x2 => no_info (andXY x y p) info
      | 0x3 => no_info (xorXY x y p) info
      | 0x4 => no_info (addXY x y p) info
      | 0x5 => no_info (subtractYFromX x y p) info
      | 0x6 => no_info (shiftRightX x p) info
      | 0x7 => no_info (subtractXFromY x y p) info
      | 0xE => no_info (shiftLeftX x p) info
      | _ => Panic "unknown 0x8 opcode"
      end
  | 0x9 => no_info (stepIfXNotEqualsY x y p) info
  | 0xA => no_info (setIToNNN nnn p) info
  | 0xB => no_info (jumpWithOffset nnn p) info
  | 0xC => no_info (setXToRandom rnd x nn p) info
  | 0xD => drawSprite x y n info p
  | 0xE =>
      match nn with
      | 0x9E => no_info (stepIfKeyDown x p) info
      | 0xA1 => no_info (stepIfKeyUp x p) info
      | _ => Panic "unknown 0xE opcode"
      end
  | 0xF =>
      match nn with
      | 0x07 => no_info (setXToDelay x p) info
      | 0x0A => no_info (pauseUntilKeyPressed x p) info
      | 0x15 => no_info (setDelayToX x p) info
      | 0x18 => no_info (setSoundToX x p) info
      | 0x1E => no_info (setIToX x p) info
      | 0x29 => no_info (setIToSymbol x p) info
      | 0x33 => no_info (binaryCodedDecimal x p) info
      | 0x55 => no_info (setRegistersToMemory x p) info
      | 0x65 => no_info (setMemoryToRegisters x p) info
      | _ => Panic "unknown 0xF opcode"
      end
  | _ => Panic "unknown opcode"
  end.

(** The first half of [Step]: fetch at the program counter, advance it by
    two, execute. *)
Definition fetch_execute (rnd : Z) (p : Processor) : result (Processor * Z) :=
  let info := 0 in
  opcode <- OpcodeAt (ProgramCounter p) p ;;
  let p := set_pc p (u16 (p.(pc) + 2)) in
  Execute rnd opcode info p.

(** The timer block of [Step]; [t_since] is the instant at which
    [time.Since] reads the clock and [t_now] the one [time.Now] returns. *)
Definition tick (t_since t_now : Z) (p : Processor) : Processor :=
  if TimerRate <=? Since t_since p.(lastTimerUpdate) then
    let p := if 0 <? p.(sound) then set_sound p (u8 (p.(sound) - 1)) else p in
    let p := if 0 <? p.(delay) then set_delay p (u8 (p.(delay) - 1)) else p in
    set_lastTimerUpdate p t_now
  else p.

Definition timer_flags (info : Z) (p : Processor) : Z :=
  let info := if 0 <? p.(sound) then Z.lor info Sound else info in
  let info := if 0 <? p.(delay) then Z.lor info Delay else info in
  info.

Definition Step (rnd t_since t_now : Z) (p : Processor)
  : result (Processor * Z) :=
  r <- fetch_execute rnd p ;;
  let '(p, info) := r in
  let p := tick t_since t_now p in
  Ok (p, timer_flags info p).

End StepLoop.

(** ** The older [Emulator]

    Its [Load] copies without a bound and always returns a nil error; its
    [drawSprite] computes the sprite origin and clears [v[0xF]].  In
    [drawSprite] the parameter [height] (the sprite's row count) hides the
    package constant [height] (the 32 rows of the frame buffer) in
    [uint16(y) % uint16(height)]. *)

Module Emulator.

Definition width : Z := 64.
Definition height : Z := 32.
Definition area : Z := width * height.

Record Emulator : Type := mkEmulator {
  memory : list Z;
  v : list Z;
  keyState : list bool;
  stack : list Z;
  pc : Z;
  i : Z;
  delay : Z;
  sound : Z;
  running : bool
}.

Definition set_memory (e : Emulator) (m : list Z) : Emulator :=
  mkEmulator m e.(v) e.(keyState) e.(stack) e.(pc) e.(i) e.(delay)
    e.(sound) e.(running).
Definition set_v (e : Emulator) (r : list Z) : Emulator :=
  mkEmulator e.(memory) r e.(keyState) e.(stack) e.(pc) e.(i) e.(delay)
    e.(sound) e.(running).

(** [for i := 0; i < len(b); i++ { e.memory[ProgramStartAddress+i] = b[i] }] *)
Fixpoint Load_loop (k : Z) (b : list Z) (e : Emulator) : result Emulator :=
  match b with
  | [] => Ok e
  | x :: rest =>
      m <- index_set e.(memory) (ProgramStartAddress + k) x ;;
      Load_loop (k + 1) rest (set_memory e m)
  end.

Definition Load (b : list Z) (e : Emulator) : result Emulator :=
  Load_loop 0 b e.

(** The two locals [startX] and [startY] of [drawSprite]; the remainder
    by a zero [height] is Go's run-time panic. *)
Definition drawSprite_origin (x y height : Z) : result (Z * Z) :=
  let startX := u16 x mod u16 width in
  if u16 height =? 0 then Panic "integer divide by zero"
  else
    let startY := u16 y mod u16 height in
    Ok (startX, startY).

Definition drawSprite (buffer : list Z) (x y height : Z) (e : Emulator)
  : result Emulator :=
  o <- drawSprite_origin x y height ;;
  r <- index_set e.(v) 0xF 0 ;;
  Ok (set_v e r).

End Emulator.

(** ** The object-style call and return

    [SubroutineCall.Execute] and [SubroutineReturn.Execute] belong to an
    older [Processor] whose [stack] is a linked list of nodes; of that
    processor only the program counter and the list matter to them. *)

Module Objects.

Record Control : Type := mkControl {
  pc : Z;
  stack : list Z
}.

Definition SubroutineCall_Execute (nnn : Z) (cpu : Control) : result Control :=
  let item := cpu.(pc) :: cpu.(stack) in
  Ok (mkControl nnn item).

Definition SubroutineReturn_Execute (cpu : Control) : result Control :=
  match cpu.(stack) with
  | [] => Panic "return from empty stack"
  | value :: next => Ok (mkControl value next)
  end.

(** [n] nested calls to [nnn]. *)
Fixpoint calls (n : nat) (nnn : Z) (cpu : Control) : result Control :=
  match n with
  | O => Ok cpu
  | S n' => cpu' <- SubroutineCall_Execute nnn cpu ;; calls n' nnn cpu'
  end.

End Objects.

(** ** Well-formed states and specification helpers *)

(** The shape the Go types give the state: array lengths and integer
    widths. *)
Record wf (p : Processor) : Prop := mk_wf {
  wf_memory : length p.(memory) = 4096%nat;
  wf_v : length p.(v) = 16%nat;
  wf_keyState : length p.(keyState) = 16%nat;
  wf_display : length p.(display) = 2048%nat;
  wf_stack : length p.(stack) = 16%nat;
  wf_v_bytes : Forall is_byte p.(v);
  wf_sp : 0 <= p.(sp) < 256;
  wf_pc : 0 <= p.(pc) < 65536;
  wf_i : 0 <= p.(i) < 65536;
  wf_delay : 0 <= p.(delay) < 256;
  wf_sound : 0 <= p.(sound) < 256;
  wf_memory_bytes : Forall is_byte p.(memory);
  wf_stack_words : Forall is_word p.(stack)
}.

(** The value of register [x] (0 when [x] is no register). *)
Definition V (p : Processor) (x : Z) : Z :=
  match reg x p with Ok b => b | Panic _ => 0 end.

(** The byte at address [a] (0 outside the memory). *)
Definition M (p : Processor) (a : Z) : Z :=
  match mem a p with Ok b => b | Panic _ => 0 end.

(** The instruction word with nibbles [k], [x], [y], [n]. *)
Definition word (k x y n : Z) : Z := k * 4096 + x * 256 + y * 16 + n.

(** A four-bit field: a register index, a key, a sprite height. *)
Definition nibble (z : Z) : Prop := 0 <= z < 16.

(** The state after [Reset], with the program counter at the program
    origin: a concrete well-formed state. *)
Definition fresh : Processor :=
  set_pc
    (match Reset with Ok p => p | Panic _ => zero_Processor end)
    ProgramStartAddress.

(** ** Further vocabulary and concrete states *)

(** Arrays of bytes as lists: [Vl l k] is the cell [l[k]] (0 out of
    range); [V p x] is [Vl p.(v) x] and [M p a] is [Vl p.(memory) a]. *)
Definition Vl (l : list Z) (x : Z) : Z :=
  match index_get l x with Ok b => b | Panic _ => 0 end.

(** A blitter that draws nothing: an arbitrary instance of the section's
    parameter, used where a theorem is applied to concrete data. *)
Definition idle_blitter (vx vy n : Z) (p : Processor) : result Processor := Ok p.

(** [fresh] with the register file [l]. *)
Definition with_regs (l : list Z) : Processor := set_v fresh l.

(** [fresh] with [bytes] stored from the program origin on. *)
Definition with_program (bytes : list Z) : Processor :=
  match Load bytes fresh with Ok p => p | Panic _ => fresh end.

(** [is_byte] and [is_word] as tests, for checking concrete lists. *)
Definition byte_ok (b : Z) : bool := (0 <=? b) && (b <? 256).

Definition word_ok (b : Z) : bool := (0 <=? b) && (b <? 65536).

(** [V1 = 0xFF], [V2 = 0x01]: the addition of the two overflows. *)
Definition regs_ff_01 : list Z := [0; 0xFF; 0x01; 0; 0; 0; 0; 0; 0; 0; 0; 0; 0; 0; 0; 0].

(** Register files for the cases in which an operand or the target is
    register [0xF] itself. *)
Definition regs_v1 (b f : Z) : list Z := [0; b; 0; 0; 0; 0; 0; 0; 0; 0; 0; 0; 0; 0; 0; f].

(** The three decimal digits of a byte, packed one per nibble. *)
Definition packed_digits (b : Z) : Z :=
  (b / 100) * 256 + ((b / 10) mod 10) * 16 + b mod 10.

(** [V1 = 156]. *)
Definition regs_156 : list Z := [0; 156; 0; 0; 0; 0; 0; 0; 0; 0; 0; 0; 0; 0; 0; 0].

(** That register file with the index register at [I]. *)
Definition bcd_state (I : Z) : Processor := set_i (with_regs regs_156) I.

(** The call stack is untouched. *)
Definition same_stack (p c : Processor) : Prop :=
  c.(sp) = p.(sp) /\ c.(stack) = p.(stack).

(** The reference instant of the timers is untouched. *)
Definition same_clock (p c : Processor) : Prop :=
  c.(lastTimerUpdate) = p.(lastTimerUpdate).

(** What no store into the registers or the memory touches. *)
Definition same_frame (p c : Processor) : Prop :=
  same_stack p c /\ same_clock p c.

(** The depth of the call stack is within its 16 slots. *)
Definition depth_ok (p : Processor) : Prop := 0 <= p.(sp) <= 16.

(** A blitter that leaves the call stack alone. *)
Definition keeps_stack (DS : Z -> Z -> Z -> Processor -> result Processor)
  : Prop :=
  forall a b n q q', DS a b n q = Ok q' -> same_stack q q'.

(** Execute the instruction words [ops] one after the other. *)
Fixpoint exec_all (DS : Z -> Z -> Z -> Processor -> result Processor)
  (rnd : Z) (ops : list Z) (p : Processor) : result Processor :=
  match ops with
  | [] => Ok p
  | op :: rest => r <- Execute DS rnd op 0 p ;; exec_all DS rnd rest (fst r)
  end.

(** The state in which [Execute] runs: the program counter already moved
    past the instruction. *)
Definition fetched (p : Processor) : Processor := set_pc p (u16 (p.(pc) + 2)).

(** Whether key [k] is down (no key outside the pad is). *)
Definition key_down (p : Processor) (k : Z) : bool :=
  match index_get p.(keyState) k with Ok b => b | Panic _ => false end.

(** The program F10A at the origin, with keys 2 and 5 held down. *)
Definition waiting_state : Processor :=
  set_keyState (with_program [0xF1; 0x0A])
    (<[2%nat := true]> (<[5%nat := true]> (replicate 16 false))).

(** The program F11E at the origin, [V1 = 0xFF] and [I = 0xFFFF]: the sum
    wraps around to [0xFE]. *)
Definition index_state : Processor :=
  set_i (set_v (with_program [0xF1; 0x1E]) regs_ff_01) 0xFFFF.

(** The number of bytes [Write] and [Read] transfer from [loc] on. *)
Definition transfer_count (loc len : Z) : Z := Z.min len (Z.max 0 (0xFFF - loc)).

(** A blitter that returns well-formed states. *)
Definition keeps_wf (DS : Z -> Z -> Z -> Processor -> result Processor) : Prop :=
  forall a b n q q', wf q -> DS a b n q = Ok q' -> wf q'.

(** A blitter that leaves the timers' reference instant alone. *)
Definition keeps_clock (DS : Z -> Z -> Z -> Processor -> result Processor)
  : Prop :=
  forall a b n q q', DS a b n q = Ok q' -> same_clock q q'.

(** What one step takes from outside: the random draw and the two clock
    readings of its timer block. *)
Record StepInput : Type := mkStepInput {
  in_rnd : Z;
  in_since : Z;
  in_now : Z
}.

(** Whether the timer block of a step that reads the clock at [t_since]
    fires in state [p]. *)
Definition due (t_since : Z) (p : Processor) : bool :=
  TimerRate <=? Since t_since p.(lastTimerUpdate).

(** A run of steps, one per input, with the number of steps that started
    with their timer block due. *)
Fixpoint run (DS : Z -> Z -> Z -> Processor -> result Processor)
  (inputs : list StepInput) (p : Processor) : result (Processor * Z) :=
  match inputs with
  | [] => Ok (p, 0)
  | x :: rest =>
      r <- Step DS x.(in_rnd) x.(in_since) x.(in_now) p ;;
      r' <- run DS rest (fst r) ;;
      Ok (fst r', (if due x.(in_since) p then 1 else 0) + snd r')
  end.

(** The same instructions without any timer block. *)
Fixpoint run_untimed (DS : Z -> Z -> Z -> Processor -> result Processor)
  (inputs : list StepInput) (p : Processor) : result Processor :=
  match inputs with
  | [] => Ok p
  | x :: rest =>
      r <- fetch_execute DS x.(in_rnd) p ;;
      run_untimed DS rest (fst r)
  end.

(** The clock never runs backwards over the readings of a run that starts
    at instant [t]. *)
Fixpoint monotone (t : Z) (inputs : list StepInput) : Prop :=
  match inputs with
  | [] => True
  | x :: rest =>
      t <= x.(in_since) /\ x.(in_since) <= x.(in_now) /\
      monotone x.(in_now) rest
  end.

(** The last reading of a run that starts at instant [t]. *)
Fixpoint last_reading (t : Z) (inputs : list StepInput) : Z :=
  match inputs with
  | [] => t
  | x :: rest => last_reading x.(in_now) rest
  end.

(** The program 1200 (a jump to itself) at the origin, the delay timer at
    50 and the last tick at one millisecond. *)
Definition timer_state : Processor :=
  set_lastTimerUpdate (set_delay (with_program [0x12; 0x00]) 50) 1000000.

(** Three steps half a millisecond after the last tick. *)
Definition quick_inputs : list StepInput :=
  replicate 3 (mkStepInput 0 1500000 1500000).

(** The zero value of the older [Emulator]. *)
Definition zero_Emulator : Emulator.Emulator :=
  Emulator.mkEmulator (replicate 4096 0) (replicate 16 0) (replicate 16 false)
    [] 0 0 0 0 false.

(** ** The decoder of the object-style handlers

    [Decode] maps an instruction word to one of the structs that implement
    the [OpCode] interface; a struct is a constructor here, with the fields
    of the struct as its arguments. *)

Module Decoder.

Inductive OpCode : Type :=
| ClearScreen
| SubroutineCall (nnn : Z)
| SubroutineReturn
| JumpToLocation (nnn : Z)
| JumpWithOffset (nnn : Z)
| StepIfXEqualsNN (x nn : Z)
| StepIfXNotEqualsNN (x nn : Z)
| StepIfXEqualsY (x y : Z)
| StepIfXNotEqualsY (x y : Z)
| SetXToNN (x nn : Z)
| AddNNToX (x nn : Z)
| SetXToY (x y : Z)
| OrXY (x y : Z)
| AndXY (x y : Z)
| XOrXY (x y : Z)
| AddXY (x y : Z)
| SubtractYFromX (x y : Z)
| SubtractXFromY (x y : Z)
| ShiftRightX (x : Z)
| ShiftLeftX (x : Z)
| SetIToNNN (nnn : Z)
| SetXToRandom (x nn : Z)
| DrawSprite (x y n : Z)
| StepIfKeyDown (x : Z)
| StepIfKeyUp (x : Z)
| SetXToDelay (x : Z)
| PauseUntilKeyPressed (x : Z)
| SetDelayToX (x : Z)
| SetSoundToX (x : Z)
| SetIToX (x : Z)
| SetIToSymbol (x : Z)
| BinaryCodedDecimal (x : Z)
| SetRegistersToMemory (x : Z)
| SetMemoryToRegisters (x : Z).

Definition Decode (opcode : Z) : result OpCode :=
  let kind := Z.shiftr (Z.land opcode 0xF000) 12 in
  let x := Z.shiftr (Z.land opcode 0x0F00) 8 in
  let y := Z.shiftr (Z.land opcode 0x00F0) 4 in
  let n := Z.land opcode 0x000F in
  let nn := Z.land opcode 0x00FF in
  let nnn := Z.land opcode 0x0FFF in
  match kind with
  | 0x0 =>
      match opcode with
      | 0x00E0 => Ok ClearScreen
      | 0x00EE => Ok SubroutineReturn
      | _ => Panic "unknown 0x0 opcode"
      end
  | 0x1 => Ok (JumpToLocation nnn)
  | 0x2 => Ok (SubroutineCall nnn)
  | 0x3 => Ok (StepIfXEqualsNN x nn)
  | 0x4 => Ok (StepIfXNotEqualsNN x nn)
  | 0x5 => Ok (StepIfXEqualsY x y)
  | 0x6 => Ok (SetXToNN x nn)
  | 0x7 => Ok (AddNNToX x nn)
  | 0x8 =>
      match n with
      | 0x0 => Ok (SetXToY x y)
      | 0x1 => Ok (OrXY x y)
      | 0x2 => Ok (AndXY x y)
      | 0x3 => Ok (XOrXY x y)
      | 0x4 => Ok (AddXY x y)
      | 0x5 => Ok (SubtractYFromX x y)
      | 0x6 => Ok (ShiftRightX x)
      | 0x7 => Ok (SubtractXFromY x y)
      | 0xE => Ok (ShiftLeftX x)
      | _ => Panic "unknown 0x8 opcode"
      end
  | 0x9 => Ok (StepIfXNotEqualsY x y)
  | 0xA => Ok (SetIToNNN nnn)
  | 0xB => Ok (JumpWithOffset nnn)
  | 0xC => Ok (SetXToRandom x nn)
  | 0xD => Ok (DrawSprite x y n)
  | 0xE =>
      match nn with
      | 0x9E => Ok (StepIfKeyDown x)
      | 0xA1 => Ok (StepIfKeyUp x)
      | _ => Panic "unknown 0xE opcode"
      end
  | 0xF =>
      match nn with
      | 0x07 => Ok (SetXToDelay x)
      | 0x0A => Ok (PauseUntilKeyPressed x)
      | 0x15 => Ok (SetDelayToX x)
      | 0x18 => Ok (SetSoundToX x)
      | 0x1E => Ok (SetIToX x)
      | 0x29 => Ok (SetIToSymbol x)
      | 0x33 => Ok (BinaryCodedDecimal x)
      | 0x55 => Ok (SetRegistersToMemory x)
      | 0x65 => Ok (SetMemoryToRegisters x)
      | _ => Panic "unknown 0xF opcode"
      end
  | _ => Panic "unknown opcode"
  end.

(** The [Execute] method of each struct but the two that work on the
    linked list of return addresses (these are [Objects.SubroutineCall_Execute]
    and [Objects.SubroutineReturn_Execute]): the bodies are those of the
    handlers above, statement for statement, on the fields [v], [pc], [i],
    [memory], [keyState], [display], [delay] and [sound].  [DS] is the
    blitter [cpu.DrawSprite] and [rnd] the random draw. *)
Definition Execute_method
  (DS : Z -> Z -> Z -> Processor -> result Processor) (rnd : Z)
  (o : OpCode) (info : Z) (cpu : Processor) : option (result (Processor * Z)) :=
  match o with
  | ClearScreen => Some (Ok (clearScreen info cpu))
  | SubroutineCall _ => None
  | SubroutineReturn => None
  | JumpToLocation nnn => Some (no_info (jumpToLocation nnn cpu) info)
  | JumpWithOffset nnn => Some (no_info (jumpWithOffset nnn cpu) info)
  | StepIfXEqualsNN x nn => Some (no_info (stepIfXEqualsNN x nn cpu) info)
  | StepIfXNotEqualsNN x nn => Some (no_info (stepIfXNotEqualsNN x nn cpu) info)
  | StepIfXEqualsY x y => Some (no_info (stepIfXEqualsY x y cpu) info)
  | StepIfXNotEqualsY x y => Some (no_info (stepIfXNotEqualsY x y cpu) info)
  | SetXToNN x nn => Some (no_info (setXToNN x nn cpu) info)
  | AddNNToX x nn => Some (no_info (addNNToX x nn cpu) info)
  | SetXToY x y => Some (no_info (setXToY x y cpu) info)
  | OrXY x y => Some (no_info (orXY x y cpu) info)
  | AndXY x y => Some (no_info (andXY x y cpu) info)
  | XOrXY x y => Some (no_info (xorXY x y cpu) info)
  | AddXY x y => Some (no_info (addXY x y cpu) info)
  | SubtractYFromX x y => Some (no_info (subtractYFromX x y cpu) info)
  | SubtractXFromY x y => Some (no_info (subtractXFromY x y cpu) info)
  | ShiftRightX x => Some (no_info (shiftRightX x cpu) info)
  | ShiftLeftX x => Some (no_info (shiftLeftX x cpu) info)
  | SetIToNNN nnn => Some (no_info (setIToNNN nnn cpu) info)
  | SetXToRandom x nn => Some (no_info (setXToRandom rnd x nn cpu) info)
  | DrawSprite x y n => Some (drawSprite DS x y n info cpu)
  | StepIfKeyDown x => Some (no_info (stepIfKeyDown x cpu) info)
  | StepIfKeyUp x => Some (no_info (stepIfKeyUp x cpu) info)
  | SetXToDelay x => Some (no_info (setXToDelay x cpu) info)
  | PauseUntilKeyPressed x => Some (no_info (pauseUntilKeyPressed x cpu) info)
  | SetDelayToX x => Some (no_info (setDelayToX x cpu) info)
  | SetSoundToX x => Some (no_info (setSoundToX x cpu) info)
  | SetIToX x => Some (no_info (setIToX x cpu) info)
  | SetIToSymbol x => Some (no_info (setIToSymbol x cpu) info)
  | BinaryCodedDecimal x => Some (no_info (binaryCodedDecimal x cpu) info)
  | SetRegistersToMemory x => Some (no_info (setRegistersToMemory x cpu) info)
  | SetMemoryToRegisters x => Some (no_info (setMemoryToRegisters x cpu) info)
  end.

(** The instruction word of a struct, with 0 in the nibbles the struct
    does not keep. *)
Definition encode (o : OpCode) : Z :=
  match o with
  | ClearScreen => 0x00E0
  | SubroutineReturn => 0x00EE
  | JumpToLocation nnn => 0x1000 + nnn
  | SubroutineCall nnn => 0x2000 + nnn
  | StepIfXEqualsNN x nn => 0x3000 + x * 256 + nn
  | StepIfXNotEqualsNN x nn => 0x4000 + x * 256 + nn
  | StepIfXEqualsY x y => word 5 x y 0
  | SetXToNN x nn => 0x6000 + x * 256 + nn
  | AddNNToX x nn => 0x7000 + x * 256 + nn
  | SetXToY x y => word 8 x y 0
  | OrXY x y => word 8 x y 1
  | AndXY x y => word 8 x y 2
  | XOrXY x y => word 8 x y 3
  | AddXY x y => word 8 x y 4
  | SubtractYFromX x y => word 8 x y 5
  | ShiftRightX x => word 8 x 0 6
  | SubtractXFromY x y => word 8 x y 7
  | ShiftLeftX x => word 8 x 0 0xE
  | StepIfXNotEqualsY x y => word 9 x y 0
  | SetIToNNN nnn => 0xA000 + nnn
  | JumpWithOffset nnn => 0xB000 + nnn
  | SetXToRandom x nn => 0xC000 + x * 256 + nn
  | DrawSprite x y n => word 0xD x y n
  | StepIfKeyDown x => word 0xE x 9 0xE
  | StepIfKeyUp x => word 0xE x 0xA 1
  | SetXToDelay x => word 0xF x 0 7
  | PauseUntilKeyPressed x => word 0xF x 0 0xA
  | SetDelayToX x => word 0xF x 1 5
  | SetSoundToX x => word 0xF x 1 8
  | SetIToX x => word 0xF x 1 0xE
  | SetIToSymbol x => word 0xF x 2 9
  | BinaryCodedDecimal x => word 0xF x 3 3
  | SetRegistersToMemory x => word 0xF x 5 5
  | SetMemoryToRegisters x => word 0xF x 6 5
  end.

(** The fields of a struct are within their widths. *)
Definition fields_ok (o : OpCode) : Prop :=
  match o with
  | ClearScreen | SubroutineReturn => True
  | JumpToLocation nnn | SubroutineCall nnn | SetIToNNN nnn
  | JumpWithOffset nnn => 0 <= nnn < 4096
  | StepIfXEqualsNN x nn | StepIfXNotEqualsNN x nn | SetXToNN x nn
  | AddNNToX x nn | SetXToRandom x nn => nibble x /\ 0 <= nn < 256
  | StepIfXEqualsY x y | StepIfXNotEqualsY x y | SetXToY x y | OrXY x y
  | AndXY x y | XOrXY x y | AddXY x y | SubtractYFromX x y
  | SubtractXFromY x y => nibble x /\ nibble y
  | DrawSprite x y n => nibble x /\ nibble y /\ nibble n
  | ShiftRightX x | ShiftLeftX x | StepIfKeyDown x | StepIfKeyUp x
  | SetXToDelay x | PauseUntilKeyPressed x | SetDelayToX x | SetSoundToX x
  | SetIToX x | SetIToSymbol x | BinaryCodedDecimal x
  | SetRegistersToMemory x | SetMemoryToRegisters x => nibble x
  end.

End Decoder.

(** ** The rest of the older [Emulator]: font, timers, keys *)

Module Legacy.

(** [for i, symbol := range fontSet { e.memory[FontStartAddress+i] = symbol }] *)
Fixpoint loadFont_loop (k : Z) (symbols : list Z) (e : Emulator.Emulator)
  : result Emulator.Emulator :=
  match symbols with
  | [] => Ok e
  | symbol :: rest =>
      m <- index_set e.(Emulator.memory) (FontStartAddress + k) symbol ;;
      loadFont_loop (k + 1) rest (Emulator.set_memory e m)
  end.

Definition loadFont (e : Emulator.Emulator) : result Emulator.Emulator :=
  loadFont_loop 0 fontSet e.

(** The [delay] struct is its one field [timer], a [uint8]. *)
Definition delay_Value (timer : Z) : Z := timer.
Definition delay_Add (n : Z) (timer : Z) : Z := u8 (timer + n).
Definition delay_Dec (timer : Z) : Z :=
  if 0 <? timer then u8 (timer - 1) else timer.

(** The key names that [keyMap] mentions; any other name a key event may
    carry is [KeyOther]. *)
Inductive KeyName : Type :=
| Key1 | Key2 | Key3 | Key4
| KeyQ | KeyW | KeyE | KeyR
| KeyA | KeyS | KeyD | KeyF
| KeyZ | KeyX | KeyC | KeyV
| KeyOther (name : string).

(** [hex, ok := keyMap[name]] *)
Definition keyMap (name : KeyName) : option Z :=
  match name with
  | Key1 => Some 0x1 | Key2 => Some 0x2 | Key3 => Some 0x3 | Key4 => Some 0xC
  | KeyQ => Some 0x4 | KeyW => Some 0x5 | KeyE => Some 0x6 | KeyR => Some 0xD
  | KeyA => Some 0x7 | KeyS => Some 0x8 | KeyD => Some 0x9 | KeyF => Some 0xE
  | KeyZ => Some 0xA | KeyX => Some 0x0 | KeyC => Some 0xB | KeyV => Some 0xF
  | KeyOther _ => None
  end.

Definition set_keyState (e : Emulator.Emulator) (ks : list bool)
  : Emulator.Emulator :=
  Emulator.mkEmulator e.(Emulator.memory) e.(Emulator.v) ks e.(Emulator.stack)
    e.(Emulator.pc) e.(Emulator.i) e.(Emulator.delay) e.(Emulator.sound)
    e.(Emulator.running).

Definition onKeyDown (name : KeyName) (e : Emulator.Emulator)
  : result Emulator.Emulator :=
  match keyMap name with
  | Some hex =>
      ks <- index_set e.(Emulator.keyState) hex true ;;
      Ok (set_keyState e ks)
  | None => Ok e
  end.

Definition onKeyUp (name : KeyName) (e : Emulator.Emulator)
  : result Emulator.Emulator :=
  match keyMap name with
  | Some hex =>
      ks <- index_set e.(Emulator.keyState) hex false ;;
      Ok (set_keyState e ks)
  | None => Ok e
  end.

End Legacy.

(** ** Vocabulary of the further properties *)

(** The 80 bytes of the font are in memory from [FontStartAddress] on. *)
Definition font_loaded (p : Processor) : Prop :=
  forall k, 0 <= k < 80 -> M p (FontStartAddress + k) = Vl fontSet k.

(** The instruction word made of the bytes [hi] and [lo]. *)
Definition word_of_bytes (hi lo : Z) : Z := hi * 256 + lo.

(** Whether key [k] of the older [Emulator] is down. *)
Definition legacy_key_down (e : Emulator.Emulator) (k : Z) : bool :=
  match index_get e.(Emulator.keyState) k with Ok b => b | Panic _ => false end.

(** [n] decrements of the older delay timer. *)
Fixpoint delay_Dec_times (n : nat) (timer : Z) : Z :=
  match n with
  | O => timer
  | S n' => delay_Dec_times n' (Legacy.delay_Dec timer)
  end.

(** [n] returns of the object-style processor, one after the other. *)
Fixpoint linked_returns (n : nat) (cpu : Objects.Control)
  : result Objects.Control :=
  match n with
  | O => Ok cpu
  | S n' =>
      cpu' <- linked_returns n' cpu ;;
      Objects.SubroutineReturn_Execute cpu'
  end.

(** An older [Emulator] whose memory has the 4096 cells of its array type
    and whose key states the 16 of theirs. *)
Definition legacy_shape (e : Emulator.Emulator) : Prop :=
  length e.(Emulator.memory) = 4096%nat /\
  length e.(Emulator.keyState) = 16%nat.

(** * Properties *)

(** ** The error monad and checked arrays *)

Lemma bind_Ok_inv {A B} (m : result A) (k : A -> result B) (b : B) :
  bind m k = Ok b -> exists a, m = Ok a /\ k a = Ok b.
Proof. destruct m as [a|msg]; simpl; [eauto | discriminate]. Qed.

Lemma index_get_lookup {A} (a : list A) (k : Z) (x : A) :
  0 <= k -> a !! Z.to_nat k = Some x -> index_get a k = Ok x.
Proof.
  unfold index_get. intros Hk ->.
  destruct (Z.ltb_spec k 0); [lia | reflexivity].
Qed.

Lemma index_get_in_range {A} (a : list A) (k : Z) :
  0 <= k < Z.of_nat (length a) ->
  exists x, index_get a k = Ok x /\ a !! Z.to_nat k = Some x.
Proof.
  intros Hk. destruct (lookup_lt_is_Some_2 a (Z.to_nat k)) as [x Hx]; [lia|].
  exists x. split; [apply index_get_lookup; [lia | exact Hx] | exact Hx].
Qed.

Lemma index_get_out {A} (a : list A) (k : Z) :
  Z.of_nat (length a) <= k -> index_get a k = Panic out_of_range.
Proof.
  intros Hk. unfold index_get. destruct (k <? 0); [reflexivity|].
  now rewrite (lookup_ge_None_2 a (Z.to_nat k)) by lia.
Qed.

Lemma index_set_in_range {A} (a : list A) (k : Z) (x : A) :
  0 <= k < Z.of_nat (length a) ->
  index_set a k x = Ok (<[Z.to_nat k := x]> a).
Proof.
  intros Hk. unfold index_set. destruct (Z.ltb_spec k 0); [lia|].
  destruct (Nat.ltb_spec (Z.to_nat k) (length a)); [reflexivity | lia].
Qed.

Lemma index_set_out {A} (a : list A) (k : Z) (x : A) :
  Z.of_nat (length a) <= k -> index_set a k x = Panic out_of_range.
Proof.
  intros Hk. unfold index_set. destruct (k <? 0); [reflexivity|].
  destruct (Nat.ltb_spec (Z.to_nat k) (length a)); [lia | reflexivity].
Qed.

(** ** Registers *)

Lemma set_reg_ok (p : Processor) (x b : Z) :
  length p.(v) = 16%nat -> nibble x ->
  set_reg x b p = Ok (set_v p (<[Z.to_nat x := b]> p.(v))).
Proof.
  intros Hl [Hx0 Hx1]. unfold set_reg.
  rewrite index_set_in_range by lia. reflexivity.
Qed.

Lemma reg_V (p : Processor) (x : Z) :
  length p.(v) = 16%nat -> nibble x -> reg x p = Ok (V p x).
Proof.
  intros Hl [Hx0 Hx1]. unfold V, reg.
  destruct (index_get_in_range p.(v) x) as [b [-> _]]; [lia | reflexivity].
Qed.

Lemma V_byte (p : Processor) (x : Z) :
  Forall is_byte p.(v) -> is_byte (V p x).
Proof.
  intros Hb. unfold V, reg, index_get.
  destruct (x <? 0); [unfold is_byte; lia|].
  destruct (p.(v) !! Z.to_nat x) as [b|] eqn:E; [| unfold is_byte; lia].
  eapply Forall_lookup_1; eauto.
Qed.

Lemma nibble_CarryFlag : nibble CarryFlag.
Proof. unfold nibble, CarryFlag. lia. Qed.

Lemma V_Vl (p : Processor) (x : Z) : V p x = Vl p.(v) x.
Proof. reflexivity. Qed.

Lemma Vl_insert_eq (l : list Z) (x b : Z) :
  0 <= x < Z.of_nat (length l) -> Vl (<[Z.to_nat x := b]> l) x = b.
Proof.
  intros Hx. unfold Vl, index_get. destruct (Z.ltb_spec x 0); [lia|].
  rewrite list_lookup_insert_eq by lia. reflexivity.
Qed.

Lemma Vl_insert_ne (l : list Z) (x y b : Z) :
  0 <= x -> 0 <= y -> x <> y -> Vl (<[Z.to_nat x := b]> l) y = Vl l y.
Proof.
  intros Hx Hy Hne. unfold Vl, index_get. destruct (y <? 0); [reflexivity|].
  rewrite list_lookup_insert_ne by lia. reflexivity.
Qed.

Ltac regs_side :=
  cbn [v set_v]; rewrite ?length_insert;
  first [assumption | apply nibble_CarryFlag].

(** Symbolic execution of a handler that only touches registers. *)
Ltac run_regs :=
  cbn [bind v set_v];
  repeat (first [ rewrite set_reg_ok by regs_side
                | rewrite reg_V by regs_side ];
          cbn [bind v set_v]).

Section RegisterHandlers.

Variable p : Processor.
Variables x y : Z.
Hypothesis Hlen : length p.(v) = 16%nat.
Hypothesis Hx : nibble x.
Hypothesis Hy : nibble y.

(** The register file once [v[CarryFlag]] holds [f]. *)
Local Abbreviation flagged f := (<[Z.to_nat CarryFlag := f]> p.(v)).

Lemma orXY_run :
  orXY x y p =
  Ok (set_v p (<[Z.to_nat x := Z.lor (Vl (flagged 0) x) (Vl (flagged 0) y)]>
                 (flagged 0))).
Proof. unfold orXY. run_regs. reflexivity. Qed.

Lemma andXY_run :
  andXY x y p =
  Ok (set_v p (<[Z.to_nat x := Z.land (Vl (flagged 0) x) (Vl (flagged 0) y)]>
                 (flagged 0))).
Proof. unfold andXY. run_regs. reflexivity. Qed.

Lemma xorXY_run :
  xorXY x y p =
  Ok (set_v p (<[Z.to_nat x := Z.lxor (Vl (flagged 0) x) (Vl (flagged 0) y)]>
                 (flagged 0))).
Proof. unfold xorXY. run_regs. reflexivity. Qed.

Lemma addXY_run :
  addXY x y p =
  let sum := u16 (u16 (V p x) + u16 (V p y)) in
  Ok (set_v p (<[Z.to_nat x := u8 (Z.land sum 0xFF)]>
                 (flagged (if 255 <? sum then 1 else 0)))).
Proof.
  unfold addXY. run_regs. cbv zeta.
  destruct (255 <? u16 (u16 (V p x) + u16 (V p y))); run_regs.
  - now rewrite list_insert_insert_eq.
  - reflexivity.
Qed.

Lemma subtractYFromX_run :
  subtractYFromX x y p =
  let f := if Vl (flagged 0) y <=? Vl (flagged 0) x then 1 else 0 in
  Ok (set_v p (<[Z.to_nat x := u8 (Vl (flagged f) x - Vl (flagged f) y)]>
                 (flagged f))).
Proof.
  unfold subtractYFromX. run_regs. rewrite !V_Vl. cbn [v set_v]. cbv zeta.
  destruct (Vl (flagged 0) y <=? Vl (flagged 0) x); run_regs.
  - rewrite !V_Vl. cbn [v set_v]. now rewrite !list_insert_insert_eq.
  - reflexivity.
Qed.

Lemma subtractXFromY_run :
  subtractXFromY x y p =
  let f := if Vl (flagged 0) x <=? Vl (flagged 0) y then 1 else 0 in
  Ok (set_v p (<[Z.to_nat x := u8 (Vl (flagged f) y - Vl (flagged f) x)]>
                 (flagged f))).
Proof.
  unfold subtractXFromY. run_regs. rewrite !V_Vl. cbn [v set_v]. cbv zeta.
  destruct (Vl (flagged 0) x <=? Vl (flagged 0) y); run_regs.
  - rewrite !V_Vl. cbn [v set_v]. now rewrite !list_insert_insert_eq.
  - reflexivity.
Qed.

End RegisterHandlers.

(** ** Decoding *)

Lemma field_shift (z m s : Z) :
  0 <= s -> Z.shiftr (Z.land z (Z.shiftl m s)) s = Z.land (Z.shiftr z s) m.
Proof.
  intros Hs. rewrite Z.shiftr_land. f_equal.
  rewrite Z.shiftr_shiftl_l by lia. now rewrite Z.sub_diag, Z.shiftl_0_r.
Qed.

Lemma op_kind_div (op : Z) : op_kind op = (op / 4096) mod 16.
Proof.
  unfold op_kind. change 0xF000 with (Z.shiftl 15 12).
  rewrite field_shift by lia. change 15 with (Z.ones 4).
  rewrite Z.land_ones by lia. now rewrite Z.shiftr_div_pow2 by lia.
Qed.

Lemma op_x_div (op : Z) : op_x op = (op / 256) mod 16.
Proof.
  unfold op_x. change 0x0F00 with (Z.shiftl 15 8).
  rewrite field_shift by lia. change 15 with (Z.ones 4).
  rewrite Z.land_ones by lia. now rewrite Z.shiftr_div_pow2 by lia.
Qed.

Lemma op_y_div (op : Z) : op_y op = (op / 16) mod 16.
Proof.
  unfold op_y. change 0x00F0 with (Z.shiftl 15 4).
  rewrite field_shift by lia. change 15 with (Z.ones 4).
  rewrite Z.land_ones by lia. now rewrite Z.shiftr_div_pow2 by lia.
Qed.

Lemma op_n_mod (op : Z) : op_n op = op mod 16.
Proof.
  unfold op_n. change 0x000F with (Z.ones 4). now rewrite Z.land_ones by lia.
Qed.

Lemma op_nn_mod (op : Z) : op_nn op = op mod 256.
Proof.
  unfold op_nn. change 0x00FF with (Z.ones 8). now rewrite Z.land_ones by lia.
Qed.

Lemma op_nnn_mod (op : Z) : op_nnn op = op mod 4096.
Proof.
  unfold op_nnn. change 0x0FFF with (Z.ones 12). now rewrite Z.land_ones by lia.
Qed.

Lemma decode_word (k x y n : Z) :
  nibble k -> nibble x -> nibble y -> nibble n ->
  op_kind (word k x y n) = k /\ op_x (word k x y n) = x /\
  op_y (word k x y n) = y /\ op_n (word k x y n) = n /\
  op_nn (word k x y n) = y * 16 + n /\
  op_nnn (word k x y n) = x * 256 + y * 16 + n.
Proof.
  unfold nibble, word. intros Hk Hx Hy Hn.
  rewrite op_kind_div, op_x_div, op_y_div, op_n_mod, op_nn_mod, op_nnn_mod.
  repeat split; Z.div_mod_to_equations; lia.
Qed.

Lemma nibble_lit (z : Z) : (0 <=? z) && (z <? 16) = true -> nibble z.
Proof. unfold nibble. intros H. apply andb_prop in H. lia. Qed.

(** Reduce [Execute] at the word [word k x y n] to the handler it selects. *)
Ltac dispatch Hx Hy :=
  let D := fresh "D" in
  match goal with
  | |- context [Execute _ _ (word ?k ?x ?y ?n)] =>
      pose proof (decode_word k x y n) as D;
      destruct D as (Dk & Dx & Dy & Dn & Dnn & Dnnn);
      [ first [assumption | now apply nibble_lit] ..
      | unfold Execute; cbv zeta;
        rewrite ?Dk, ?Dx, ?Dy, ?Dn, ?Dnn, ?Dnnn; try reflexivity ]
  end.

Section Dispatch.

Variable DS : Z -> Z -> Z -> Processor -> result Processor.
Variables (rnd info : Z) (p : Processor) (x y : Z).
Hypothesis Hx : nibble x.
Hypothesis Hy : nibble y.

Lemma Execute_orXY :
  Execute DS rnd (word 8 x y 1) info p = no_info (orXY x y p) info.
Proof. dispatch Hx Hy. Qed.

Lemma Execute_andXY :
  Execute DS rnd (word 8 x y 2) info p = no_info (andXY x y p) info.
Proof. dispatch Hx Hy. Qed.

Lemma Execute_xorXY :
  Execute DS rnd (word 8 x y 3) info p = no_info (xorXY x y p) info.
Proof. dispatch Hx Hy. Qed.

Lemma Execute_addXY :
  Execute DS rnd (word 8 x y 4) info p = no_info (addXY x y p) info.
Proof. dispatch Hx Hy. Qed.

Lemma Execute_subtractYFromX :
  Execute DS rnd (word 8 x y 5) info p = no_info (subtractYFromX x y p) info.
Proof. dispatch Hx Hy. Qed.

Lemma Execute_subtractXFromY :
  Execute DS rnd (word 8 x y 7) info p = no_info (subtractXFromY x y p) info.
Proof. dispatch Hx Hy. Qed.

End Dispatch.

(** ** Concrete states for the examples *)

Lemma bytes_check (l : list Z) : forallb byte_ok l = true -> Forall is_byte l.
Proof.
  induction l as [|b l IH]; simpl; intros H; [constructor|].
  apply andb_prop in H. destruct H as [Hb Hl].
  constructor; [| now apply IH].
  unfold byte_ok in Hb. apply andb_prop in Hb. unfold is_byte. lia.
Qed.

Lemma words_check (l : list Z) : forallb word_ok l = true -> Forall is_word l.
Proof.
  induction l as [|b l IH]; simpl; intros H; [constructor|].
  apply andb_prop in H. destruct H as [Hb Hl].
  constructor; [| now apply IH].
  unfold word_ok in Hb. apply andb_prop in Hb. unfold is_word. lia.
Qed.

Ltac wf_concrete :=
  split;
  [ vm_compute; reflexivity | vm_compute; reflexivity | vm_compute; reflexivity
  | vm_compute; reflexivity | vm_compute; reflexivity
  | apply bytes_check; vm_compute; reflexivity
  | vm_compute; split; congruence | vm_compute; split; congruence
  | vm_compute; split; congruence | vm_compute; split; congruence
  | vm_compute; split; congruence
  | apply bytes_check; vm_compute; reflexivity
  | apply words_check; vm_compute; reflexivity ].

Lemma wf_fresh : wf fresh.
Proof. wf_concrete. Qed.

Lemma wf_set_v (p : Processor) (l : list Z) :
  wf p -> length l = 16%nat -> Forall is_byte l -> wf (set_v p l).
Proof. intros [] Hl Hb. split; assumption. Qed.

Lemma wf_set_i (p : Processor) (z : Z) :
  wf p -> 0 <= z < 65536 -> wf (set_i p z).
Proof. intros [] Hz. split; assumption. Qed.

Lemma wf_set_memory (p : Processor) (m : list Z) :
  wf p -> length m = 4096%nat -> Forall is_byte m -> wf (set_memory p m).
Proof. intros [] Hm Hb. split; assumption. Qed.

Lemma wf_set_pc (p : Processor) (z : Z) :
  wf p -> 0 <= z < 65536 -> wf (set_pc p z).
Proof. intros [] Hz. split; assumption. Qed.

Lemma wf_with_regs (l : list Z) :
  length l = 16%nat -> Forall is_byte l -> wf (with_regs l).
Proof. intros Hl Hb. apply wf_set_v; [exact wf_fresh | assumption ..]. Qed.

(** ** Logical and arithmetic instructions (claims C1, C2) *)

Ltac vl_side :=
  unfold nibble, CarryFlag in *; rewrite ?length_insert; lia.

Ltac vl_simpl :=
  rewrite ?V_Vl; cbn [v set_v];
  repeat first [ rewrite Vl_insert_eq by vl_side
               | rewrite Vl_insert_ne by vl_side ].

Section DistinctRegisters.

Variable p : Processor.
Variables x y : Z.
Hypothesis Hlen : length p.(v) = 16%nat.
Hypothesis Hbytes : Forall is_byte p.(v).
Hypothesis Hx : nibble x.
Hypothesis Hy : nibble y.
Hypothesis Hxf : x <> CarryFlag.

Lemma orXY_distinct :
  exists c, orXY x y p = Ok c /\
    V c CarryFlag = 0 /\
    (y <> CarryFlag -> V c x = Z.lor (V p x) (V p y)).
Proof.
  rewrite orXY_run by assumption.
  eexists; split; [reflexivity|].
  split; [| intros Hyf]; vl_simpl; reflexivity.
Qed.

Lemma andXY_distinct :
  exists c, andXY x y p = Ok c /\
    V c CarryFlag = 0 /\
    (y <> CarryFlag -> V c x = Z.land (V p x) (V p y)).
Proof.
  rewrite andXY_run by assumption.
  eexists; split; [reflexivity|].
  split; [| intros Hyf]; vl_simpl; reflexivity.
Qed.

Lemma xorXY_distinct :
  exists c, xorXY x y p = Ok c /\
    V c CarryFlag = 0 /\
    (y <> CarryFlag -> V c x = Z.lxor (V p x) (V p y)).
Proof.
  rewrite xorXY_run by assumption.
  eexists; split; [reflexivity|].
  split; [| intros Hyf]; vl_simpl; reflexivity.
Qed.

Lemma sum_of_bytes :
  u16 (u16 (V p x) + u16 (V p y)) = V p x + V p y /\
  0 <= V p x + V p y < 511.
Proof.
  pose proof (V_byte p x Hbytes) as Bx. pose proof (V_byte p y Hbytes) as By.
  unfold is_byte, u16 in *.
  rewrite (Z.mod_small (V p x)), (Z.mod_small (V p y)) by lia.
  rewrite Z.mod_small by lia. lia.
Qed.

Lemma addXY_sum :
  exists c, addXY x y p = Ok c /\
    V c x = (V p x + V p y) mod 256 /\
    V c CarryFlag = (if 255 <? V p x + V p y then 1 else 0).
Proof.
  rewrite addXY_run by assumption. cbv zeta.
  destruct sum_of_bytes as [-> Hs].
  eexists; split; [reflexivity|]. split.
  - vl_simpl. unfold u8. change 0xFF with (Z.ones 8).
    rewrite Z.land_ones by lia. change (2 ^ 8) with 256.
    now rewrite Z.mod_mod by lia.
  - vl_simpl. reflexivity.
Qed.

Lemma subtractYFromX_distinct :
  y <> CarryFlag ->
  exists c, subtractYFromX x y p = Ok c /\
    V c CarryFlag = (if V p y <=? V p x then 1 else 0) /\
    V c x = (V p x - V p y) mod 256.
Proof.
  intros Hyf. rewrite subtractYFromX_run by assumption. cbv zeta.
  eexists; split; [reflexivity|]. split; vl_simpl; reflexivity.
Qed.

Lemma subtractXFromY_distinct :
  y <> CarryFlag ->
  exists c, subtractXFromY x y p = Ok c /\
    V c CarryFlag = (if V p x <=? V p y then 1 else 0) /\
    V c x = (V p y - V p x) mod 256.
Proof.
  intros Hyf. rewrite subtractXFromY_run by assumption. cbv zeta.
  eexists; split; [reflexivity|]. split; vl_simpl; reflexivity.
Qed.

End DistinctRegisters.

(** C1 (as amended).  For every register index [x] other than [0xF] and
    every [y]: the logical instructions 8XY1, 8XY2, 8XY3 leave 0 in
    register [0xF], and when [y] is not [0xF] either, the combined value in
    [Vx]; 8XY4 stores [(Vx + Vy) mod 256] in [Vx] and leaves in register
    [0xF] the value 1 if the sum exceeds 255 and 0 if it does not; when [y]
    is not [0xF] either, the subtractions 8XY5 and 8XY7 leave in register
    [0xF] the value 1 when the minuend is at least the subtrahend and 0
    otherwise, with the difference modulo 256 in [Vx].  Nothing is said of
    [x = 0xF], where one register would have to hold flag and result. *)
Theorem logic_add_sub_flags
  (DS : Z -> Z -> Z -> Processor -> result Processor)
  (rnd info : Z) (p : Processor) (x y : Z) :
  wf p -> nibble x -> nibble y -> x <> CarryFlag ->
  (exists c, Execute DS rnd (word 8 x y 1) info p = Ok (c, info) /\
     V c CarryFlag = 0 /\
     (y <> CarryFlag -> V c x = Z.lor (V p x) (V p y))) /\
  (exists c, Execute DS rnd (word 8 x y 2) info p = Ok (c, info) /\
     V c CarryFlag = 0 /\
     (y <> CarryFlag -> V c x = Z.land (V p x) (V p y))) /\
  (exists c, Execute DS rnd (word 8 x y 3) info p = Ok (c, info) /\
     V c CarryFlag = 0 /\
     (y <> CarryFlag -> V c x = Z.lxor (V p x) (V p y))) /\
  (exists c, Execute DS rnd (word 8 x y 4) info p = Ok (c, info) /\
     V c x = (V p x + V p y) mod 256 /\
     V c CarryFlag = (if 255 <? V p x + V p y then 1 else 0)) /\
  (y <> CarryFlag ->
     (exists c, Execute DS rnd (word 8 x y 5) info p = Ok (c, info) /\
        V c CarryFlag = (if V p y <=? V p x then 1 else 0) /\
        V c x = (V p x - V p y) mod 256) /\
     (exists c, Execute DS rnd (word 8 x y 7) info p = Ok (c, info) /\
        V c CarryFlag = (if V p x <=? V p y then 1 else 0) /\
        V c x = (V p y - V p x) mod 256)).
Proof.
  intros Hwf Hx Hy Hxf. pose proof (wf_v p Hwf) as Hlen.
  pose proof (wf_v_bytes p Hwf) as Hb.
  split; [| split; [| split; [| split; [| intros Hyf; split]]]].
  - rewrite Execute_orXY by assumption.
    destruct (orXY_distinct p x y) as (c & -> & H); auto. now exists c.
  - rewrite Execute_andXY by assumption.
    destruct (andXY_distinct p x y) as (c & -> & H); auto. now exists c.
  - rewrite Execute_xorXY by assumption.
    destruct (xorXY_distinct p x y) as (c & -> & H); auto. now exists c.
  - rewrite Execute_addXY by assumption.
    destruct (addXY_sum p x y) as (c & -> & H); auto. now exists c.
  - rewrite Execute_subtractYFromX by assumption.
    destruct (subtractYFromX_distinct p x y) as (c & -> & H); auto.
    now exists c.
  - rewrite Execute_subtractXFromY by assumption.
    destruct (subtractXFromY_distinct p x y) as (c & -> & H); auto.
    now exists c.
Qed.

Lemma logic_add_sub_flags_witness :
  wf (with_regs regs_ff_01) /\ nibble 1 /\ nibble 2 /\ 1 <> CarryFlag /\
  2 <> CarryFlag /\
  (exists c,
     Execute idle_blitter 0 (word 8 1 2 1) 0 (with_regs regs_ff_01) = Ok (c, 0) /\
     V c CarryFlag = 0 /\ V c 1 = 0xFF) /\
  (exists c,
     Execute idle_blitter 0 (word 8 1 2 2) 0 (with_regs regs_ff_01) = Ok (c, 0) /\
     V c CarryFlag = 0 /\ V c 1 = 0x01) /\
  (exists c,
     Execute idle_blitter 0 (word 8 1 2 3) 0 (with_regs regs_ff_01) = Ok (c, 0) /\
     V c CarryFlag = 0 /\ V c 1 = 0xFE) /\
  (exists c,
     Execute idle_blitter 0 (word 8 1 2 4) 0 (with_regs regs_ff_01) = Ok (c, 0) /\
     V c 1 = 0 /\ V c CarryFlag = 1) /\
  (exists c,
     Execute idle_blitter 0 (word 8 1 2 5) 0 (with_regs regs_ff_01) = Ok (c, 0) /\
     V c CarryFlag = 1 /\ V c 1 = 0xFE) /\
  (exists c,
     Execute idle_blitter 0 (word 8 1 2 7) 0 (with_regs regs_ff_01) = Ok (c, 0) /\
     V c CarryFlag = 0 /\ V c 1 = 0x02).
Proof.
  assert (Hwf : wf (with_regs regs_ff_01)).
  { apply wf_with_regs; [reflexivity | apply bytes_check; reflexivity]. }
  assert (H1 : nibble 1) by (unfold nibble; lia).
  assert (H2 : nibble 2) by (unfold nibble; lia).
  assert (N1 : 1 <> CarryFlag) by (unfold CarryFlag; lia).
  assert (N2 : 2 <> CarryFlag) by (unfold CarryFlag; lia).
  split; [exact Hwf | split; [exact H1 | split; [exact H2 |
    split; [exact N1 | split; [exact N2 |]]]]].
  destruct (logic_add_sub_flags idle_blitter 0 0 (with_regs regs_ff_01) 1 2
              Hwf H1 H2 N1)
    as ((c1 & E1 & F1 & R1) & (c2 & E2 & F2 & R2) & (c3 & E3 & F3 & R3)
        & (c4 & E4 & R4 & F4) & Hsub).
  destruct (Hsub N2) as ((c5 & E5 & F5 & R5) & (c7 & E7 & F7 & R7)).
  split; [exists c1; split; [exact E1 | split; [exact F1 | exact (R1 N2)]] |].
  split; [exists c2; split; [exact E2 | split; [exact F2 | exact (R2 N2)]] |].
  split; [exists c3; split; [exact E3 | split; [exact F3 | exact (R3 N2)]] |].
  split; [exists c4; split; [exact E4 | split; [exact R4 | exact F4]] |].
  split; [exists c5; split; [exact E5 | split; [exact F5 | exact R5]] |].
  exists c7; split; [exact E7 | split; [exact F7 | exact R7]].
Defined.

(** C1 as stated asks, for [x = 0xF], one register to hold both the flag
    and the result, which no state can do when the two differ:
    8F11 with [VF = 0], [V1 = 5] would need register [0xF] to be 0 and to be
    [0 or 5 = 5]; 8F14 with [VF = 0], [V1 = 1] would need it to be the sum 1
    and to be 1 only if the sum exceeds 255. *)
Lemma logic_add_sub_flags_counterexample :
  ~ (exists c,
       Execute idle_blitter 0 (word 8 0xF 1 1) 0 (with_regs (regs_v1 5 0)) = Ok (c, 0) /\
       V c CarryFlag = 0 /\
       V c 0xF = Z.lor (V (with_regs (regs_v1 5 0)) 0xF)
                       (V (with_regs (regs_v1 5 0)) 1)) /\
  ~ (exists c,
       Execute idle_blitter 0 (word 8 0xF 1 4) 0 (with_regs (regs_v1 1 0)) = Ok (c, 0) /\
       V c 0xF = (V (with_regs (regs_v1 1 0)) 0xF
                  + V (with_regs (regs_v1 1 0)) 1) mod 256 /\
       (V c CarryFlag = 1 <->
        255 < V (with_regs (regs_v1 1 0)) 0xF + V (with_regs (regs_v1 1 0)) 1)).
Proof.
  split; intros (c & Hc & H1 & H2); vm_compute in Hc; inversion Hc; subst c;
    clear Hc; vm_compute in H1, H2.
  - discriminate.
  - destruct H2 as [H2 _]. specialize (H2 eq_refl). discriminate.
Qed.

(** C2.  With register [0xF] as the target ([x = 0xF]) the handlers store
    the flag first and the regular result last, so the result is what
    register [0xF] holds afterwards:
    8F14 with [VF = 200], [V1 = 100] (carry 1) leaves 44, the low byte of
    the sum; 8F15 with [VF = 5], [V1 = 3] (no borrow, flag 1) leaves 253;
    8F17 with [VF = 3], [V1 = 5] (no borrow, flag 1) leaves 4;
    8F06 with [VF = 3] (bit 1 shifted out) leaves 0;
    8F0E with [VF = 0x81] (bit 1 shifted out) leaves 2. *)
Theorem flag_register_as_target :
  (exists c, Execute idle_blitter 0 (word 8 0xF 1 4) 0
               (with_regs (regs_v1 100 200)) = Ok (c, 0) /\
             V c CarryFlag = 44) /\
  (exists c, Execute idle_blitter 0 (word 8 0xF 1 5) 0
               (with_regs (regs_v1 3 5)) = Ok (c, 0) /\
             V c CarryFlag = 253) /\
  (exists c, Execute idle_blitter 0 (word 8 0xF 1 7) 0
               (with_regs (regs_v1 5 3)) = Ok (c, 0) /\
             V c CarryFlag = 4) /\
  (exists c, Execute idle_blitter 0 (word 8 0xF 0 6) 0
               (with_regs (regs_v1 0 3)) = Ok (c, 0) /\
             V c CarryFlag = 0) /\
  (exists c, Execute idle_blitter 0 (word 8 0xF 0 0xE) 0
               (with_regs (regs_v1 0 0x81)) = Ok (c, 0) /\
             V c CarryFlag = 2).
Proof.
  split; [| split; [| split; [| split]]];
    (eexists; split; [vm_compute; reflexivity | vm_compute; reflexivity]).
Qed.

(** ** Memory cells *)

Lemma M_Vl (p : Processor) (a : Z) : M p a = Vl p.(memory) a.
Proof. reflexivity. Qed.

Lemma set_mem_ok (p : Processor) (a b : Z) :
  length p.(memory) = 4096%nat -> 0 <= a < 4096 ->
  set_mem a b p = Ok (set_memory p (<[Z.to_nat a := b]> p.(memory))).
Proof.
  intros Hl Ha. unfold set_mem.
  rewrite index_set_in_range by lia. reflexivity.
Qed.

Lemma set_mem_out (p : Processor) (a b : Z) :
  length p.(memory) = 4096%nat -> 4096 <= a ->
  set_mem a b p = Panic out_of_range.
Proof.
  intros Hl Ha. unfold set_mem.
  rewrite index_set_out by lia. reflexivity.
Qed.

Lemma mem_M (p : Processor) (a : Z) :
  length p.(memory) = 4096%nat -> 0 <= a < 4096 -> mem a p = Ok (M p a).
Proof.
  intros Hl Ha. unfold M, mem.
  destruct (index_get_in_range p.(memory) a) as [b [-> _]]; [lia | reflexivity].
Qed.

Lemma mem_out (p : Processor) (a : Z) :
  length p.(memory) = 4096%nat -> 4096 <= a -> mem a p = Panic out_of_range.
Proof. intros Hl Ha. unfold mem. apply index_get_out. lia. Qed.

(** ** Binary-coded decimal (claim C3) *)

Lemma checked_below (P : Z -> bool) (n : nat) :
  forallb (fun k => P (Z.of_nat k)) (seq 0 n) = true ->
  forall b, 0 <= b < Z.of_nat n -> P b = true.
Proof.
  intros H b Hb. rewrite forallb_forall in H.
  specialize (H (Z.to_nat b)). rewrite Z2Nat.id in H by lia.
  apply H, in_seq. lia.
Qed.

Lemma double_dabble_all :
  forallb (fun k => (fun b => double_dabble b =? packed_digits b) (Z.of_nat k))
    (seq 0 256) = true.
Proof. vm_compute. reflexivity. Qed.

Lemma double_dabble_digits (b : Z) :
  0 <= b < 256 -> double_dabble b = packed_digits b.
Proof.
  intros Hb. apply Z.eqb_eq.
  exact (checked_below _ 256 double_dabble_all b Hb).
Qed.

Lemma packed_digits_nibbles (b : Z) :
  0 <= b < 256 ->
  Z.land (Z.shiftr (packed_digits b) 8) 0xF = b / 100 /\
  Z.land (Z.shiftr (packed_digits b) 4) 0xF = (b / 10) mod 10 /\
  Z.land (packed_digits b) 0xF = b mod 10.
Proof.
  intros Hb. change 0xF with (Z.ones 4).
  rewrite !Z.land_ones, !Z.shiftr_div_pow2 by lia.
  unfold packed_digits. change (2 ^ 4) with 16. change (2 ^ 8) with 256.
  repeat split; Z.div_mod_to_equations; lia.
Qed.

Lemma binaryCodedDecimal_run (p : Processor) (x : Z) :
  wf p -> nibble x -> p.(i) + 2 <= 0xFFF ->
  binaryCodedDecimal x p =
  Ok (set_memory p
        (<[Z.to_nat (p.(i) + 2) := V p x mod 10]>
           (<[Z.to_nat (p.(i) + 1) := (V p x / 10) mod 10]>
              (<[Z.to_nat p.(i) := V p x / 100]> p.(memory))))).
Proof.
  intros Hwf Hx Hi. destruct Hwf as [Hm Hv _ _ _ Hb _ _ HI _ _ _ _].
  pose proof (V_byte p x Hb) as Hbyte. unfold is_byte in Hbyte.
  unfold binaryCodedDecimal. rewrite reg_V by assumption. cbn [bind]. cbv zeta.
  assert (E : u32 (V p x) = V p x) by (unfold u32; apply Z.mod_small; lia).
  rewrite E, double_dabble_digits by lia.
  destruct (packed_digits_nibbles (V p x) Hbyte) as (-> & -> & ->).
  assert (D1 : u8 (V p x / 100) = V p x / 100).
  { unfold u8. apply Z.mod_small. Z.div_mod_to_equations; lia. }
  assert (D2 : u8 ((V p x / 10) mod 10) = (V p x / 10) mod 10).
  { unfold u8. apply Z.mod_small. Z.div_mod_to_equations; lia. }
  assert (D3 : u8 (V p x mod 10) = V p x mod 10).
  { unfold u8. apply Z.mod_small. Z.div_mod_to_equations; lia. }
  rewrite D1, D2, D3.
  rewrite set_mem_ok by (assumption || lia). cbn [bind i set_memory].
  assert (U1 : u16 (p.(i) + 1) = p.(i) + 1) by (unfold u16; apply Z.mod_small; lia).
  assert (U2 : u16 (p.(i) + 2) = p.(i) + 2) by (unfold u16; apply Z.mod_small; lia).
  rewrite U1.
  rewrite set_mem_ok by (cbn [memory set_memory]; rewrite ?length_insert; (assumption || lia)).
  cbn [bind i set_memory memory]. rewrite U2.
  rewrite set_mem_ok by (cbn [memory set_memory]; rewrite ?length_insert; (assumption || lia)).
  reflexivity.
Qed.

Lemma Execute_binaryCodedDecimal
  (DS : Z -> Z -> Z -> Processor -> result Processor)
  (rnd info : Z) (p : Processor) (x : Z) :
  nibble x ->
  Execute DS rnd (word 0xF x 3 3) info p = no_info (binaryCodedDecimal x p) info.
Proof. intros Hx. dispatch Hx Hx. Qed.

(** C3 (as amended).  When the three addresses [I], [I+1], [I+2] lie in the
    4096-byte memory ([I + 2 <= 0xFFF]), FX33 stores the hundreds digit of
    [Vx] at [I], the tens digit at [I+1] and the ones digit at [I+2], and
    changes no other memory cell and nothing else of the state; the
    double-dabble loop yields exactly these three digits, one per nibble. *)
Theorem bcd_three_digits
  (DS : Z -> Z -> Z -> Processor -> result Processor)
  (rnd info : Z) (p : Processor) (x : Z) :
  wf p -> nibble x -> p.(i) + 2 <= 0xFFF ->
  double_dabble (V p x) = packed_digits (V p x) /\
  exists c,
    Execute DS rnd (word 0xF x 3 3) info p = Ok (c, info) /\
    M c p.(i) = V p x / 100 /\
    M c (p.(i) + 1) = (V p x / 10) mod 10 /\
    M c (p.(i) + 2) = V p x mod 10 /\
    (forall a, a <> p.(i) -> a <> p.(i) + 1 -> a <> p.(i) + 2 -> M c a = M p a) /\
    c = set_memory p c.(memory).
Proof.
  intros Hwf Hx Hi. split.
  { apply double_dabble_digits. apply (V_byte p x (wf_v_bytes p Hwf)). }
  rewrite Execute_binaryCodedDecimal by assumption.
  rewrite binaryCodedDecimal_run by assumption.
  eexists. split; [reflexivity|].
  pose proof (wf_memory p Hwf) as Hm. pose proof (wf_i p Hwf) as HI.
  rewrite !M_Vl. cbn [memory set_memory].
  repeat split.
  - rewrite Vl_insert_ne, Vl_insert_ne, Vl_insert_eq by lia. reflexivity.
  - rewrite Vl_insert_ne, Vl_insert_eq by (rewrite ?length_insert; lia).
    reflexivity.
  - rewrite Vl_insert_eq by (rewrite ?length_insert; lia). reflexivity.
  - intros a H0 H1 H2. rewrite M_Vl. cbn [memory set_memory].
    destruct (Z.ltb_spec a 0) as [Hneg | Hpos].
    + rewrite M_Vl. unfold Vl, index_get.
      destruct (Z.ltb_spec a 0); [reflexivity | lia].
    + rewrite !Vl_insert_ne by lia. reflexivity.
Qed.

Lemma wf_bcd_state (I : Z) : 0 <= I < 65536 -> wf (bcd_state I).
Proof.
  intros HI. apply wf_set_i; [| exact HI].
  apply wf_with_regs; [reflexivity | apply bytes_check; reflexivity].
Qed.

(** The value 156 gives the bytes 1, 5, 6. *)
Lemma bcd_three_digits_witness :
  wf (bcd_state 0x300) /\ nibble 1 /\ 0x300 + 2 <= 0xFFF /\
  exists c,
    Execute idle_blitter 0 (word 0xF 1 3 3) 0 (bcd_state 0x300) = Ok (c, 0) /\
    M c 0x300 = 1 /\ M c 0x301 = 5 /\ M c 0x302 = 6.
Proof.
  assert (Hwf : wf (bcd_state 0x300)) by (apply wf_bcd_state; lia).
  assert (H1 : nibble 1) by (unfold nibble; lia).
  assert (HI : (bcd_state 0x300).(i) + 2 <= 0xFFF) by (vm_compute; congruence).
  split; [exact Hwf | split; [exact H1 | split; [lia |]]].
  destruct (bcd_three_digits idle_blitter 0 0 (bcd_state 0x300) 1 Hwf H1 HI)
    as (_ & c & Hc & Ha & Hb & Hd & _).
  exists c. split; [exact Hc|].
  split; [exact Ha | split; [exact Hb | exact Hd]].
Defined.

(** C3 as stated fails for an index register above [0xFFD]: with
    [I = 0xFFE] the third store indexes the memory array at [0x1000] and the
    instruction ends in the run-time panic. *)
Lemma bcd_three_digits_counterexample :
  Execute idle_blitter 0 (word 0xF 1 3 3) 0 (bcd_state 0xFFE)
  = Panic out_of_range.
Proof. vm_compute. reflexivity. Qed.

(** ** What a handler leaves alone *)

Lemma set_reg_frame (x b : Z) (p c : Processor) :
  set_reg x b p = Ok c -> c = set_v p c.(v).
Proof.
  unfold set_reg. intros H. apply bind_Ok_inv in H as (r & _ & H).
  injection H as <-. reflexivity.
Qed.

Lemma set_mem_frame (a b : Z) (p c : Processor) :
  set_mem a b p = Ok c -> c = set_memory p c.(memory).
Proof.
  unfold set_mem. intros H. apply bind_Ok_inv in H as (r & _ & H).
  injection H as <-. reflexivity.
Qed.

(** Take a successful run apart into its successful parts. *)
Ltac invert_run :=
  repeat match goal with
  | H : bind _ _ = Ok _ |- _ =>
      let a := fresh "a" in
      let Ha := fresh "Ha" in
      apply bind_Ok_inv in H as (a & Ha & H)
  | H : no_info _ _ = Ok _ |- _ => unfold no_info in H
  | H : (if ?b then _ else _) = Ok _ |- _ => destruct b eqn:?
  | H : (let '(_, _) := ?r in _) = Ok _ |- _ => destruct r
  | H : Panic _ = Ok _ |- _ => discriminate H
  | H : Ok _ = Ok _ |- _ => injection H as H
  | H : (_, _) = (_, _) |- _ => injection H as ? ?
  end.

Lemma same_frame_refl (p : Processor) : same_frame p p.
Proof. repeat split. Qed.

Lemma same_frame_trans (p q r : Processor) :
  same_frame p q -> same_frame q r -> same_frame p r.
Proof.
  unfold same_frame, same_stack, same_clock.
  intros [[] ?] [[] ?]. repeat split; congruence.
Qed.

Lemma set_reg_same_frame (x b : Z) (p c : Processor) :
  set_reg x b p = Ok c -> same_frame p c.
Proof. intros H. apply set_reg_frame in H. rewrite H. repeat split. Qed.

Lemma set_mem_same_frame (a b : Z) (p c : Processor) :
  set_mem a b p = Ok c -> same_frame p c.
Proof. intros H. apply set_mem_frame in H. rewrite H. repeat split. Qed.

Lemma scan_keys_same_frame (x : Z) (n : nat) :
  forall k p f c, scan_keys x n k p = Ok (f, c) -> same_frame p c.
Proof.
  induction n as [|n IH]; intros k p f c H; simpl in H.
  - injection H as _ <-. apply same_frame_refl.
  - apply bind_Ok_inv in H as (down & _ & H). destruct down.
    + apply bind_Ok_inv in H as (c' & Hs & H). injection H as _ <-.
      now apply set_reg_same_frame in Hs.
    + now apply IH in H.
Qed.

Lemma setRegistersToMemory_loop_same_frame (n : nat) :
  forall k p c, setRegistersToMemory_loop n k p = Ok c -> same_frame p c.
Proof.
  induction n as [|n IH]; intros k p c H; simpl in H.
  - injection H as <-. apply same_frame_refl.
  - apply bind_Ok_inv in H as (b & _ & H).
    apply bind_Ok_inv in H as (c' & Hs & H).
    apply set_mem_same_frame in Hs. apply IH in H.
    eapply same_frame_trans; eauto.
Qed.

Lemma setMemoryToRegisters_loop_same_frame (n : nat) :
  forall k p c, setMemoryToRegisters_loop n k p = Ok c -> same_frame p c.
Proof.
  induction n as [|n IH]; intros k p c H; simpl in H.
  - injection H as <-. apply same_frame_refl.
  - apply bind_Ok_inv in H as (b & _ & H).
    apply bind_Ok_inv in H as (c' & Hs & H).
    apply set_reg_same_frame in Hs. apply IH in H.
    eapply same_frame_trans; eauto.
Qed.

(** ** The call stack (claim C4) *)

Ltac frame_facts :=
  repeat match goal with
  | H : set_reg _ _ _ = Ok _ |- _ => apply set_reg_same_frame in H
  | H : set_mem _ _ _ = Ok _ |- _ => apply set_mem_same_frame in H
  | H : scan_keys _ _ _ _ = Ok _ |- _ => apply scan_keys_same_frame in H
  | H : setRegistersToMemory_loop _ _ _ = Ok _ |- _ =>
      apply setRegistersToMemory_loop_same_frame in H
  | H : setMemoryToRegisters_loop _ _ _ = Ok _ |- _ =>
      apply setMemoryToRegisters_loop_same_frame in H
  end.

Ltac unfold_handlers H :=
  unfold clearScreen, jumpToLocation, jumpWithOffset, stepIfXEqualsNN,
    stepIfXNotEqualsNN, stepIfXEqualsY, stepIfXNotEqualsY, setXToNN, addNNToX,
    setXToY, orXY, andXY, xorXY, addXY, subtractYFromX, subtractXFromY,
    shiftRightX, shiftLeftX, setIToNNN, setXToRandom, stepIfKeyDown,
    stepIfKeyUp, setXToDelay, pauseUntilKeyPressed, setDelayToX, setSoundToX,
    setIToX, setIToSymbol, binaryCodedDecimal, setRegistersToMemory,
    setMemoryToRegisters, skip, callSubroutine, returnFromSubroutine,
    drawSprite in H.

(** Case analysis on the instruction word of a successful [Execute]. *)
Ltac cases_of_Execute H :=
  unfold Execute in H; cbv zeta in H;
  repeat match type of H with
  | context [match ?z with _ => _ end] => destruct z; try discriminate H
  end;
  unfold no_info in H; unfold_handlers H.

Lemma Execute_depth (DS : Z -> Z -> Z -> Processor -> result Processor)
  (rnd op info : Z) (p c : Processor) (info' : Z) :
  keeps_stack DS -> depth_ok p ->
  Execute DS rnd op info p = Ok (c, info') -> depth_ok c.
Proof.
  intros HDS Hd H. cases_of_Execute H.
  all: invert_run; frame_facts.
  all: repeat match goal with
       | H : _ = Ok _ |- _ => apply HDS in H
       end.
  all: unfold depth_ok, same_frame, same_stack, same_clock, u8 in *;
    subst; cbn in *.
  all: try (intuition (try congruence; try lia); fail).
  all: Z.div_mod_to_equations; lia.
Qed.

Lemma tick_sp (t_since t_now : Z) (p : Processor) :
  (tick t_since t_now p).(sp) = p.(sp).
Proof.
  unfold tick. destruct (TimerRate <=? _); [| reflexivity].
  destruct (0 <? sound p); destruct (0 <? delay _); reflexivity.
Qed.

Lemma Step_depth (DS : Z -> Z -> Z -> Processor -> result Processor)
  (rnd t_since t_now : Z) (p c : Processor) (info' : Z) :
  keeps_stack DS -> depth_ok p ->
  Step DS rnd t_since t_now p = Ok (c, info') -> depth_ok c.
Proof.
  intros HDS Hd H. unfold Step, fetch_execute in H.
  apply bind_Ok_inv in H as ([q info0] & Hq & H).
  apply bind_Ok_inv in Hq as (opcode & _ & Hq).
  apply (Execute_depth _ _ _ _ _ _ _ HDS) in Hq; [| exact Hd].
  injection H as <- _. unfold depth_ok. rewrite tick_sp. exact Hq.
Qed.

Lemma decode_addr (k nnn : Z) :
  nibble k -> 0 <= nnn < 4096 ->
  op_kind (k * 4096 + nnn) = k /\ op_nnn (k * 4096 + nnn) = nnn.
Proof.
  unfold nibble. intros Hk Hn. rewrite op_kind_div, op_nnn_mod.
  split; Z.div_mod_to_equations; lia.
Qed.

Lemma Execute_callSubroutine
  (DS : Z -> Z -> Z -> Processor -> result Processor)
  (rnd info : Z) (p : Processor) (nnn : Z) :
  0 <= nnn < 4096 ->
  Execute DS rnd (0x2000 + nnn) info p = no_info (callSubroutine nnn p) info.
Proof.
  intros Hn. destruct (decode_addr 2 nnn) as [Dk Dn];
    [unfold nibble; lia | exact Hn |].
  change (2 * 4096) with 0x2000 in *.
  unfold Execute. cbv zeta. rewrite Dk, Dn. reflexivity.
Qed.

Lemma callSubroutine_ok (p : Processor) (nnn : Z) :
  length p.(stack) = 16%nat -> 0 <= p.(sp) < 16 ->
  callSubroutine nnn p =
  Ok (set_pc (set_sp (set_stack p (<[Z.to_nat p.(sp) := p.(pc)]> p.(stack)))
                (p.(sp) + 1)) nnn).
Proof.
  intros Hl Hs. unfold callSubroutine.
  destruct (Z.leb_spec 16 p.(sp)); [lia|].
  rewrite index_set_in_range by lia. cbn [bind sp set_stack].
  unfold u8. rewrite Z.mod_small by lia. reflexivity.
Qed.

Lemma callSubroutine_full (p : Processor) (nnn : Z) :
  16 <= p.(sp) -> callSubroutine nnn p = Panic "stack overflow".
Proof.
  intros Hs. unfold callSubroutine.
  destruct (Z.leb_spec 16 p.(sp)); [reflexivity | lia].
Qed.

Lemma nested_calls (DS : Z -> Z -> Z -> Processor -> result Processor)
  (rnd : Z) (targets : list Z) :
  forall p,
    length p.(stack) = 16%nat -> 0 <= p.(sp) ->
    p.(sp) + Z.of_nat (length targets) <= 16 ->
    Forall (fun t => 0 <= t < 4096) targets ->
    exists c,
      exec_all DS rnd (map (fun t => 0x2000 + t) targets) p = Ok c /\
      c.(sp) = p.(sp) + Z.of_nat (length targets).
Proof.
  induction targets as [|t targets IH]; intros p Hl Hs Hn Ht.
  - exists p. split; [reflexivity | simpl; lia].
  - apply Forall_cons in Ht as [Ht Hts]. simpl length in Hn.
    cbn [map exec_all]. rewrite Execute_callSubroutine by exact Ht.
    rewrite callSubroutine_ok by (assumption || lia).
    cbn [no_info bind fst].
    match goal with
    | |- context [exec_all _ _ _ ?q] => destruct (IH q) as (c & Hc & Hsp)
    end.
    + cbn [stack set_pc set_sp set_stack]. now rewrite length_insert.
    + cbn [sp set_pc set_sp]. lia.
    + cbn [sp set_pc set_sp]. lia.
    + exact Hts.
    + exists c. split; [exact Hc|]. rewrite Hsp. cbn [sp set_pc set_sp].
      simpl length. lia.
Qed.

(** The linked list of the object-style call has no capacity: any number
    of nested calls succeeds; the return on the empty list is fatal. *)
Lemma linked_stack_grows (n : nat) :
  forall nnn cpu,
    exists c,
      Objects.calls n nnn cpu = Ok c /\
      length c.(Objects.stack) = (n + length cpu.(Objects.stack))%nat.
Proof.
  induction n as [|n IH]; intros nnn cpu.
  - exists cpu. split; reflexivity.
  - cbn [Objects.calls Objects.SubroutineCall_Execute bind].
    destruct (IH nnn (Objects.mkControl nnn
                        (cpu.(Objects.pc) :: cpu.(Objects.stack))))
      as (c & Hc & Hl).
    exists c. split; [exact Hc|]. rewrite Hl. simpl. lia.
Qed.

Lemma linked_stack_empty_return (a : Z) :
  Objects.SubroutineReturn_Execute (Objects.mkControl a [])
  = Panic "return from empty stack".
Proof. reflexivity. Qed.

(** C4.  From an empty stack 16 nested calls (2NNN) succeed and leave the
    depth at 16, where one more call raises "stack overflow"; a return
    (00EE) on the empty stack raises "stack underflow"; and no instruction
    and no step takes the depth out of [0, 16] (for a sprite blitter that
    does not touch the call stack). *)
Theorem call_stack_capacity
  (DS : Z -> Z -> Z -> Processor -> result Processor) (rnd : Z)
  (p : Processor) :
  wf p -> p.(sp) = 0 ->
  (forall targets,
     length targets = 16%nat -> Forall (fun t => 0 <= t < 4096) targets ->
     exists c,
       exec_all DS rnd (map (fun t => 0x2000 + t) targets) p = Ok c /\
       c.(sp) = 16 /\
       forall t info, 0 <= t < 4096 ->
         Execute DS rnd (0x2000 + t) info c = Panic "stack overflow") /\
  (forall info, Execute DS rnd 0x00EE info p = Panic "stack underflow") /\
  (keeps_stack DS ->
   forall q c info',
     depth_ok q ->
     (forall op info, Execute DS rnd op info q = Ok (c, info') -> depth_ok c) /\
     (forall t_since t_now,
        Step DS rnd t_since t_now q = Ok (c, info') -> depth_ok c)).
Proof.
  intros Hwf Hsp. split; [| split].
  - intros targets Hlen Ht.
    destruct (nested_calls DS rnd targets p) as (c & Hc & Hd);
      [apply (wf_stack p Hwf) | lia | lia | exact Ht |].
    exists c. split; [exact Hc|]. split; [lia|].
    intros t info Hrange. rewrite Execute_callSubroutine by exact Hrange.
    rewrite callSubroutine_full by lia. reflexivity.
  - intros info. unfold Execute. cbv zeta.
    change (op_kind 0x00EE) with 0. cbv iota.
    unfold returnFromSubroutine. rewrite Hsp. reflexivity.
  - intros HDS q c info' Hq. split.
    + intros op info H. exact (Execute_depth DS rnd op info q c info' HDS Hq H).
    + intros t_since t_now H.
      exact (Step_depth DS rnd t_since t_now q c info' HDS Hq H).
Qed.

Lemma call_stack_capacity_witness :
  wf fresh /\ fresh.(sp) = 0 /\
  (exists c,
     exec_all idle_blitter 0 (map (fun t => 0x2000 + t) (replicate 16 0x300))
       fresh = Ok c /\
     c.(sp) = 16 /\
     Execute idle_blitter 0 (0x2000 + 0x300) 0 c = Panic "stack overflow") /\
  Execute idle_blitter 0 0x00EE 0 fresh = Panic "stack underflow".
Proof.
  assert (Hsp : fresh.(sp) = 0) by (vm_compute; reflexivity).
  split; [exact wf_fresh | split; [exact Hsp |]].
  destruct (call_stack_capacity idle_blitter 0 fresh wf_fresh Hsp)
    as (Hcalls & Hret & _).
  split; [| exact (Hret 0)].
  destruct (Hcalls (replicate 16 0x300)) as (c & Hc & Hd & Hover).
  - reflexivity.
  - repeat constructor; lia.
  - exists c. split; [exact Hc|]. split; [exact Hd|]. apply Hover. lia.
Defined.

(** ** Fetching *)

Lemma byte_pair (hi lo : Z) :
  0 <= hi < 256 -> 0 <= lo < 256 ->
  Z.lor (u16 (Z.shiftl (u16 hi) 8)) (u16 lo) = hi * 256 + lo.
Proof.
  intros Hhi Hlo. unfold u16.
  rewrite (Z.mod_small hi), (Z.mod_small lo) by lia.
  rewrite Z.shiftl_mul_pow2 by lia. change (2 ^ 8) with 256.
  rewrite Z.mod_small by lia.
  rewrite <- Z.lxor_lor, <- Z.add_nocarry_lxor; try reflexivity.
  all: apply Z.bits_inj'; intros n Hn; rewrite Z.land_spec, Z.bits_0.
  all: destruct (Z.lt_ge_cases n 8) as [Hlt | Hge].
  all: try (change 256 with (2 ^ 8); rewrite Z.mul_pow2_bits_low by lia;
            reflexivity).
  all: rewrite (Z.bits_above_log2 lo n), andb_false_r; try reflexivity;
       try lia.
  all: destruct (Z.eq_dec lo 0) as [-> | Hne]; [simpl; lia |];
       apply Z.log2_lt_pow2; try lia;
       apply Z.lt_le_trans with (2 ^ 8); [simpl; lia |];
       apply Z.pow_le_mono_r; lia.
Qed.

Lemma OpcodeAt_ok (p : Processor) :
  length p.(memory) = 4096%nat -> 0 <= p.(pc) <= 0xFFD ->
  OpcodeAt (ProgramCounter p) p =
  Ok (Z.lor (u16 (Z.shiftl (u16 (M p p.(pc))) 8)) (u16 (M p (p.(pc) + 1)))).
Proof.
  intros Hm Hpc. unfold OpcodeAt, ProgramCounter, Read. cbn [length Read_loop].
  assert (E0 : u16 (p.(pc) + 0) = p.(pc)).
  { unfold u16. rewrite Z.add_0_r. apply Z.mod_small. lia. }
  assert (E1 : u16 (p.(pc) + u16 (0 + 1)) = p.(pc) + 1).
  { unfold u16. change ((0 + 1) mod 65536) with 1. apply Z.mod_small. lia. }
  rewrite E0. destruct (Z.ltb_spec p.(pc) 0xFFF); [| lia].
  rewrite mem_M by (assumption || lia). cbn [bind].
  change (index_set [0; 0] 0 (M p p.(pc))) with (Ok [M p p.(pc); 0]).
  cbn [bind]. rewrite E1. destruct (Z.ltb_spec (p.(pc) + 1) 0xFFF); [| lia].
  rewrite mem_M by (assumption || lia). cbn [bind].
  change (u16 (0 + 1)) with 1.
  change (index_set [M p p.(pc); 0] 1 (M p (p.(pc) + 1)))
    with (Ok [M p p.(pc); M p (p.(pc) + 1)]).
  cbn [bind]. reflexivity.
Qed.

Lemma fetch_execute_word
  (DS : Z -> Z -> Z -> Processor -> result Processor)
  (rnd : Z) (p : Processor) (hi lo : Z) :
  length p.(memory) = 4096%nat -> 0 <= p.(pc) <= 0xFFD ->
  M p p.(pc) = hi -> M p (p.(pc) + 1) = lo ->
  0 <= hi < 256 -> 0 <= lo < 256 ->
  fetch_execute DS rnd p = Execute DS rnd (hi * 256 + lo) 0 (fetched p).
Proof.
  intros Hm Hpc Hhi Hlo Bhi Blo. unfold fetch_execute.
  rewrite OpcodeAt_ok by assumption. cbn [bind].
  rewrite Hhi, Hlo, byte_pair by assumption. reflexivity.
Qed.

(** ** The timer block *)

Lemma tick_frame (t_since t_now : Z) (p : Processor) :
  let q := tick t_since t_now p in
  q.(memory) = p.(memory) /\ q.(v) = p.(v) /\ q.(keyState) = p.(keyState) /\
  q.(display) = p.(display) /\ q.(stack) = p.(stack) /\ q.(sp) = p.(sp) /\
  q.(pc) = p.(pc) /\ q.(i) = p.(i).
Proof.
  unfold tick. destruct (TimerRate <=? _); [| cbv zeta; tauto].
  destruct (0 <? sound p); destruct (0 <? delay _); cbv zeta; cbn; tauto.
Qed.

(** ** Waiting for a key (claim C5) *)

Lemma key_state_read (p : Processor) (k : Z) :
  length p.(keyState) = 16%nat -> 0 <= k < 16 ->
  index_get p.(keyState) k = Ok (key_down p k).
Proof.
  intros Hl Hk. unfold key_down.
  destruct (index_get_in_range p.(keyState) k) as [b [-> _]]; [lia | reflexivity].
Qed.

Lemma scan_keys_none (x : Z) (n : nat) :
  forall k p,
    length p.(keyState) = 16%nat -> 0 <= k -> k + Z.of_nat n <= 16 ->
    (forall j, k <= j < k + Z.of_nat n -> key_down p j = false) ->
    scan_keys x n k p = Ok (false, p).
Proof.
  induction n as [|n IH]; intros k p Hl Hk Hn Hup; [reflexivity|].
  cbn [scan_keys]. rewrite key_state_read by lia.
  rewrite Hup by lia. cbn [bind]. apply IH; try lia.
  intros j Hj. apply Hup. lia.
Qed.

Lemma scan_keys_first (x key : Z) (n : nat) :
  forall k p,
    length p.(keyState) = 16%nat -> length p.(v) = 16%nat -> nibble x ->
    0 <= k -> k + Z.of_nat n <= 16 -> k <= key < k + Z.of_nat n ->
    key_down p key = true ->
    (forall j, k <= j < key -> key_down p j = false) ->
    scan_keys x n k p = Ok (true, set_v p (<[Z.to_nat x := key]> p.(v))).
Proof.
  induction n as [|n IH]; intros k p Hl Hv Hx Hk Hn Hkey Hdown Hup; [lia|].
  cbn [scan_keys]. rewrite key_state_read by lia.
  destruct (Z.eq_dec k key) as [-> | Hne].
  - rewrite Hdown. cbn [bind]. rewrite set_reg_ok by assumption. reflexivity.
  - rewrite Hup by lia. cbn [bind]. apply IH; try assumption; try lia.
    intros j Hj. apply Hup. lia.
Qed.

Lemma Execute_pauseUntilKeyPressed
  (DS : Z -> Z -> Z -> Processor -> result Processor)
  (rnd info : Z) (p : Processor) (x : Z) :
  nibble x ->
  Execute DS rnd (word 0xF x 0 0xA) info p
  = no_info (pauseUntilKeyPressed x p) info.
Proof. intros Hx. dispatch Hx Hx. Qed.

Lemma word_bytes (k x y n : Z) :
  word k x y n = (k * 16 + x) * 256 + (y * 16 + n).
Proof. unfold word. lia. Qed.

(** C5.  Let the instruction at the program counter be FX0A.  If no key is
    down during the step, the program counter after the whole step is the
    one before it, and the registers are unchanged.  If some key is down,
    the lowest such key is in [Vx] after the step and the program counter
    has advanced by two. *)
Theorem wait_for_key
  (DS : Z -> Z -> Z -> Processor -> result Processor)
  (rnd t_since t_now : Z) (p : Processor) (x : Z) :
  wf p -> nibble x -> p.(pc) <= 0xFFD ->
  M p p.(pc) = 0xF0 + x -> M p (p.(pc) + 1) = 0x0A ->
  ((forall k, 0 <= k < 16 -> key_down p k = false) ->
   exists c info,
     Step DS rnd t_since t_now p = Ok (c, info) /\
     c.(pc) = p.(pc) /\ c.(v) = p.(v)) /\
  (forall key,
     0 <= key < 16 -> key_down p key = true ->
     (forall j, 0 <= j < key -> key_down p j = false) ->
     exists c info,
       Step DS rnd t_since t_now p = Ok (c, info) /\
       V c x = key /\ c.(pc) = p.(pc) + 2).
Proof.
  intros Hwf Hx Hpc Hhi Hlo.
  destruct Hwf as [Hm Hv Hk _ _ _ _ Hpc0 _ _ _ _ _].
  assert (Hx' : 0 <= x < 16) by exact Hx.
  assert (Hfe : fetch_execute DS rnd p
                = no_info (pauseUntilKeyPressed x (fetched p)) 0).
  { rewrite (fetch_execute_word DS rnd p (0xF0 + x) 0x0A);
      try assumption; try lia.
    rewrite <- (Execute_pauseUntilKeyPressed DS rnd 0 (fetched p) x Hx).
    f_equal. rewrite word_bytes. lia. }
  assert (Hpc2 : u16 (p.(pc) + 2) = p.(pc) + 2).
  { unfold u16. apply Z.mod_small. lia. }
  split.
  - intros Hup. unfold Step. rewrite Hfe. unfold pauseUntilKeyPressed.
    cbn [keyState fetched set_pc]. rewrite Hk.
    rewrite scan_keys_none; try assumption; try lia.
    cbn [bind no_info negb pc set_pc].
    eexists; eexists. split; [reflexivity|].
    match goal with
    | |- context [tick _ _ ?q] =>
        destruct (tick_frame t_since t_now q)
          as (_ & Ev & _ & _ & _ & _ & Epc & _)
    end.
    rewrite Epc, Ev. cbn [pc v set_pc]. split; [| reflexivity].
    unfold fetched. cbn [pc set_pc]. rewrite Hpc2. unfold u16.
    rewrite Z.add_simpl_r. apply Z.mod_small. lia.
  - intros key Hkey Hdown Hup. unfold Step. rewrite Hfe.
    unfold pauseUntilKeyPressed. cbn [keyState fetched set_pc]. rewrite Hk.
    rewrite (scan_keys_first x key); try assumption; try (simpl; lia).
    cbn [bind no_info negb].
    eexists; eexists. split; [reflexivity|].
    match goal with
    | |- context [tick _ _ ?q] =>
        destruct (tick_frame t_since t_now q) as (_ & Ev & _ & _ & _ & _ & Epc & _)
    end.
    rewrite V_Vl, Epc, Ev. cbn [pc v set_pc set_v].
    unfold fetched. cbn [pc v set_pc].
    split; [apply Vl_insert_eq; lia | exact Hpc2].
Qed.

Lemma wf_waiting_state : wf waiting_state.
Proof. wf_concrete. Qed.

Lemma wait_for_key_witness :
  wf waiting_state /\ nibble 1 /\ waiting_state.(pc) <= 0xFFD /\
  M waiting_state waiting_state.(pc) = 0xF0 + 1 /\
  M waiting_state (waiting_state.(pc) + 1) = 0x0A /\
  exists c info,
    Step idle_blitter 0 0 0 waiting_state = Ok (c, info) /\
    V c 1 = 2 /\ c.(pc) = waiting_state.(pc) + 2.
Proof.
  assert (H1 : nibble 1) by (unfold nibble; lia).
  assert (Hpc : waiting_state.(pc) <= 0xFFD) by (vm_compute; congruence).
  assert (Hhi : M waiting_state waiting_state.(pc) = 0xF0 + 1)
    by (vm_compute; reflexivity).
  assert (Hlo : M waiting_state (waiting_state.(pc) + 1) = 0x0A)
    by (vm_compute; reflexivity).
  assert (Hkey : 0 <= 2 < 16) by lia.
  assert (Hdown : key_down waiting_state 2 = true) by (vm_compute; reflexivity).
  assert (Hup : forall j, 0 <= j < 2 -> key_down waiting_state j = false).
  { intros j Hj. assert (E : j = 0 \/ j = 1) by lia.
    destruct E as [-> | ->]; vm_compute; reflexivity. }
  split; [exact wf_waiting_state |].
  split; [exact H1 |]. split; [exact Hpc |]. split; [exact Hhi |].
  split; [exact Hlo |].
  exact (proj2 (wait_for_key idle_blitter 0 0 0 waiting_state 1
                  wf_waiting_state H1 Hpc Hhi Hlo) 2 Hkey Hdown Hup).
Defined.

(** ** FX1E (claim C10) *)

Lemma Execute_setIToX
  (DS : Z -> Z -> Z -> Processor -> result Processor)
  (rnd info : Z) (p : Processor) (x : Z) :
  nibble x ->
  Execute DS rnd (word 0xF x 1 0xE) info p = no_info (setIToX x p) info.
Proof. intros Hx. dispatch Hx Hx. Qed.

Lemma setIToX_run (p : Processor) (x : Z) :
  length p.(v) = 16%nat -> Forall is_byte p.(v) -> nibble x ->
  setIToX x p = Ok (set_i p ((p.(i) + V p x) mod 65536)).
Proof.
  intros Hl Hb Hx. unfold setIToX. rewrite reg_V by assumption. cbn [bind].
  pose proof (V_byte p x Hb) as B. unfold is_byte in B.
  unfold u16. rewrite (Z.mod_small (V p x)) by lia. reflexivity.
Qed.

(** C10.  FX1E adds [Vx] to the index register: the new [I] is
    [(I + Vx) mod 2^16] and [Execute] changes nothing else; over a whole
    step the registers, the memory, the stack, the display and the keys are
    as before and the program counter is two further. *)
Theorem index_plus_register
  (DS : Z -> Z -> Z -> Processor -> result Processor)
  (rnd t_since t_now : Z) (p : Processor) (x : Z) :
  wf p -> nibble x ->
  (forall info,
     Execute DS rnd (word 0xF x 1 0xE) info p
     = Ok (set_i p ((p.(i) + V p x) mod 65536), info)) /\
  (p.(pc) <= 0xFFD ->
   M p p.(pc) = 0xF0 + x -> M p (p.(pc) + 1) = 0x1E ->
   exists c info,
     Step DS rnd t_since t_now p = Ok (c, info) /\
     c.(i) = (p.(i) + V p x) mod 65536 /\
     c.(v) = p.(v) /\ c.(memory) = p.(memory) /\
     c.(stack) = p.(stack) /\ c.(sp) = p.(sp) /\
     c.(display) = p.(display) /\ c.(keyState) = p.(keyState) /\
     c.(pc) = p.(pc) + 2).
Proof.
  intros Hwf Hx.
  destruct Hwf as [Hm Hv Hk _ _ Hb _ Hpc0 _ _ _ _ _].
  assert (Hx' : 0 <= x < 16) by exact Hx.
  assert (Hex : forall info q,
             q.(v) = p.(v) ->
             Execute DS rnd (word 0xF x 1 0xE) info q
             = Ok (set_i q ((q.(i) + V q x) mod 65536), info)).
  { intros info q Hq. rewrite Execute_setIToX by assumption.
    rewrite setIToX_run by (rewrite ?Hq; assumption). reflexivity. }
  split; [intros info; now apply Hex |].
  intros Hpc Hhi Hlo. unfold Step.
  rewrite (fetch_execute_word DS rnd p (0xF0 + x) 0x1E);
    try assumption; try lia.
  replace ((0xF0 + x) * 256 + 0x1E) with (word 0xF x 1 0xE)
    by (rewrite word_bytes; lia).
  rewrite Hex by reflexivity. cbn [bind].
  eexists; eexists. split; [reflexivity|].
  match goal with
  | |- context [tick _ _ ?q] =>
      destruct (tick_frame t_since t_now q)
        as (Em & Ev & Eks & Ed & Est & Esp & Epc & Ei)
  end.
  rewrite Em, Ev, Eks, Ed, Est, Esp, Epc, Ei. unfold fetched. cbn.
  repeat split. unfold u16. apply Z.mod_small. lia.
Qed.

Lemma wf_index_state : wf index_state.
Proof. wf_concrete. Qed.

Lemma index_plus_register_witness :
  wf index_state /\ nibble 1 /\
  Execute idle_blitter 0 (word 0xF 1 1 0xE) 0 index_state
  = Ok (set_i index_state ((index_state.(i) + V index_state 1) mod 65536), 0).
Proof.
  assert (H1 : nibble 1) by (unfold nibble; lia).
  split; [exact wf_index_state | split; [exact H1 |]].
  exact (proj1 (index_plus_register idle_blitter 0 0 0 index_state 1
                  wf_index_state H1) 0).
Defined.

(** ** Bulk transfers (claims C6, C9) *)

Lemma Vl_cons_succ (b : Z) (l : list Z) (k : Z) :
  0 <= k -> Vl (b :: l) (k + 1) = Vl l k.
Proof.
  intros Hk. unfold Vl, index_get.
  destruct (Z.ltb_spec (k + 1) 0); [lia|]. destruct (Z.ltb_spec k 0); [lia|].
  replace (Z.to_nat (k + 1)) with (S (Z.to_nat k)) by lia. reflexivity.
Qed.

Lemma Vl_neg (l : list Z) (k : Z) : k < 0 -> Vl l k = 0.
Proof.
  intros Hk. unfold Vl, index_get. destruct (Z.ltb_spec k 0); [reflexivity | lia].
Qed.

Lemma Vl_insert_other (l : list Z) (x y b : Z) :
  0 <= x -> x <> y -> Vl (<[Z.to_nat x := b]> l) y = Vl l y.
Proof.
  intros Hx Hne. destruct (Z.ltb_spec y 0).
  - now rewrite !Vl_neg.
  - now apply Vl_insert_ne.
Qed.

Lemma Write_loop_spec (loc : Z) (data : list Z) :
  forall k p,
    length p.(memory) = 4096%nat -> 0 <= loc -> 0 <= k -> loc + k < 65536 ->
    exists q n,
      Write_loop loc k data p = Ok (q, n) /\
      n = k + transfer_count (loc + k) (Z.of_nat (length data)) /\
      q = set_memory p q.(memory) /\
      length q.(memory) = 4096%nat /\
      (forall j, k <= j < n -> loc + j < 0xFFF /\ M q (loc + j) = Vl data (j - k)) /\
      (forall a, ~ (loc + k <= a < loc + n) -> M q a = M p a).
Proof.
  unfold transfer_count.
  induction data as [|b rest IH]; intros k p Hm Hloc Hk Hlk.
  - exists p, k. cbn [Write_loop length].
    split; [reflexivity|]. split; [lia|]. split; [now destruct p|].
    split; [exact Hm|]. split; [lia|]. reflexivity.
  - cbn [Write_loop]. unfold u16 at 1. rewrite (Z.mod_small (loc + k)) by lia.
    destruct (Z.ltb_spec (loc + k) 0xFFF) as [Hlt | Hge].
    + unfold u16 at 1. rewrite (Z.mod_small (loc + k)) by lia.
      rewrite set_mem_ok by (assumption || lia). cbn [bind].
      unfold u16. rewrite (Z.mod_small (k + 1)) by lia.
      destruct (IH (k + 1) (set_memory p (<[Z.to_nat (loc + k) := b]> p.(memory))))
        as (q & n & Hrun & Hn & Hq & Hlen & Hin & Hout);
        [cbn [memory set_memory]; now rewrite length_insert | lia ..|].
      exists q, n. rewrite Hrun. split; [reflexivity|].
      split; [simpl length; lia|]. split; [rewrite Hq; reflexivity|].
      split; [exact Hlen|]. split.
      * intros j Hj. destruct (Z.eq_dec j k) as [-> | Hne].
        -- split; [exact Hlt|]. rewrite Hout by lia.
           rewrite M_Vl. cbn [memory set_memory]. rewrite Vl_insert_eq by lia.
           rewrite Z.sub_diag. reflexivity.
        -- destruct (Hin j) as [Hb Hv]; [lia|]. split; [exact Hb|].
           rewrite Hv. replace (j - k) with ((j - (k + 1)) + 1) by lia.
           now rewrite Vl_cons_succ by lia.
      * intros a Ha. rewrite Hout by lia. rewrite !M_Vl.
        cbn [memory set_memory]. apply Vl_insert_other; lia.
    + exists p, k. split; [reflexivity|]. split; [simpl length; lia|].
      split; [now destruct p|]. split; [exact Hm|]. split; [lia|]. reflexivity.
Qed.

Lemma Write_spec (loc : Z) (data : list Z) (p : Processor) :
  length p.(memory) = 4096%nat -> 0 <= loc < 65536 ->
  exists q n,
    Write loc data p = Ok (q, n) /\
    n = transfer_count loc (Z.of_nat (length data)) /\
    q = set_memory p q.(memory) /\
    length q.(memory) = 4096%nat /\
    (forall j, 0 <= j < n -> loc + j < 0xFFF /\ M q (loc + j) = Vl data j) /\
    (forall a, ~ (loc <= a < loc + n) -> M q a = M p a).
Proof.
  intros Hm Hloc. unfold Write.
  destruct (Write_loop_spec loc data 0 p) as (q & n & Hrun & Hn & Hq & Hl & Hin & Hout);
    try assumption; try lia.
  exists q, n. rewrite Z.add_0_r in *. simpl in Hn.
  split; [exact Hrun|]. split; [exact Hn|]. split; [exact Hq|].
  split; [exact Hl|]. split; [| exact Hout].
  intros j Hj. destruct (Hin j Hj) as [Hb Hv]. rewrite Z.sub_0_r in Hv. tauto.
Qed.

Lemma Read_loop_spec (loc : Z) (p : Processor) (n : nat) :
  forall k data,
    length p.(memory) = 4096%nat -> 0 <= loc -> 0 <= k -> loc + k < 65536 ->
    k + Z.of_nat n = Z.of_nat (length data) ->
    exists data' m,
      Read_loop loc k n data p = Ok (data', m) /\
      m = k + transfer_count (loc + k) (Z.of_nat n) /\
      length data' = length data /\
      (forall j, k <= j < m -> loc + j < 0xFFF /\ Vl data' j = M p (loc + j)) /\
      (forall j, ~ (k <= j < m) -> Vl data' j = Vl data j).
Proof.
  unfold transfer_count.
  induction n as [|n IH]; intros k data Hm Hloc Hk Hlk Hlen.
  - exists data, k. cbn [Read_loop].
    split; [reflexivity|]. split; [lia|]. split; [reflexivity|].
    split; [lia | reflexivity].
  - cbn [Read_loop]. unfold u16 at 1. rewrite (Z.mod_small (loc + k)) by lia.
    destruct (Z.ltb_spec (loc + k) 0xFFF) as [Hlt | Hge].
    + unfold u16 at 1. rewrite (Z.mod_small (loc + k)) by lia.
      rewrite mem_M by (assumption || lia). cbn [bind].
      rewrite index_set_in_range by lia. cbn [bind].
      unfold u16. rewrite (Z.mod_small (k + 1)) by lia.
      destruct (IH (k + 1) (<[Z.to_nat k := M p (loc + k)]> data))
        as (data' & m & Hrun & Hcount & Hl & Hin & Hout);
        try assumption; try lia.
      { rewrite length_insert. lia. }
      exists data', m. rewrite Hrun. split; [reflexivity|].
      split; [lia|]. split; [now rewrite Hl, length_insert|]. split.
      * intros j Hj. destruct (Z.eq_dec j k) as [-> | Hne].
        -- split; [exact Hlt|]. rewrite Hout by lia.
           now rewrite Vl_insert_eq by lia.
        -- apply Hin. lia.
      * intros j Hj. rewrite Hout by lia. apply Vl_insert_other; lia.
    + exists data, k. split; [reflexivity|]. split; [lia|].
      split; [reflexivity|]. split; [lia | reflexivity].
Qed.

Lemma Read_spec (loc : Z) (data : list Z) (p : Processor) :
  length p.(memory) = 4096%nat -> 0 <= loc < 65536 ->
  exists data' n,
    Read loc data p = Ok (data', n) /\
    n = transfer_count loc (Z.of_nat (length data)) /\
    length data' = length data /\
    (forall j, 0 <= j < n -> loc + j < 0xFFF /\ Vl data' j = M p (loc + j)) /\
    (forall j, ~ (0 <= j < n) -> Vl data' j = Vl data j).
Proof.
  intros Hm Hloc. unfold Read.
  destruct (Read_loop_spec loc p (length data) 0 data)
    as (data' & n & Hrun & Hn & Hl & Hin & Hout); try assumption; try lia.
  exists data', n. rewrite Z.add_0_r in *. simpl in Hn. tauto.
Qed.

(** ** Block transfers FX55 and FX65 *)

Lemma setRegistersToMemory_loop_ok (n : nat) :
  forall k p,
    length p.(memory) = 4096%nat -> length p.(v) = 16%nat ->
    0 <= p.(i) -> 0 <= k -> k + Z.of_nat n <= 16 ->
    p.(i) + k + Z.of_nat n <= 0x1000 ->
    exists q,
      setRegistersToMemory_loop n k p = Ok q /\
      q = set_memory p q.(memory) /\
      length q.(memory) = 4096%nat /\
      (forall j, k <= j < k + Z.of_nat n -> M q (p.(i) + j) = V p j) /\
      (forall a, ~ (p.(i) + k <= a < p.(i) + k + Z.of_nat n) -> M q a = M p a).
Proof.
  induction n as [|n IH]; intros k p Hm Hv Hi Hk Hkn Hin.
  - exists p. cbn [setRegistersToMemory_loop].
    split; [reflexivity|]. split; [now destruct p|]. split; [exact Hm|].
    split; [lia | reflexivity].
  - cbn [setRegistersToMemory_loop].
    rewrite reg_V by (assumption || (unfold nibble; lia)). cbn [bind].
    unfold u16. rewrite (Z.mod_small (p.(i) + k)), (Z.mod_small (k + 1)) by lia.
    rewrite set_mem_ok by (assumption || lia). cbn [bind].
    destruct (IH (k + 1) (set_memory p (<[Z.to_nat (p.(i) + k) := V p k]> p.(memory))))
      as (q & Hrun & Hq & Hl & Hinside & Hout);
      try (cbn [memory v i set_memory]; rewrite ?length_insert; (assumption || lia)).
    cbn [i set_memory] in *.
    exists q. split; [exact Hrun|]. split; [rewrite Hq; reflexivity|].
    split; [exact Hl|]. split.
    + intros j Hj. destruct (Z.eq_dec j k) as [-> | Hne].
      * rewrite Hout by lia. rewrite M_Vl. cbn [memory set_memory].
        now rewrite Vl_insert_eq by lia.
      * rewrite Hinside by lia. reflexivity.
    + intros a Ha. rewrite Hout by lia. rewrite !M_Vl. cbn [memory set_memory].
      apply Vl_insert_other; lia.
Qed.

Lemma setRegistersToMemory_loop_out (n : nat) :
  forall k p,
    length p.(memory) = 4096%nat -> length p.(v) = 16%nat ->
    0 <= p.(i) -> 0 <= k -> k + Z.of_nat n <= 16 -> p.(i) + k < 65536 ->
    (0 < n)%nat -> 0x1000 < p.(i) + k + Z.of_nat n ->
    setRegistersToMemory_loop n k p = Panic out_of_range.
Proof.
  induction n as [|n IH]; intros k p Hm Hv Hi Hk Hkn Hw Hn Hout; [lia|].
  cbn [setRegistersToMemory_loop].
  rewrite reg_V by (assumption || (unfold nibble; lia)). cbn [bind].
  unfold u16. rewrite (Z.mod_small (p.(i) + k)), (Z.mod_small (k + 1)) by lia.
  destruct (Z.lt_ge_cases (p.(i) + k) 0x1000) as [Hlt | Hge].
  - rewrite set_mem_ok by (assumption || lia). cbn [bind].
    apply IH; cbn [memory v i set_memory]; rewrite ?length_insert;
      (assumption || lia).
  - rewrite set_mem_out by (assumption || lia). reflexivity.
Qed.

Lemma setMemoryToRegisters_loop_ok (n : nat) :
  forall k p,
    length p.(memory) = 4096%nat -> length p.(v) = 16%nat ->
    0 <= p.(i) -> 0 <= k -> k + Z.of_nat n <= 16 ->
    p.(i) + k + Z.of_nat n <= 0x1000 ->
    exists q,
      setMemoryToRegisters_loop n k p = Ok q /\
      q = set_v p q.(v) /\
      length q.(v) = 16%nat /\
      (forall j, k <= j < k + Z.of_nat n -> V q j = M p (p.(i) + j)) /\
      (forall j, ~ (k <= j < k + Z.of_nat n) -> V q j = V p j).
Proof.
  induction n as [|n IH]; intros k p Hm Hv Hi Hk Hkn Hin.
  - exists p. cbn [setMemoryToRegisters_loop].
    split; [reflexivity|]. split; [now destruct p|]. split; [exact Hv|].
    split; [lia | reflexivity].
  - cbn [setMemoryToRegisters_loop].
    unfold u16. rewrite (Z.mod_small (p.(i) + k)), (Z.mod_small (k + 1)) by lia.
    rewrite mem_M by (assumption || lia). cbn [bind].
    rewrite set_reg_ok by (assumption || (unfold nibble; lia)). cbn [bind].
    destruct (IH (k + 1) (set_v p (<[Z.to_nat k := M p (p.(i) + k)]> p.(v))))
      as (q & Hrun & Hq & Hl & Hinside & Hout);
      try (cbn [memory v i set_v]; rewrite ?length_insert; (assumption || lia)).
    cbn [i set_v] in *.
    exists q. split; [exact Hrun|]. split; [rewrite Hq; reflexivity|].
    split; [exact Hl|]. split.
    + intros j Hj. destruct (Z.eq_dec j k) as [-> | Hne].
      * rewrite Hout by lia. rewrite V_Vl. cbn [v set_v].
        now rewrite Vl_insert_eq by lia.
      * rewrite Hinside by lia. reflexivity.
    + intros j Hj. rewrite Hout by lia. rewrite !V_Vl. cbn [v set_v].
      apply Vl_insert_other; lia.
Qed.

Lemma setMemoryToRegisters_loop_out (n : nat) :
  forall k p,
    length p.(memory) = 4096%nat -> length p.(v) = 16%nat ->
    0 <= p.(i) -> 0 <= k -> k + Z.of_nat n <= 16 -> p.(i) + k < 65536 ->
    (0 < n)%nat -> 0x1000 < p.(i) + k + Z.of_nat n ->
    setMemoryToRegisters_loop n k p = Panic out_of_range.
Proof.
  induction n as [|n IH]; intros k p Hm Hv Hi Hk Hkn Hw Hn Hout; [lia|].
  cbn [setMemoryToRegisters_loop].
  unfold u16. rewrite (Z.mod_small (p.(i) + k)), (Z.mod_small (k + 1)) by lia.
  destruct (Z.lt_ge_cases (p.(i) + k) 0x1000) as [Hlt | Hge].
  - rewrite mem_M by (assumption || lia). cbn [bind].
    rewrite set_reg_ok by (assumption || (unfold nibble; lia)). cbn [bind].
    apply IH; cbn [memory v i set_v]; rewrite ?length_insert;
      (assumption || lia).
  - rewrite mem_out by (assumption || lia). reflexivity.
Qed.

Lemma binaryCodedDecimal_out (p : Processor) (x : Z) :
  wf p -> nibble x -> 0xFFF < p.(i) + 2 ->
  binaryCodedDecimal x p = Panic out_of_range.
Proof.
  intros Hwf Hx Hi. destruct Hwf as [Hm Hv _ _ _ _ _ _ HI _ _ _ _].
  unfold binaryCodedDecimal. rewrite reg_V by assumption. cbn [bind]. cbv zeta.
  destruct (Z.lt_ge_cases p.(i) 0x1000) as [H0 | H0];
    [| now rewrite set_mem_out by (assumption || lia)].
  rewrite set_mem_ok by (assumption || lia). cbn [bind i set_memory].
  unfold u16 at 1. rewrite (Z.mod_small (p.(i) + 1)) by lia.
  destruct (Z.lt_ge_cases (p.(i) + 1) 0x1000) as [H1 | H1].
  - rewrite set_mem_ok
      by (cbn [memory set_memory]; rewrite ?length_insert; (assumption || lia)).
    cbn [bind i set_memory]. unfold u16 at 1.
    rewrite (Z.mod_small (p.(i) + 2)) by lia.
    rewrite set_mem_out
      by (cbn [memory set_memory]; rewrite ?length_insert; (assumption || lia)).
    reflexivity.
  - rewrite set_mem_out
      by (cbn [memory set_memory]; rewrite ?length_insert; (assumption || lia)).
    reflexivity.
Qed.

Lemma Execute_setRegistersToMemory
  (DS : Z -> Z -> Z -> Processor -> result Processor)
  (rnd info : Z) (p : Processor) (x : Z) :
  nibble x ->
  Execute DS rnd (word 0xF x 5 5) info p
  = no_info (setRegistersToMemory x p) info.
Proof. intros Hx. dispatch Hx Hx. Qed.

Lemma Execute_setMemoryToRegisters
  (DS : Z -> Z -> Z -> Processor -> result Processor)
  (rnd info : Z) (p : Processor) (x : Z) :
  nibble x ->
  Execute DS rnd (word 0xF x 6 5) info p
  = no_info (setMemoryToRegisters x p) info.
Proof. intros Hx. dispatch Hx Hx. Qed.

Lemma transfer_count_bounds (loc len : Z) :
  0 <= len -> 0 <= transfer_count loc len <= len.
Proof. unfold transfer_count. lia. Qed.

(** C6 (as amended).  [Write] and [Read] never leave the memory: each
    address they touch lies in [0, 0xFFF], a transfer that would run past
    the top stops early without any error and the number of bytes
    transferred is returned.  The block transfers FX55 and FX65 and the BCD
    store FX33 do not truncate: when all their addresses [I .. I+x] (or
    [I .. I+2]) lie in [0, 0xFFF] they transfer exactly those cells, so
    every address of the memory can be reached; otherwise the instruction
    stops in the "index out of range" panic. *)
Theorem memory_access_bounds
  (DS : Z -> Z -> Z -> Processor -> result Processor) (rnd : Z)
  (p : Processor) :
  wf p ->
  (forall loc data, 0 <= loc < 65536 ->
     exists q n,
       Write loc data p = Ok (q, n) /\
       0 <= n <= Z.of_nat (length data) /\
       q = set_memory p q.(memory) /\
       (forall j, 0 <= j < n ->
          0 <= loc + j <= 0xFFF /\ M q (loc + j) = Vl data j) /\
       (forall a, ~ (loc <= a < loc + n) -> M q a = M p a)) /\
  (forall loc data, 0 <= loc < 65536 ->
     exists data' n,
       Read loc data p = Ok (data', n) /\
       0 <= n <= Z.of_nat (length data) /\
       length data' = length data /\
       (forall j, 0 <= j < n ->
          0 <= loc + j <= 0xFFF /\ Vl data' j = M p (loc + j)) /\
       (forall j, ~ (0 <= j < n) -> Vl data' j = Vl data j)) /\
  (forall x info, nibble x ->
     (p.(i) + x <= 0xFFF ->
        (exists q,
           Execute DS rnd (word 0xF x 5 5) info p = Ok (q, info) /\
           q = set_memory p q.(memory) /\
           (forall j, 0 <= j <= x -> M q (p.(i) + j) = V p j) /\
           (forall a, ~ (p.(i) <= a <= p.(i) + x) -> M q a = M p a)) /\
        (exists q,
           Execute DS rnd (word 0xF x 6 5) info p = Ok (q, info) /\
           q = set_v p q.(v) /\
           (forall j, 0 <= j <= x -> V q j = M p (p.(i) + j)) /\
           (forall j, ~ (0 <= j <= x) -> V q j = V p j))) /\
     (0xFFF < p.(i) + x ->
        Execute DS rnd (word 0xF x 5 5) info p = Panic out_of_range /\
        Execute DS rnd (word 0xF x 6 5) info p = Panic out_of_range) /\
     (0xFFF < p.(i) + 2 ->
        Execute DS rnd (word 0xF x 3 3) info p = Panic out_of_range)).
Proof.
  intros Hwf. pose proof Hwf as [Hm Hv _ _ _ _ _ _ HI _ _ _ _].
  split; [| split].
  - intros loc data Hloc.
    destruct (Write_spec loc data p Hm Hloc) as (q & n & Hrun & Hn & Hq & _ & Hin & Hout).
    exists q, n. split; [exact Hrun|].
    split; [rewrite Hn; apply transfer_count_bounds; lia|].
    split; [exact Hq|]. split; [| exact Hout].
    intros j Hj. destruct (Hin j Hj). split; [lia | assumption].
  - intros loc data Hloc.
    destruct (Read_spec loc data p Hm Hloc) as (d & n & Hrun & Hn & Hl & Hin & Hout).
    exists d, n. split; [exact Hrun|].
    split; [rewrite Hn; apply transfer_count_bounds; lia|].
    split; [exact Hl|]. split; [| exact Hout].
    intros j Hj. destruct (Hin j Hj). split; [lia | assumption].
  - intros x info Hx. assert (Hx' : 0 <= x < 16) by exact Hx.
    rewrite Execute_setRegistersToMemory, Execute_setMemoryToRegisters,
      Execute_binaryCodedDecimal by exact Hx.
    unfold setRegistersToMemory, setMemoryToRegisters.
    split; [| split].
    + intros Hin. split.
      * destruct (setRegistersToMemory_loop_ok (Z.to_nat (x + 1)) 0 p)
          as (q & -> & Hq & _ & Hinside & Hout); try assumption; try lia.
        exists q. split; [reflexivity|]. split; [exact Hq|]. split.
        -- intros j Hj. apply Hinside. lia.
        -- intros a Ha. apply Hout. lia.
      * destruct (setMemoryToRegisters_loop_ok (Z.to_nat (x + 1)) 0 p)
          as (q & -> & Hq & _ & Hinside & Hout); try assumption; try lia.
        exists q. split; [reflexivity|]. split; [exact Hq|]. split.
        -- intros j Hj. apply Hinside. lia.
        -- intros j Hj. apply Hout. lia.
    + intros Hbig.
      rewrite setRegistersToMemory_loop_out, setMemoryToRegisters_loop_out;
        try assumption; try lia.
      split; reflexivity.
    + intros Hbig. now rewrite binaryCodedDecimal_out.
Qed.

Lemma memory_access_bounds_witness :
  wf fresh /\
  exists q n,
    Write ProgramStartAddress [0x12; 0x00] fresh = Ok (q, n) /\
    0 <= n <= Z.of_nat (length [0x12; 0x00]).
Proof.
  split; [exact wf_fresh |].
  assert (Hloc : 0 <= ProgramStartAddress < 65536) by (unfold ProgramStartAddress; lia).
  destruct (proj1 (memory_access_bounds idle_blitter 0 fresh wf_fresh)
              ProgramStartAddress [0x12; 0x00] Hloc)
    as (q & n & Hrun & Hn & _).
  exists q, n. split; [exact Hrun | exact Hn].
Defined.

(** C6 as stated fails: FX55 with [x = 1] and [I = 0xFFF] is not truncated
    after the one cell that fits, it ends in the panic; and the bulk
    operations never reach address [0xFFF], the byte offered for it is not
    transferred. *)
Lemma memory_access_bounds_counterexample :
  Execute idle_blitter 0 (word 0xF 1 5 5) 0 (set_i fresh 0xFFF)
    = Panic out_of_range /\
  Execute idle_blitter 0 (word 0xF 1 6 5) 0 (set_i fresh 0xFFF)
    = Panic out_of_range /\
  Write 0xFFF [7] fresh = Ok (fresh, 0) /\
  Read 0xFFF [0] fresh = Ok ([0], 0).
Proof.
  split; [| split; [| split]]; vm_compute; reflexivity.
Qed.

(** ** Well-formedness is preserved *)

Lemma byte_land_255 (z : Z) : is_byte z <-> Z.land z 255 = z.
Proof.
  unfold is_byte. change 255 with (Z.ones 8). rewrite Z.land_ones by lia.
  change (2 ^ 8) with 256. split; intros H.
  - apply Z.mod_small. exact H.
  - rewrite <- H. apply Z.mod_pos_bound. lia.
Qed.

Lemma byte_lor (a b : Z) : is_byte a -> is_byte b -> is_byte (Z.lor a b).
Proof.
  rewrite !byte_land_255. intros Ha Hb.
  now rewrite Z.land_lor_distr_l, Ha, Hb.
Qed.

Lemma byte_land (a b : Z) : is_byte b -> is_byte (Z.land a b).
Proof.
  rewrite !byte_land_255. intros Hb. now rewrite <- Z.land_assoc, Hb.
Qed.

Lemma byte_lxor (a b : Z) : is_byte a -> is_byte b -> is_byte (Z.lxor a b).
Proof.
  rewrite !byte_land_255. intros Ha Hb.
  rewrite <- Ha, <- Hb at 2. apply Z.bits_inj'. intros n Hn.
  rewrite !Z.land_spec, !Z.lxor_spec, !Z.land_spec.
  destruct (Z.testbit a n), (Z.testbit b n), (Z.testbit 255 n); reflexivity.
Qed.

Lemma byte_shiftr (a n : Z) : is_byte a -> 0 <= n -> is_byte (Z.shiftr a n).
Proof.
  unfold is_byte. intros Ha Hn. rewrite Z.shiftr_div_pow2 by lia.
  assert (0 < 2 ^ n) by (apply Z.pow_pos_nonneg; lia).
  split; [apply Z.div_pos; lia |].
  apply Z.le_lt_trans with a; [| lia]. apply Z.div_le_upper_bound; nia.
Qed.

Lemma byte_u8 (z : Z) : is_byte (u8 z).
Proof. unfold is_byte, u8. apply Z.mod_pos_bound. lia. Qed.

Lemma word_u16 (z : Z) : is_word (u16 z).
Proof. unfold is_word, u16. apply Z.mod_pos_bound. lia. Qed.

Lemma byte_lit (z : Z) : byte_ok z = true -> is_byte z.
Proof. unfold byte_ok, is_byte. intros H. apply andb_prop in H. lia. Qed.

Lemma op_nnn_word (op : Z) : is_word (op_nnn op).
Proof.
  unfold is_word. rewrite op_nnn_mod.
  pose proof (Z.mod_pos_bound op 4096). lia.
Qed.

Create HintDb bytes.
#[local] Hint Resolve byte_lor byte_land byte_lxor byte_shiftr byte_u8 word_u16
  op_nnn_word : bytes.
#[local] Hint Extern 1 (is_byte _) => apply byte_lit; reflexivity : bytes.
#[local] Hint Extern 1 (0 <= _) => lia : bytes.

Lemma index_get_Forall {A} (P : A -> Prop) (l : list A) (k : Z) (x : A) :
  Forall P l -> index_get l k = Ok x -> P x.
Proof.
  unfold index_get. intros HP H. destruct (k <? 0); [discriminate|].
  destruct (l !! Z.to_nat k) as [y|] eqn:E; [| discriminate].
  injection H as <-. eapply Forall_lookup_1; eauto.
Qed.

Lemma index_set_Forall {A} (P : A -> Prop) (l l' : list A) (k : Z) (x : A) :
  Forall P l -> P x -> index_set l k x = Ok l' ->
  Forall P l' /\ length l' = length l.
Proof.
  unfold index_set. intros HP Hx H. destruct (k <? 0); [discriminate|].
  destruct (Z.to_nat k <? length l)%nat; [| discriminate].
  injection H as <-. split; [now apply Forall_insert | apply length_insert].
Qed.

Lemma reg_byte (p : Processor) (x b : Z) : wf p -> reg x p = Ok b -> is_byte b.
Proof. intros Hwf. apply index_get_Forall, (wf_v_bytes p Hwf). Qed.

Lemma mem_byte (p : Processor) (a b : Z) : wf p -> mem a p = Ok b -> is_byte b.
Proof. intros Hwf. apply index_get_Forall, (wf_memory_bytes p Hwf). Qed.

Lemma set_reg_wf (p c : Processor) (x b : Z) :
  wf p -> is_byte b -> set_reg x b p = Ok c -> wf c.
Proof.
  intros Hwf Hb H. unfold set_reg in H.
  apply bind_Ok_inv in H as (r & Hr & H). injection H as <-.
  destruct (index_set_Forall is_byte _ _ _ _ (wf_v_bytes p Hwf) Hb Hr) as [HF HL].
  apply wf_set_v; [exact Hwf | rewrite HL; apply (wf_v p Hwf) | exact HF].
Qed.

Lemma set_mem_wf (p c : Processor) (a b : Z) :
  wf p -> is_byte b -> set_mem a b p = Ok c -> wf c.
Proof.
  intros Hwf Hb H. unfold set_mem in H.
  apply bind_Ok_inv in H as (r & Hr & H). injection H as <-.
  destruct (index_set_Forall is_byte _ _ _ _ (wf_memory_bytes p Hwf) Hb Hr)
    as [HF HL].
  apply wf_set_memory; [exact Hwf | rewrite HL; apply (wf_memory p Hwf) | exact HF].
Qed.

Lemma wf_set_delay (p : Processor) (z : Z) : wf p -> is_byte z -> wf (set_delay p z).
Proof. intros [] Hz. split; assumption. Qed.

Lemma wf_set_sound (p : Processor) (z : Z) : wf p -> is_byte z -> wf (set_sound p z).
Proof. intros [] Hz. split; assumption. Qed.

Lemma wf_set_sp (p : Processor) (z : Z) : wf p -> is_byte z -> wf (set_sp p z).
Proof. intros [] Hz. split; assumption. Qed.

Lemma wf_set_lastTimerUpdate (p : Processor) (t : Z) :
  wf p -> wf (set_lastTimerUpdate p t).
Proof. intros []. split; assumption. Qed.

Lemma wf_set_stack (p : Processor) (s : list Z) :
  wf p -> length s = 16%nat -> Forall is_word s -> wf (set_stack p s).
Proof. intros [] Hl Hs. split; assumption. Qed.

Lemma wf_set_display (p : Processor) (d : list Z) :
  wf p -> length d = 2048%nat -> wf (set_display p d).
Proof. intros [] Hd. split; assumption. Qed.

Lemma scan_keys_wf (x : Z) (n : nat) :
  forall k p f c,
    wf p -> 0 <= k -> k + Z.of_nat n <= 256 ->
    scan_keys x n k p = Ok (f, c) -> wf c.
Proof.
  induction n as [|n IH]; intros k p f c Hwf Hk Hn H; simpl in H.
  - injection H as _ <-. exact Hwf.
  - apply bind_Ok_inv in H as (down & _ & H). destruct down.
    + apply bind_Ok_inv in H as (c' & Hs & H). injection H as _ <-.
      apply (set_reg_wf p c' x k Hwf); [unfold is_byte; lia | exact Hs].
    + apply (IH (k + 1) p f c Hwf); [lia | lia | exact H].
Qed.

Lemma setRegistersToMemory_loop_wf (n : nat) :
  forall k p c, wf p -> setRegistersToMemory_loop n k p = Ok c -> wf c.
Proof.
  induction n as [|n IH]; intros k p c Hwf H; simpl in H.
  - injection H as <-. exact Hwf.
  - apply bind_Ok_inv in H as (b & Hb & H).
    apply bind_Ok_inv in H as (c' & Hs & H).
    apply (IH (u16 (k + 1)) c'); [| exact H].
    apply (set_mem_wf p c' (u16 (p.(i) + k)) b Hwf); [| exact Hs].
    now apply (reg_byte p k).
Qed.

Lemma setMemoryToRegisters_loop_wf (n : nat) :
  forall k p c, wf p -> setMemoryToRegisters_loop n k p = Ok c -> wf c.
Proof.
  induction n as [|n IH]; intros k p c Hwf H; simpl in H.
  - injection H as <-. exact Hwf.
  - apply bind_Ok_inv in H as (b & Hb & H).
    apply bind_Ok_inv in H as (c' & Hs & H).
    apply (IH (u16 (k + 1)) c'); [| exact H].
    apply (set_reg_wf p c' k b Hwf); [| exact Hs].
    now apply (mem_byte p (u16 (p.(i) + k))).
Qed.

#[local] Hint Extern 1 (is_byte (delay ?p)) =>
  apply wf_delay; assumption : bytes.

Ltac known P := match goal with _ : P |- _ => idtac end.

(** Collect what is known of the values read and the states reached. *)
Ltac wf_forward :=
  repeat match goal with
  | Hw : wf ?p, H : reg _ ?p = Ok ?b |- _ =>
      tryif known (is_byte b) then fail
      else pose proof (reg_byte p _ b Hw H)
  | Hw : wf ?p, H : mem _ ?p = Ok ?b |- _ =>
      tryif known (is_byte b) then fail
      else pose proof (mem_byte p _ b Hw H)
  | Hw : wf ?p, H : set_reg _ ?b ?p = Ok ?c |- _ =>
      tryif known (wf c) then fail
      else assert (wf c)
             by (eapply (set_reg_wf p c _ b Hw); [auto with bytes | exact H])
  | Hw : wf ?p, H : set_mem _ ?b ?p = Ok ?c |- _ =>
      tryif known (wf c) then fail
      else assert (wf c)
             by (eapply (set_mem_wf p c _ b Hw); [auto with bytes | exact H])
  | Hw : wf ?p, H : scan_keys _ _ _ ?p = Ok (_, ?c) |- _ =>
      tryif known (wf c) then fail
      else assert (wf c)
             by (apply (scan_keys_wf _ _ _ p _ c Hw) in H;
                 [exact H | lia | rewrite (wf_keyState p Hw); simpl; lia])
  | Hw : wf ?p, H : setRegistersToMemory_loop _ _ ?p = Ok ?c |- _ =>
      tryif known (wf c) then fail
      else pose proof (setRegistersToMemory_loop_wf _ _ p c Hw H)
  | Hw : wf ?p, H : setMemoryToRegisters_loop _ _ ?p = Ok ?c |- _ =>
      tryif known (wf c) then fail
      else pose proof (setMemoryToRegisters_loop_wf _ _ p c Hw H)
  end.

Lemma Execute_wf (DS : Z -> Z -> Z -> Processor -> result Processor)
  (rnd op info : Z) (p c : Processor) (info' : Z) :
  keeps_wf DS -> wf p ->
  Execute DS rnd op info p = Ok (c, info') -> wf c.
Proof.
  intros HDS Hwf H. cases_of_Execute H.
  all: invert_run; subst; wf_forward.
  all: repeat match goal with
       | Hw : wf ?q, H : _ = Ok ?q' |- _ =>
           tryif known (wf q') then fail else pose proof (HDS _ _ _ q q' Hw H)
       end.
  all: subst; try assumption.
  all: cbn [stack sp set_sp set_stack set_pc] in *.
  all: repeat match goal with
       | Hw : wf ?q, H : index_get (stack ?q) _ = Ok ?a |- _ =>
           tryif known (is_word a) then fail
           else pose proof
                  (index_get_Forall is_word _ _ _ (wf_stack_words q Hw) H)
       | Hw : wf ?q, H : index_set (stack ?q) _ ?a = Ok ?s |- _ =>
           tryif known (Forall is_word s) then fail
           else
             destruct (index_set_Forall is_word _ _ _ _ (wf_stack_words q Hw)
                         (wf_pc q Hw) H)
       end.
  all: repeat first
         [ assumption
         | apply wf_set_pc | apply wf_set_i | apply wf_set_delay
         | apply wf_set_sound | apply wf_set_sp | apply wf_set_stack
         | apply wf_set_display
         | apply word_u16 | apply byte_u8 | apply op_nnn_word
         | rewrite length_replicate; apply wf_display
         | match goal with
           | H : length ?a = length (stack ?q) |- length ?a = _ =>
               rewrite H; apply wf_stack
           end ].
Qed.

Lemma Execute_clock (DS : Z -> Z -> Z -> Processor -> result Processor)
  (rnd op info : Z) (p c : Processor) (info' : Z) :
  keeps_clock DS ->
  Execute DS rnd op info p = Ok (c, info') -> same_clock p c.
Proof.
  intros HDS H. cases_of_Execute H.
  all: invert_run; frame_facts.
  all: repeat match goal with
       | H : _ = Ok _ |- _ => apply HDS in H
       end.
  all: unfold same_frame, same_stack, same_clock in *; subst; cbn in *.
  all: intuition congruence.
Qed.

Lemma fetch_execute_wf (DS : Z -> Z -> Z -> Processor -> result Processor)
  (rnd : Z) (p c : Processor) (info : Z) :
  keeps_wf DS -> wf p -> fetch_execute DS rnd p = Ok (c, info) -> wf c.
Proof.
  intros HDS Hwf H. unfold fetch_execute in H.
  apply bind_Ok_inv in H as (op & _ & H).
  apply (Execute_wf DS rnd op 0 _ c info HDS) in H; [exact H|].
  apply wf_set_pc; [exact Hwf | apply word_u16].
Qed.

Lemma fetch_execute_clock (DS : Z -> Z -> Z -> Processor -> result Processor)
  (rnd : Z) (p c : Processor) (info : Z) :
  keeps_clock DS -> fetch_execute DS rnd p = Ok (c, info) -> same_clock p c.
Proof.
  intros HDS H. unfold fetch_execute in H.
  apply bind_Ok_inv in H as (op & _ & H).
  apply (Execute_clock DS rnd op 0 _ c info HDS) in H. exact H.
Qed.

Lemma tick_wf (t_since t_now : Z) (p : Processor) :
  wf p -> wf (tick t_since t_now p).
Proof.
  intros Hwf. unfold tick. destruct (TimerRate <=? _); [| exact Hwf].
  apply wf_set_lastTimerUpdate.
  destruct (0 <? sound p).
  - cbn [delay set_sound]. destruct (0 <? delay p).
    + apply wf_set_delay; [apply wf_set_sound; [exact Hwf|] |]; apply byte_u8.
    + apply wf_set_sound; [exact Hwf | apply byte_u8].
  - destruct (0 <? delay p); [| exact Hwf].
    apply wf_set_delay; [exact Hwf | apply byte_u8].
Qed.

Lemma Step_wf (DS : Z -> Z -> Z -> Processor -> result Processor)
  (rnd t_since t_now : Z) (p c : Processor) (info : Z) :
  keeps_wf DS -> wf p -> Step DS rnd t_since t_now p = Ok (c, info) -> wf c.
Proof.
  intros HDS Hwf H. unfold Step in H.
  apply bind_Ok_inv in H as ([q info0] & Hq & H). injection H as <- _.
  apply tick_wf. exact (fetch_execute_wf DS rnd p q info0 HDS Hwf Hq).
Qed.

(** ** The timers (claim C8) *)

Lemma tick_due (t_since t_now : Z) (q : Processor) :
  wf q -> due t_since q = true ->
  (tick t_since t_now q).(delay) = Z.max 0 (q.(delay) - 1) /\
  (tick t_since t_now q).(sound) = Z.max 0 (q.(sound) - 1) /\
  (tick t_since t_now q).(lastTimerUpdate) = t_now.
Proof.
  intros Hwf Hdue. unfold due in Hdue. unfold tick. rewrite Hdue.
  pose proof (wf_delay q Hwf) as Hd. pose proof (wf_sound q Hwf) as Hs.
  destruct (Z.ltb_spec 0 (sound q)); cbn [delay sound set_sound];
    destruct (Z.ltb_spec 0 (delay q)); cbn; unfold u8;
    rewrite ?Z.mod_small by lia; repeat split; lia.
Qed.

Lemma tick_not_due (t_since t_now : Z) (q : Processor) :
  due t_since q = false -> tick t_since t_now q = q.
Proof. intros Hdue. unfold due in Hdue. unfold tick. now rewrite Hdue. Qed.

Lemma due_elapsed (t_since : Z) (p : Processor) :
  due t_since p = true -> TimerRate <= t_since - p.(lastTimerUpdate).
Proof.
  unfold due, Since, TimerRate, Second, minDuration, maxDuration.
  change (1000000000 / 60) with 16666666. intros H.
  apply Z.leb_le in H. lia.
Qed.

Lemma last_reading_ge (inputs : list StepInput) :
  forall t, monotone t inputs -> t <= last_reading t inputs.
Proof.
  induction inputs as [|x rest IH]; intros t Hmono; simpl in *; [lia|].
  destruct Hmono as (H1 & H2 & H3). specialize (IH _ H3). lia.
Qed.

Section Timers.

Variable DS : Z -> Z -> Z -> Processor -> result Processor.
Hypothesis DS_wf : keeps_wf DS.
Hypothesis DS_clock : keeps_clock DS.

Lemma Step_timers (rnd t_since t_now : Z) (p c : Processor) (info : Z) :
  wf p -> Step DS rnd t_since t_now p = Ok (c, info) ->
  exists q info0,
    fetch_execute DS rnd p = Ok (q, info0) /\ wf q /\
    q.(lastTimerUpdate) = p.(lastTimerUpdate) /\
    (due t_since p = true ->
       c.(delay) = Z.max 0 (q.(delay) - 1) /\
       c.(sound) = Z.max 0 (q.(sound) - 1) /\
       c.(lastTimerUpdate) = t_now) /\
    (due t_since p = false -> c = q).
Proof.
  intros Hwf H. unfold Step in H.
  apply bind_Ok_inv in H as ([q info0] & Hq & H). injection H as <- _.
  pose proof (fetch_execute_wf DS rnd p q info0 DS_wf Hwf Hq) as Hwq.
  pose proof (fetch_execute_clock DS rnd p q info0 DS_clock Hq) as Hcl.
  unfold same_clock in Hcl.
  assert (Hdue : due t_since q = due t_since p) by (unfold due; now rewrite Hcl).
  exists q, info0. split; [exact Hq|]. split; [exact Hwq|].
  split; [exact Hcl|]. rewrite <- Hdue. split.
  - intros Hd. now apply tick_due.
  - intros Hd. now apply tick_not_due.
Qed.

Lemma run_same_interval (inputs : list StepInput) :
  forall p c n,
    wf p ->
    Forall (fun x => due x.(in_since) p = false) inputs ->
    run DS inputs p = Ok (c, n) ->
    n = 0 /\ c.(lastTimerUpdate) = p.(lastTimerUpdate) /\
    run_untimed DS inputs p = Ok c.
Proof.
  induction inputs as [|x rest IH]; intros p c n Hwf Hall H; simpl in H.
  - injection H as <- <-. repeat split.
  - apply Forall_cons in Hall as [Hx Hrest].
    apply bind_Ok_inv in H as ([c1 info1] & Hstep & H).
    apply bind_Ok_inv in H as ([c2 n2] & Hrun & H). injection H as <- <-.
    cbn [fst snd] in *.
    destruct (Step_timers _ _ _ p c1 info1 Hwf Hstep)
      as (q & info0 & Hq & Hwq & Hcl & _ & Hsame).
    specialize (Hsame Hx). subst c1.
    destruct (IH q c2 n2 Hwq) as (-> & Hlast & Hun); [| exact Hrun |].
    + eapply Forall_impl; [exact Hrest|]. intros y Hy. cbn beta in *.
      unfold due in *. now rewrite Hcl.
    + rewrite Hx. split; [reflexivity|]. split; [congruence|].
      cbn [run_untimed]. rewrite Hq. exact Hun.
Qed.

Lemma run_tick_bound (inputs : list StepInput) :
  forall p c n t,
    wf p -> p.(lastTimerUpdate) <= t -> monotone t inputs ->
    run DS inputs p = Ok (c, n) ->
    0 <= n /\
    n * TimerRate <= last_reading t inputs - p.(lastTimerUpdate) /\
    c.(lastTimerUpdate) <= last_reading t inputs.
Proof.
  induction inputs as [|x rest IH]; intros p c n t Hwf Ht Hmono H; simpl in H.
  - injection H as <- <-. simpl. lia.
  - destruct Hmono as (H1 & H2 & H3).
    apply bind_Ok_inv in H as ([c1 info1] & Hstep & H).
    apply bind_Ok_inv in H as ([c2 n2] & Hrun & H). injection H as <- <-.
    cbn [fst snd last_reading] in *.
    pose proof (Step_wf DS _ _ _ p c1 info1 DS_wf Hwf Hstep) as Hw1.
    destruct (Step_timers _ _ _ p c1 info1 Hwf Hstep)
      as (q & info0 & Hq & Hwq & Hcl & Hfire & Hsame).
    pose proof (last_reading_ge rest _ H3) as Hge.
    destruct (due (in_since x) p) eqn:Hdue.
    + destruct (Hfire eq_refl) as (_ & _ & Hlast).
      pose proof (due_elapsed _ _ Hdue) as Hel.
      destruct (IH c1 c2 n2 (in_now x) Hw1) as (Hn & Hb & Hl);
        [lia | exact H3 | exact Hrun |].
      rewrite Hlast in Hb. split; [lia|]. split; [lia | exact Hl].
    + specialize (Hsame eq_refl). subst c1.
      destruct (IH q c2 n2 (in_now x) Hwq) as (Hn & Hb & Hl);
        [lia | exact H3 | exact Hrun |].
      rewrite Hcl in Hb. split; [lia|]. split; [lia | exact Hl].
Qed.

End Timers.

(** C8.  The timer block of a step runs once, after the instruction.  When
    [TimerRate] (1/60 second in nanoseconds) or more has elapsed since the
    last tick, it takes one from each timer that is not yet 0 and records
    the current instant; otherwise the step is the instruction alone.
    Hence any number of steps within one interval leaves the timers to the
    instructions only, and over any run the timer block fires at most once
    per whole interval elapsed. *)
Theorem timers_follow_the_clock
  (DS : Z -> Z -> Z -> Processor -> result Processor) (p : Processor) :
  keeps_wf DS -> keeps_clock DS -> wf p ->
  (forall rnd t_since t_now c info,
     Step DS rnd t_since t_now p = Ok (c, info) ->
     exists q info0,
       fetch_execute DS rnd p = Ok (q, info0) /\
       (TimerRate <= Since t_since p.(lastTimerUpdate) ->
          c.(delay) = Z.max 0 (q.(delay) - 1) /\
          c.(sound) = Z.max 0 (q.(sound) - 1) /\
          c.(lastTimerUpdate) = t_now) /\
       (Since t_since p.(lastTimerUpdate) < TimerRate -> c = q)) /\
  (forall inputs c n,
     Forall (fun x => Since x.(in_since) p.(lastTimerUpdate) < TimerRate) inputs ->
     run DS inputs p = Ok (c, n) ->
     n = 0 /\ c.(lastTimerUpdate) = p.(lastTimerUpdate) /\
     run_untimed DS inputs p = Ok c) /\
  (forall inputs c n t,
     p.(lastTimerUpdate) <= t -> monotone t inputs ->
     run DS inputs p = Ok (c, n) ->
     0 <= n <= (last_reading t inputs - p.(lastTimerUpdate)) / TimerRate).
Proof.
  intros Hwf_DS Hclock_DS Hwf. split; [| split].
  - intros rnd t_since t_now c info H.
    destruct (Step_timers DS Hwf_DS Hclock_DS rnd t_since t_now p c info Hwf H)
      as (q & info0 & Hq & _ & _ & Hfire & Hsame).
    exists q, info0. split; [exact Hq|]. split.
    + intros Hd. apply Hfire. unfold due. now apply Z.leb_le.
    + intros Hd. apply Hsame. unfold due. now apply Z.leb_gt.
  - intros inputs c n Hall H.
    apply (run_same_interval DS Hwf_DS Hclock_DS inputs p c n Hwf); [| exact H].
    eapply Forall_impl; [exact Hall|]. intros x Hx. cbn beta in *.
    unfold due. now apply Z.leb_gt.
  - intros inputs c n t Ht Hmono H.
    destruct (run_tick_bound DS Hwf_DS Hclock_DS inputs p c n t Hwf Ht Hmono H)
      as (Hn & Hb & _).
    split; [exact Hn|]. apply Z.div_le_lower_bound.
    + unfold TimerRate, Second. reflexivity.
    + lia.
Qed.

Lemma idle_blitter_keeps_wf : keeps_wf idle_blitter.
Proof. intros a b n q q' Hwf H. injection H as <-. exact Hwf. Qed.

Lemma idle_blitter_keeps_clock : keeps_clock idle_blitter.
Proof. intros a b n q q' H. injection H as <-. reflexivity. Qed.

Lemma wf_timer_state : wf timer_state.
Proof. wf_concrete. Qed.

Lemma timers_follow_the_clock_witness :
  keeps_wf idle_blitter /\ keeps_clock idle_blitter /\ wf timer_state /\
  exists c,
    run idle_blitter quick_inputs timer_state = Ok (c, 0) /\
    c.(lastTimerUpdate) = timer_state.(lastTimerUpdate) /\
    run_untimed idle_blitter quick_inputs timer_state = Ok c.
Proof.
  split; [exact idle_blitter_keeps_wf |].
  split; [exact idle_blitter_keeps_clock |].
  split; [exact wf_timer_state |].
  assert (E : exists c n, run idle_blitter quick_inputs timer_state = Ok (c, n))
    by (eexists; eexists; vm_compute; reflexivity).
  destruct E as (c & n & E).
  destruct (proj1 (proj2 (timers_follow_the_clock idle_blitter timer_state
                            idle_blitter_keeps_wf idle_blitter_keeps_clock
                            wf_timer_state)) quick_inputs c n)
    as (Hn & Hlast & Hrun); [repeat constructor | exact E |].
  exists c. rewrite <- Hn. split; [exact E | split; [exact Hlast | exact Hrun]].
Defined.

(** A thousand steps of the jump within the millisecond after a tick: the
    delay timer still holds 50, and no timer block fired. *)
Example thousand_quick_steps :
  exists c,
    run idle_blitter (replicate 1000 (mkStepInput 0 1500000 1500000)) timer_state
    = Ok (c, 0) /\
    c.(delay) = 50 /\ c.(pc) = ProgramStartAddress.
Proof. eexists. split; [vm_compute; reflexivity | split; reflexivity]. Qed.

(** ** Loading a program (claim C9) *)

(** C9 (as amended).  [Load] stores the bytes unchanged from the program
    origin [0x200] on through [Write], which stops at the top of the memory
    and returns the number of bytes it stored.  When all bytes were stored,
    [Load] sets the program counter to the origin; when fewer were, [Load]
    itself raises the panic "insufficient memory" and returns nothing.  A
    program of up to 3583 bytes is stored whole, one that exceeds the
    3584 bytes above the origin is not. *)
Theorem load_program (p : Processor) (b : list Z) :
  wf p ->
  exists q n,
    Write ProgramStartAddress b p = Ok (q, n) /\
    0 <= n <= Z.of_nat (length b) /\
    (forall j, 0 <= j < n -> M q (ProgramStartAddress + j) = Vl b j) /\
    (forall a, ~ (ProgramStartAddress <= a < ProgramStartAddress + n) ->
       M q a = M p a) /\
    (n = Z.of_nat (length b) -> Load b p = Ok (set_pc q ProgramStartAddress)) /\
    (n < Z.of_nat (length b) -> Load b p = Panic "insufficient memory") /\
    (Z.of_nat (length b) <= 3583 -> n = Z.of_nat (length b)) /\
    (4096 - ProgramStartAddress < Z.of_nat (length b) ->
       n < Z.of_nat (length b)).
Proof.
  intros Hwf.
  destruct (Write_spec ProgramStartAddress b p (wf_memory p Hwf))
    as (q & n & Hrun & Hn & _ & _ & Hin & Hout);
    [unfold ProgramStartAddress; lia |].
  exists q, n. unfold Load. rewrite Hrun. cbn [bind].
  unfold transfer_count, ProgramStartAddress in *.
  split; [reflexivity|]. split; [lia|]. split; [intros j Hj; now apply Hin|].
  split; [exact Hout|]. split; [| split; [| split]].
  - intros E. destruct (Z.ltb_spec n (Z.of_nat (length b))); [lia | reflexivity].
  - intros E. destruct (Z.ltb_spec n (Z.of_nat (length b))); [reflexivity | lia].
  - lia.
  - lia.
Qed.

Lemma load_program_witness :
  wf fresh /\
  exists q n,
    Write ProgramStartAddress [0x12; 0x00] fresh = Ok (q, n) /\
    (n = Z.of_nat (length [0x12; 0x00]) ->
     Load [0x12; 0x00] fresh = Ok (set_pc q ProgramStartAddress)).
Proof.
  split; [exact wf_fresh |].
  destruct (load_program fresh [0x12; 0x00] wf_fresh)
    as (q & n & Hrun & _ & _ & _ & Hload & _).
  exists q, n. split; [exact Hrun | exact Hload].
Defined.

(** C9 as stated fails: a program one byte too long makes [Load] panic
    instead of reporting a count (and makes the older [Emulator.Load] fail
    on the index past the memory). *)
Lemma load_program_counterexample :
  Load (replicate 3585 0) fresh = Panic "insufficient memory" /\
  Emulator.Load (replicate 3585 0) zero_Emulator = Panic out_of_range.
Proof. split; vm_compute; reflexivity. Qed.

(** ** The sprite origin of the older [Emulator] (claim C7) *)

Lemma drawSprite_origin_spec (x y h : Z) :
  is_byte x -> is_byte y -> is_byte h -> h <> 0 ->
  Emulator.drawSprite_origin x y h = Ok (x mod 64, y mod h).
Proof.
  unfold is_byte, Emulator.drawSprite_origin, u16, Emulator.width.
  intros Hx Hy Hh H0.
  rewrite (Z.mod_small x), (Z.mod_small y), (Z.mod_small h) by lia.
  destruct (Z.eqb_spec h 0); [contradiction | reflexivity].
Qed.

(** C7.  In [drawSprite] the start row is the remainder of [Vy] by the
    parameter [height], the number of rows of the sprite, which hides the
    constant [height = 32]: for [Vx = 0], [Vy = 10] and a sprite of 4 rows
    the start row is 2, whereas [10 mod 32 = 10]; a sprite of 0 rows stops
    the routine in the division by zero.  The start column is [Vx mod 64]. *)
Theorem sprite_origin_uses_sprite_height :
  Emulator.drawSprite_origin 0 10 4 = Ok (0, 2) /\
  10 mod Emulator.height = 10 /\
  Emulator.drawSprite_origin 0 10 0 = Panic "integer divide by zero" /\
  Emulator.drawSprite [] 0 10 0 zero_Emulator
    = Panic "integer divide by zero".
Proof. split; [| split; [| split]]; reflexivity. Qed.

(** * Further properties of the code *)

(** ** Instruction words and their fields *)

Lemma word_of_fields (op : Z) :
  0 <= op < 65536 ->
  word (op_kind op) (op_x op) (op_y op) (op_n op) = op /\
  op_nn op = op_y op * 16 + op_n op /\
  op_nnn op = op_x op * 256 + op_y op * 16 + op_n op /\
  nibble (op_kind op) /\ nibble (op_x op) /\ nibble (op_y op) /\
  nibble (op_n op).
Proof.
  intros Hop. unfold word, nibble.
  rewrite op_kind_div, op_x_div, op_y_div, op_n_mod, op_nn_mod, op_nnn_mod.
  repeat split; Z.div_mod_to_equations; lia.
Qed.

(** X1.  Decoding and re-encoding are inverse to each other: a 16-bit
    word is the word of its four nibbles (and [nn], [nnn] are made of the
    same nibbles), and the word built from four nibbles decodes to them. *)
Theorem fields_round_trip (k x y n op : Z) :
  (0 <= op < 65536 ->
   word (op_kind op) (op_x op) (op_y op) (op_n op) = op /\
   op_nn op = op_y op * 16 + op_n op /\
   op_nnn op = op_x op * 256 + op_y op * 16 + op_n op /\
   nibble (op_kind op) /\ nibble (op_x op) /\ nibble (op_y op) /\
   nibble (op_n op)) /\
  (nibble k -> nibble x -> nibble y -> nibble n ->
   0 <= word k x y n < 65536 /\
   op_kind (word k x y n) = k /\ op_x (word k x y n) = x /\
   op_y (word k x y n) = y /\ op_n (word k x y n) = n).
Proof.
  split; [apply word_of_fields |].
  intros Hk Hx Hy Hn.
  destruct (decode_word k x y n Hk Hx Hy Hn) as (E1 & E2 & E3 & E4 & _).
  split; [unfold nibble, word in *; lia | tauto].
Qed.

Lemma fields_round_trip_witness :
  0 <= 0x8AB4 < 65536 /\
  word (op_kind 0x8AB4) (op_x 0x8AB4) (op_y 0x8AB4) (op_n 0x8AB4) = 0x8AB4.
Proof.
  assert (H : 0 <= 0x8AB4 < 65536) by lia.
  split; [exact H |].
  exact (proj1 (proj1 (fields_round_trip 0 0 0 0 0x8AB4) H)).
Defined.

(** ** The decoder of the object-style handlers *)

Lemma Decode_fields (op : Z) :
  Decoder.Decode op =
  match op_kind op with
  | 0x0 =>
      match op with
      | 0x00E0 => Ok Decoder.ClearScreen
      | 0x00EE => Ok Decoder.SubroutineReturn
      | _ => Panic "unknown 0x0 opcode"
      end
  | 0x1 => Ok (Decoder.JumpToLocation (op_nnn op))
  | 0x2 => Ok (Decoder.SubroutineCall (op_nnn op))
  | 0x3 => Ok (Decoder.StepIfXEqualsNN (op_x op) (op_nn op))
  | 0x4 => Ok (Decoder.StepIfXNotEqualsNN (op_x op) (op_nn op))
  | 0x5 => Ok (Decoder.StepIfXEqualsY (op_x op) (op_y op))
  | 0x6 => Ok (Decoder.SetXToNN (op_x op) (op_nn op))
  | 0x7 => Ok (Decoder.AddNNToX (op_x op) (op_nn op))
  | 0x8 =>
      match op_n op with
      | 0x0 => Ok (Decoder.SetXToY (op_x op) (op_y op))
      | 0x1 => Ok (Decoder.OrXY (op_x op) (op_y op))
      | 0x2 => Ok (Decoder.AndXY (op_x op) (op_y op))
      | 0x3 => Ok (Decoder.XOrXY (op_x op) (op_y op))
      | 0x4 => Ok (Decoder.AddXY (op_x op) (op_y op))
      | 0x5 => Ok (Decoder.SubtractYFromX (op_x op) (op_y op))
      | 0x6 => Ok (Decoder.ShiftRightX (op_x op))
      | 0x7 => Ok (Decoder.SubtractXFromY (op_x op) (op_y op))
      | 0xE => Ok (Decoder.ShiftLeftX (op_x op))
      | _ => Panic "unknown 0x8 opcode"
      end
  | 0x9 => Ok (Decoder.StepIfXNotEqualsY (op_x op) (op_y op))
  | 0xA => Ok (Decoder.SetIToNNN (op_nnn op))
  | 0xB => Ok (Decoder.JumpWithOffset (op_nnn op))
  | 0xC => Ok (Decoder.SetXToRandom (op_x op) (op_nn op))
  | 0xD => Ok (Decoder.DrawSprite (op_x op) (op_y op) (op_n op))
  | 0xE =>
      match op_nn op with
      | 0x9E => Ok (Decoder.StepIfKeyDown (op_x op))
      | 0xA1 => Ok (Decoder.StepIfKeyUp (op_x op))
      | _ => Panic "unknown 0xE opcode"
      end
  | 0xF =>
      match op_nn op with
      | 0x07 => Ok (Decoder.SetXToDelay (op_x op))
      | 0x0A => Ok (Decoder.PauseUntilKeyPressed (op_x op))
      | 0x15 => Ok (Decoder.SetDelayToX (op_x op))
      | 0x18 => Ok (Decoder.SetSoundToX (op_x op))
      | 0x1E => Ok (Decoder.SetIToX (op_x op))
      | 0x29 => Ok (Decoder.SetIToSymbol (op_x op))
      | 0x33 => Ok (Decoder.BinaryCodedDecimal (op_x op))
      | 0x55 => Ok (Decoder.SetRegistersToMemory (op_x op))
      | 0x65 => Ok (Decoder.SetMemoryToRegisters (op_x op))
      | _ => Panic "unknown 0xF opcode"
      end
  | _ => Panic "unknown opcode"
  end.
Proof. reflexivity. Qed.

Lemma decode_x_nn (k x nn : Z) :
  nibble k -> nibble x -> 0 <= nn < 256 ->
  op_kind (k * 4096 + x * 256 + nn) = k /\
  op_x (k * 4096 + x * 256 + nn) = x /\
  op_nn (k * 4096 + x * 256 + nn) = nn.
Proof.
  unfold nibble. intros Hk Hx Hn. rewrite op_kind_div, op_x_div, op_nn_mod.
  repeat split; Z.div_mod_to_equations; lia.
Qed.

Ltac decode_nnn k :=
  match goal with
  | H : 0 <= ?nnn < 4096 |- _ =>
      destruct (decode_addr k nnn) as [Dk Dn];
      [unfold nibble; lia | exact H |];
      match goal with
      | |- Decoder.Decode (?c + _) = _ => change c with (k * 4096)
      end;
      rewrite Decode_fields, Dk, Dn; reflexivity
  end.

Ltac decode_xnn k :=
  match goal with
  | Hx : nibble ?x, H : 0 <= ?nn < 256 |- _ =>
      destruct (decode_x_nn k x nn) as (Dk & Dx & Dn);
      [unfold nibble; lia | exact Hx | exact H |];
      match goal with
      | |- Decoder.Decode (?c + _ + _) = _ => change c with (k * 4096)
      end;
      rewrite Decode_fields, Dk, Dx, Dn; reflexivity
  end.

Ltac decode_w :=
  match goal with
  | |- Decoder.Decode (word ?k ?x ?y ?n) = _ =>
      destruct (decode_word k x y n) as (Dk & Dx & Dy & Dn & Dnn & Dnnn);
      [ first [assumption | now apply nibble_lit] ..
      | rewrite Decode_fields, ?Dk, ?Dx, ?Dy, ?Dn, ?Dnn, ?Dnnn; reflexivity ]
  end.

Lemma Decode_encode_ok (o : Decoder.OpCode) :
  Decoder.fields_ok o -> Decoder.Decode (Decoder.encode o) = Ok o.
Proof.
  destruct o; cbn [Decoder.fields_ok Decoder.encode]; intros H;
    try reflexivity.
  all: try (decode_nnn 1 || decode_nnn 2 || decode_nnn 10 || decode_nnn 11).
  all: try (destruct H as [Hx H];
            first [ decode_xnn 3 | decode_xnn 4 | decode_xnn 6 | decode_xnn 7
                  | decode_xnn 12 ]).
  all: try (destruct H as [Hx Hy]; decode_w).
  all: try (destruct H as (Hx & Hy & Hn); decode_w).
  all: try (pose proof H as Hx; decode_w).
Qed.

Lemma op_fields_ranges (op : Z) :
  nibble (op_x op) /\ nibble (op_y op) /\ nibble (op_n op) /\
  0 <= op_nn op < 256 /\ 0 <= op_nnn op < 4096.
Proof.
  unfold nibble. rewrite op_x_div, op_y_div, op_n_mod, op_nn_mod, op_nnn_mod.
  repeat split; Z.div_mod_to_equations; lia.
Qed.

Lemma Decode_fields_ok (op : Z) (o : Decoder.OpCode) :
  Decoder.Decode op = Ok o -> Decoder.fields_ok o.
Proof.
  rewrite Decode_fields.
  destruct (op_fields_ranges op) as (Hx & Hy & Hn & Hnn & Hnnn).
  revert Hx Hy Hn Hnn Hnnn.
  generalize (op_x op) (op_y op) (op_n op) (op_nn op) (op_nnn op) (op_kind op).
  intros x y n nn nnn k Hx Hy Hn Hnn Hnnn H.
  repeat match type of H with
  | context [match ?z with _ => _ end] => destruct z; try discriminate H
  end.
  all: injection H as <-; cbn [Decoder.fields_ok]; auto.
Qed.

(** X2.  [Decode] and the instruction word of a struct are a round trip: a
    struct whose fields are within their widths is the decoding of its
    word, and whatever [Decode] returns has its fields within their widths
    and is the decoding of its own word (the nibbles that 5XYN, 9XYN, 8XY6
    and 8XYE do not keep are not looked at). *)
Theorem Decode_round_trip (o : Decoder.OpCode) :
  (Decoder.fields_ok o -> Decoder.Decode (Decoder.encode o) = Ok o) /\
  (forall op, Decoder.Decode op = Ok o ->
     Decoder.fields_ok o /\ Decoder.Decode (Decoder.encode o) = Ok o).
Proof.
  split; [apply Decode_encode_ok |].
  intros op H. pose proof (Decode_fields_ok op o H) as Hok.
  split; [exact Hok | now apply Decode_encode_ok].
Qed.

Lemma Decode_round_trip_witness :
  Decoder.fields_ok (Decoder.AddXY 1 2) /\
  Decoder.Decode (Decoder.encode (Decoder.AddXY 1 2)) = Ok (Decoder.AddXY 1 2).
Proof.
  assert (H : Decoder.fields_ok (Decoder.AddXY 1 2))
    by (split; unfold nibble; lia).
  split; [exact H |].
  exact (proj1 (Decode_round_trip (Decoder.AddXY 1 2)) H).
Defined.

(** X3.  The two dispatchers agree: where [Decode] rejects a word,
    [Execute] stops with the same panic, and where [Decode] returns a
    struct (other than the call and the return, which keep their addresses
    in a linked list), the struct's [Execute] method does what [Execute]
    does on the word. *)
Theorem Decode_agrees_with_Execute
  (DS : Z -> Z -> Z -> Processor -> result Processor)
  (rnd op info : Z) (p : Processor) :
  (forall msg,
     Decoder.Decode op = Panic msg -> Execute DS rnd op info p = Panic msg) /\
  (forall o r,
     Decoder.Decode op = Ok o ->
     Decoder.Execute_method DS rnd o info p = Some r ->
     r = Execute DS rnd op info p).
Proof.
  split.
  - intros msg. rewrite Decode_fields. unfold Execute. cbv zeta.
    repeat match goal with
    | |- context [match ?z with _ => _ end] => destruct z
    end.
    all: intros H; try discriminate H; injection H as <-; reflexivity.
  - intros o r. rewrite Decode_fields. unfold Execute. cbv zeta.
    repeat match goal with
    | |- context [match ?z with _ => _ end] => destruct z
    end.
    all: intros H; try discriminate H.
    all: injection H as <-; cbn [Decoder.Execute_method]; intros Hr;
      try discriminate Hr; injection Hr as <-; reflexivity.
Qed.

Lemma Decode_agrees_with_Execute_witness :
  Decoder.Decode 0x8128 = Panic "unknown 0x8 opcode" /\
  Execute idle_blitter 0 0x8128 0 fresh = Panic "unknown 0x8 opcode".
Proof.
  assert (H : Decoder.Decode 0x8128 = Panic "unknown 0x8 opcode") by reflexivity.
  split; [exact H |].
  exact (proj1 (Decode_agrees_with_Execute idle_blitter 0 0x8128 0 fresh) _ H).
Defined.

(** ** Bulk transfers and fetching *)

Lemma M_byte (p : Processor) (a : Z) : wf p -> is_byte (M p a).
Proof.
  intros Hwf. unfold M, mem.
  destruct (index_get (memory p) a) as [b|msg] eqn:E; [| unfold is_byte; lia].
  exact (index_get_Forall is_byte _ _ _ (wf_memory_bytes p Hwf) E).
Qed.

(** X4.  What [Write] stored, [Read] returns: after [Write loc data], a
    [Read] from the same [loc] fills the first [min n m] cells of its
    buffer with the first bytes of [data], where [n] and [m] are the
    counts the two calls return (the length offered, cut at address
    [0xFFF]). *)
Theorem Write_then_Read (p : Processor) (loc : Z) (data buf : list Z) :
  wf p -> 0 <= loc < 65536 ->
  exists q n buf' m,
    Write loc data p = Ok (q, n) /\
    Read loc buf q = Ok (buf', m) /\
    n = Z.min (Z.of_nat (length data)) (Z.max 0 (0xFFF - loc)) /\
    m = Z.min (Z.of_nat (length buf)) (Z.max 0 (0xFFF - loc)) /\
    length buf' = length buf /\
    (forall j, 0 <= j < Z.min n m -> Vl buf' j = Vl data j) /\
    (forall j, ~ (0 <= j < m) -> Vl buf' j = Vl buf j).
Proof.
  intros Hwf Hloc.
  destruct (Write_spec loc data p (wf_memory p Hwf) Hloc)
    as (q & n & Hw & Hn & _ & Hlq & Hin & _).
  destruct (Read_spec loc buf q Hlq Hloc) as (buf' & m & Hr & Hm & Hl & Hrin & Hrout).
  exists q, n, buf', m. unfold transfer_count in *.
  split; [exact Hw|]. split; [exact Hr|]. split; [exact Hn|].
  split; [exact Hm|]. split; [exact Hl|]. split; [| exact Hrout].
  intros j Hj. destruct (Hrin j) as [_ ->]; [lia|].
  destruct (Hin j) as [_ ->]; [lia | reflexivity].
Qed.

Lemma Write_then_Read_witness :
  wf fresh /\ 0 <= 0x300 < 65536 /\
  exists q n buf' m,
    Write 0x300 [1; 2; 3] fresh = Ok (q, n) /\
    Read 0x300 [0; 0] q = Ok (buf', m) /\
    (forall j, 0 <= j < Z.min n m -> Vl buf' j = Vl [1; 2; 3] j).
Proof.
  assert (Hloc : 0 <= 0x300 < 65536) by lia.
  split; [exact wf_fresh | split; [exact Hloc |]].
  destruct (Write_then_Read fresh 0x300 [1; 2; 3] [0; 0] wf_fresh Hloc)
    as (q & n & buf' & m & Hw & Hr & _ & _ & _ & Hin & _).
  exists q, n, buf', m. split; [exact Hw | split; [exact Hr | exact Hin]].
Defined.

Lemma OpcodeAt_memory (offset z : Z) (p : Processor) :
  OpcodeAt offset (set_pc p z) = OpcodeAt offset p.
Proof. reflexivity. Qed.

Lemma OpcodeAt_at (p : Processor) (offset : Z) :
  wf p -> 0 <= offset <= 0xFFD ->
  OpcodeAt offset p = Ok (word_of_bytes (M p offset) (M p (offset + 1))).
Proof.
  intros Hwf Ho. rewrite <- (OpcodeAt_memory offset offset p).
  change offset with (ProgramCounter (set_pc p offset)) at 1.
  rewrite OpcodeAt_ok;
    [| cbn [memory set_pc]; apply (wf_memory p Hwf) | cbn [pc set_pc]; lia].
  cbn [pc set_pc]. change (M (set_pc p offset)) with (M p).
  rewrite byte_pair by (apply M_byte; exact Hwf). reflexivity.
Qed.

Lemma OpcodeAt_runaway (p : Processor) (offset : Z) :
  wf p -> 0xFFE <= offset < 65536 ->
  OpcodeAt offset p = Panic "program runaway".
Proof.
  intros Hwf Ho. unfold OpcodeAt.
  destruct (Read_spec offset [0; 0] p (wf_memory p Hwf)) as (d & n & -> & Hn & _);
    [lia |].
  cbn [bind]. unfold transfer_count in Hn. simpl length in Hn.
  destruct (Z.ltb_spec n 2); [reflexivity | lia].
Qed.

(** X5.  An instruction word is fetched big-endian from two bytes, and
    only from an address up to [0xFFD]: at [0xFFE] and above (also at
    [LastAddress]) the fetch, and with it the whole step, stops with
    "program runaway". *)
Theorem fetch_or_runaway
  (DS : Z -> Z -> Z -> Processor -> result Processor)
  (rnd t_since t_now : Z) (p : Processor) (offset : Z) :
  wf p -> 0 <= offset < 65536 ->
  (offset <= 0xFFD ->
     OpcodeAt offset p = Ok (M p offset * 256 + M p (offset + 1)) /\
     0 <= M p offset * 256 + M p (offset + 1) < 65536) /\
  (LastAddress <= offset -> OpcodeAt offset p = Panic "program runaway") /\
  (LastAddress <= p.(pc) ->
     Step DS rnd t_since t_now p = Panic "program runaway").
Proof.
  intros Hwf Ho. unfold LastAddress. split; [| split].
  - intros Hle. rewrite OpcodeAt_at by (assumption || lia). split; [reflexivity|].
    pose proof (M_byte p offset Hwf) as B1.
    pose proof (M_byte p (offset + 1) Hwf) as B2. unfold is_byte in *. lia.
  - intros Hge. apply OpcodeAt_runaway; [exact Hwf | lia].
  - intros Hge. unfold Step, fetch_execute, ProgramCounter.
    rewrite OpcodeAt_runaway; [reflexivity | exact Hwf |].
    pose proof (wf_pc p Hwf). lia.
Qed.

Lemma fetch_or_runaway_witness :
  wf fresh /\ 0 <= LastAddress < 65536 /\
  OpcodeAt LastAddress fresh = Panic "program runaway".
Proof.
  assert (Ho : 0 <= LastAddress < 65536) by (unfold LastAddress; lia).
  split; [exact wf_fresh | split; [exact Ho |]].
  apply (proj1 (proj2 (fetch_or_runaway idle_blitter 0 0 0 fresh LastAddress
                         wf_fresh Ho))).
  lia.
Defined.

Lemma Load_wf (b : list Z) (p q : Processor) :
  wf p -> Forall is_byte b -> Load b p = Ok q -> wf q.
Proof.
  intros Hwf Hb H. unfold Load in H.
  apply bind_Ok_inv in H as ([q' n] & Hw & H).
  destruct (n <? Z.of_nat (length b)); [discriminate|]. injection H as <-.
  apply wf_set_pc; [| unfold ProgramStartAddress; lia].
  clear - Hwf Hb Hw. unfold Write in Hw.
  revert Hw. generalize 0 at 1. revert p Hwf.
  induction b as [|x rest IH]; intros p Hwf k Hw; cbn [Write_loop] in Hw.
  - injection Hw as <- _. exact Hwf.
  - apply Forall_cons in Hb as [Hx Hrest].
    destruct (u16 (ProgramStartAddress + k) <? 0xFFF).
    + apply bind_Ok_inv in Hw as (p' & Hs & Hw).
      apply (IH Hrest p') in Hw; [exact Hw|].
      exact (set_mem_wf p p' _ x Hwf Hx Hs).
    + injection Hw as <- _. exact Hwf.
Qed.

(** X6.  A loaded program is what the steps fetch: after a successful
    [Load] of bytes [b] the state is well formed, the program counter is at
    [0x200], memory below [0x200] (the font) is untouched, and the word
    fetched at [0x200 + k] is made of [b[k]] and [b[k+1]]. *)
Theorem Load_then_fetch (p q : Processor) (b : list Z) :
  wf p -> Forall is_byte b -> Load b p = Ok q ->
  wf q /\ q.(pc) = ProgramStartAddress /\
  Z.of_nat (length b) <= 3583 /\
  (forall a, a < ProgramStartAddress -> M q a = M p a) /\
  (forall k, 0 <= k -> k + 1 < Z.of_nat (length b) ->
     OpcodeAt (ProgramStartAddress + k) q
     = Ok (Vl b k * 256 + Vl b (k + 1))).
Proof.
  intros Hwf Hb H. pose proof (Load_wf b p q Hwf Hb H) as Hwq.
  split; [exact Hwq|].
  unfold Load in H.
  destruct (Write_spec ProgramStartAddress b p (wf_memory p Hwf))
    as (q' & n & Hw & Hn & _ & _ & Hin & Hout);
    [unfold ProgramStartAddress; lia |].
  rewrite Hw in H. cbn [bind] in H.
  destruct (Z.ltb_spec n (Z.of_nat (length b))); [discriminate|].
  injection H as <-. unfold transfer_count, ProgramStartAddress in *.
  split; [reflexivity|]. split; [lia|]. split.
  - intros a Ha. change (M (set_pc q' 512) a) with (M q' a). apply Hout. lia.
  - intros k Hk Hk1. rewrite OpcodeAt_at by (assumption || lia).
    unfold word_of_bytes. change (M (set_pc q' 512)) with (M q').
    destruct (Hin k) as [_ ->]; [lia|].
    replace (512 + k + 1) with (512 + (k + 1)) by lia.
    destruct (Hin (k + 1)) as [_ ->]; [lia|]. reflexivity.
Qed.

Lemma Load_then_fetch_witness :
  wf fresh /\ Forall is_byte [0x12; 0x00] /\
  Load [0x12; 0x00] fresh = Ok (with_program [0x12; 0x00]) /\
  OpcodeAt (ProgramStartAddress + 0) (with_program [0x12; 0x00])
  = Ok (Vl [0x12; 0x00] 0 * 256 + Vl [0x12; 0x00] (0 + 1)).
Proof.
  assert (Hb : Forall is_byte [0x12; 0x00]) by (apply bytes_check; reflexivity).
  assert (Hl : Load [0x12; 0x00] fresh = Ok (with_program [0x12; 0x00]))
    by (vm_compute; reflexivity).
  split; [exact wf_fresh | split; [exact Hb | split; [exact Hl |]]].
  apply (Load_then_fetch fresh (with_program [0x12; 0x00]) [0x12; 0x00]
           wf_fresh Hb Hl); simpl; lia.
Defined.

(** ** Reset, the font and the call stack *)

Lemma font_check :
  forallb (fun k => (fun k => M (set_pc fresh 0) (FontStartAddress + k) =? Vl fontSet k)
                      (Z.of_nat k)) (seq 0 80) = true.
Proof. vm_compute. reflexivity. Qed.

Lemma Reset_value : Reset = Ok (set_pc fresh 0).
Proof. vm_compute. reflexivity. Qed.

Lemma Reset_font_loaded : font_loaded (set_pc fresh 0).
Proof.
  intros k Hk. apply Z.eqb_eq.
  exact (checked_below
           (fun k => M (set_pc fresh 0) (FontStartAddress + k) =? Vl fontSet k)
           80 font_check k Hk).
Qed.

Lemma Reset_wf_font :
  (exists p, Reset = Ok p) /\
  forall p, Reset = Ok p -> wf p /\ font_loaded p.
Proof.
  split; [exists (set_pc fresh 0); exact Reset_value |].
  intros p H. rewrite Reset_value in H. injection H as <-.
  split; [apply wf_set_pc; [exact wf_fresh | lia] | exact Reset_font_loaded].
Qed.

(** X7.  [Reset] never panics, and a program loaded after it finds the
    font in place: whatever bytes [Load] accepts, the resulting state is
    well formed, starts at [0x200] with an empty call stack, and still
    holds the 80 font bytes from [0x50] on. *)
Theorem Reset_then_Load :
  (exists p, Reset = Ok p /\ wf p /\ font_loaded p) /\
  forall (b : list Z) (p q : Processor),
    Forall is_byte b -> Reset = Ok p -> Load b p = Ok q ->
    wf q /\ font_loaded q /\ q.(pc) = ProgramStartAddress /\
    StackDepth q = 0 /\ q.(v) = replicate 16 0 /\
    q.(delay) = 0 /\ q.(sound) = 0.
Proof.
  assert (W0 : wf (set_pc fresh 0)) by (apply wf_set_pc; [exact wf_fresh | lia]).
  split.
  - exists (set_pc fresh 0).
    split; [exact Reset_value | split; [exact W0 | exact Reset_font_loaded]].
  - intros b p q Hb Hr Hl. rewrite Reset_value in Hr. injection Hr as <-.
    pose proof (Load_wf b _ q W0 Hb Hl) as Wq. split; [exact Wq|].
    unfold Load in Hl.
    destruct (Write_spec ProgramStartAddress b (set_pc fresh 0) (wf_memory _ W0))
      as (q' & n & Hw & _ & Hq & _ & _ & Hout); [unfold ProgramStartAddress; lia|].
    rewrite Hw in Hl. cbn [bind] in Hl.
    destruct (n <? Z.of_nat (length b)); [discriminate|]. injection Hl as <-.
    split.
    + intros k Hk. change (M (set_pc q' ProgramStartAddress)) with (M q').
      rewrite Hout by (unfold FontStartAddress, ProgramStartAddress; lia).
      apply Reset_font_loaded. exact Hk.
    + rewrite Hq. cbn. repeat split; vm_compute; reflexivity.
Qed.

Lemma Reset_then_Load_witness :
  Forall is_byte [0x12; 0x00] /\ Reset = Ok (set_pc fresh 0) /\
  Load [0x12; 0x00] (set_pc fresh 0) = Ok (with_program [0x12; 0x00]) /\
  wf (with_program [0x12; 0x00]) /\ font_loaded (with_program [0x12; 0x00]).
Proof.
  assert (Hb : Forall is_byte [0x12; 0x00]) by (apply bytes_check; reflexivity).
  assert (Hl : Load [0x12; 0x00] (set_pc fresh 0) = Ok (with_program [0x12; 0x00]))
    by (vm_compute; reflexivity).
  split; [exact Hb | split; [exact Reset_value | split; [exact Hl |]]].
  destruct (proj2 Reset_then_Load [0x12; 0x00] (set_pc fresh 0)
              (with_program [0x12; 0x00]) Hb Reset_value Hl) as (W & F & _).
  split; [exact W | exact F].
Defined.

Lemma Execute_setIToSymbol
  (DS : Z -> Z -> Z -> Processor -> result Processor)
  (rnd info : Z) (p : Processor) (x : Z) :
  nibble x ->
  Execute DS rnd (word 0xF x 2 9) info p = no_info (setIToSymbol x p) info.
Proof. intros Hx. dispatch Hx Hx. Qed.

(** X8.  FX29 finds the glyph of the low hexadecimal digit of [Vx]: with
    the font in place, [I] becomes [0x50 + 5 * (Vx mod 16)], the five
    bytes from [I] on are the five rows of that digit in [fontSet], and
    nothing but [I] changes. *)
Theorem font_symbol_lookup
  (DS : Z -> Z -> Z -> Processor -> result Processor)
  (rnd info : Z) (p : Processor) (x : Z) :
  wf p -> font_loaded p -> nibble x ->
  exists c,
    Execute DS rnd (word 0xF x 2 9) info p = Ok (c, info) /\
    c = set_i p (FontStartAddress + 5 * (V p x mod 16)) /\
    (forall r, 0 <= r < 5 ->
       M c (c.(i) + r) = Vl fontSet (5 * (V p x mod 16) + r)).
Proof.
  intros Hwf Hf Hx. rewrite Execute_setIToSymbol by exact Hx.
  unfold setIToSymbol. rewrite reg_V by (apply Hwf || exact Hx).
  cbn [bind no_info].
  pose proof (V_byte p x (wf_v_bytes p Hwf)) as B. unfold is_byte in B.
  change 0x0F with (Z.ones 4). rewrite Z.land_ones by lia. change (2 ^ 4) with 16.
  pose proof (Z.mod_pos_bound (V p x) 16 ltac:(lia)) as Hd.
  unfold u16, FontStartAddress.
  rewrite (Z.mod_small (V p x mod 16)), (Z.mod_small (V p x mod 16 * 5)) by lia.
  rewrite (Z.mod_small (80 + _)) by lia.
  replace (V p x mod 16 * 5) with (5 * (V p x mod 16)) by lia.
  eexists. split; [reflexivity|]. split; [reflexivity|].
  intros r Hr. cbn [i set_i]. change (M (set_i p _)) with (M p).
  rewrite <- Z.add_assoc. apply (Hf (5 * (V p x mod 16) + r)). lia.
Qed.

Lemma font_symbol_lookup_witness :
  wf fresh /\ font_loaded fresh /\ nibble 3 /\
  exists c,
    Execute idle_blitter 0 (word 0xF 3 2 9) 0 fresh = Ok (c, 0) /\
    c = set_i fresh (FontStartAddress + 5 * (V fresh 3 mod 16)) /\
    (forall r, 0 <= r < 5 ->
       M c (c.(i) + r) = Vl fontSet (5 * (V fresh 3 mod 16) + r)).
Proof.
  assert (Hf : font_loaded fresh) by exact Reset_font_loaded.
  assert (Hx : nibble 3) by (unfold nibble; lia).
  split; [exact wf_fresh | split; [exact Hf | split; [exact Hx |]]].
  exact (font_symbol_lookup idle_blitter 0 0 fresh 3 wf_fresh Hf Hx).
Defined.

Lemma Execute_returnFromSubroutine
  (DS : Z -> Z -> Z -> Processor -> result Processor)
  (rnd info : Z) (p : Processor) :
  Execute DS rnd 0x00EE info p = no_info (returnFromSubroutine p) info.
Proof. reflexivity. Qed.

(** X9.  A call followed by a return comes back: 2NNN jumps to [NNN] one
    level deeper, and 00EE then restores the program counter and the depth
    of the caller; the only trace left is the return address in the stack
    slot that was used. *)
Theorem call_then_return
  (DS : Z -> Z -> Z -> Processor -> result Processor)
  (rnd info : Z) (p : Processor) (nnn : Z) :
  wf p -> StackDepth p < 16 -> 0 <= nnn < 4096 ->
  exists c c',
    Execute DS rnd (0x2000 + nnn) info p = Ok (c, info) /\
    c.(pc) = nnn /\ StackDepth c = StackDepth p + 1 /\
    Execute DS rnd 0x00EE info c = Ok (c', info) /\
    c' = set_stack p (<[Z.to_nat p.(sp) := p.(pc)]> p.(stack)) /\
    c'.(pc) = p.(pc) /\ StackDepth c' = StackDepth p.
Proof.
  intros Hwf Hd Hn. unfold StackDepth in *.
  pose proof (wf_sp p Hwf) as Hsp. pose proof (wf_stack p Hwf) as Hst.
  rewrite Execute_callSubroutine by exact Hn.
  rewrite callSubroutine_ok by (assumption || lia). cbn [no_info bind].
  eexists. eexists. split; [reflexivity|].
  split; [reflexivity|]. split; [reflexivity|].
  rewrite Execute_returnFromSubroutine. unfold returnFromSubroutine.
  cbn [sp set_sp set_pc set_stack stack pc].
  destruct (Z.eqb_spec (p.(sp) + 1) 0); [lia|].
  replace (u8 (p.(sp) + 1 - 1)) with p.(sp)
    by (unfold u8; rewrite Z.mod_small by lia; lia).
  unfold index_get. destruct (Z.ltb_spec p.(sp) 0); [lia|].
  rewrite list_lookup_insert_eq by lia. cbn [bind no_info].
  split; [reflexivity|]. split; [destruct p; reflexivity|].
  split; reflexivity.
Qed.

Lemma call_then_return_witness :
  wf fresh /\ StackDepth fresh < 16 /\ 0 <= 0x300 < 4096 /\
  exists c c',
    Execute idle_blitter 0 (0x2000 + 0x300) 0 fresh = Ok (c, 0) /\
    Execute idle_blitter 0 0x00EE 0 c = Ok (c', 0) /\
    c'.(pc) = fresh.(pc) /\ StackDepth c' = StackDepth fresh.
Proof.
  assert (Hd : StackDepth fresh < 16) by (vm_compute; reflexivity).
  assert (Hn : 0 <= 0x300 < 4096) by lia.
  split; [exact wf_fresh | split; [exact Hd | split; [exact Hn |]]].
  destruct (call_then_return idle_blitter 0 0 fresh 0x300 wf_fresh Hd Hn)
    as (c & c' & H1 & _ & _ & H2 & _ & H3 & H4).
  exists c, c'. split; [exact H1 | split; [exact H2 | split; [exact H3 | exact H4]]].
Defined.

(** ** Register transfers, shifts and skips *)

(** X10.  FX55 followed by FX65 is a round trip: the registers [V0..Vx]
    stored at [I] are read back unchanged, whatever the register file was
    overwritten with in between; the registers above [Vx] are not touched
    by the load, and neither instruction moves [I]. *)
Theorem store_then_load_registers
  (DS : Z -> Z -> Z -> Processor -> result Processor)
  (rnd info : Z) (p : Processor) (x : Z) (l : list Z) :
  wf p -> nibble x -> p.(i) + x < 0x1000 -> length l = 16%nat ->
  exists c c',
    Execute DS rnd (word 0xF x 5 5) info p = Ok (c, info) /\
    c = set_memory p c.(memory) /\
    Execute DS rnd (word 0xF x 6 5) info (set_v c l) = Ok (c', info) /\
    c' = set_v c c'.(v) /\
    (forall j, 0 <= j <= x -> V c' j = V p j) /\
    (forall j, ~ (0 <= j <= x) -> V c' j = Vl l j).
Proof.
  intros Hwf Hx Hi Hl. destruct Hx as [Hx0 Hx1].
  pose proof (wf_i p Hwf) as HI.
  rewrite Execute_setRegistersToMemory by (split; assumption).
  unfold setRegistersToMemory.
  destruct (setRegistersToMemory_loop_ok (Z.to_nat (x + 1)) 0 p)
    as (c & -> & Hc & Hlc & Hin & _);
    try (apply Hwf); try lia.
  cbn [no_info bind]. exists c.
  rewrite Execute_setMemoryToRegisters by (split; assumption).
  unfold setMemoryToRegisters.
  assert (Hci : c.(i) = p.(i)) by (rewrite Hc; reflexivity).
  destruct (setMemoryToRegisters_loop_ok (Z.to_nat (x + 1)) 0 (set_v c l))
    as (c' & -> & Hc' & _ & Hin' & Hout');
    cbn [memory v i set_v]; try assumption; try lia.
  cbn [no_info bind]. exists c'.
  split; [reflexivity|]. split; [exact Hc|]. split; [reflexivity|].
  split; [rewrite Hc' at 1; destruct c; reflexivity|].
  cbn [i set_v] in Hin'. split.
  - intros j Hj. rewrite Hin' by lia. change (M (set_v c l)) with (M c).
    rewrite Hci. apply Hin. lia.
  - intros j Hj. rewrite Hout' by lia. reflexivity.
Qed.

Lemma store_then_load_registers_witness :
  wf fresh /\ nibble 2 /\ fresh.(i) + 2 < 0x1000 /\
  length (replicate 16 7) = 16%nat /\
  exists c c',
    Execute idle_blitter 0 (word 0xF 2 5 5) 0 fresh = Ok (c, 0) /\
    c = set_memory fresh c.(memory) /\
    Execute idle_blitter 0 (word 0xF 2 6 5) 0 (set_v c (replicate 16 7)) = Ok (c', 0) /\
    c' = set_v c c'.(v) /\
    (forall j, 0 <= j <= 2 -> V c' j = V fresh j) /\
    (forall j, ~ (0 <= j <= 2) -> V c' j = Vl (replicate 16 7) j).
Proof.
  assert (Hx : nibble 2) by (unfold nibble; lia).
  assert (Hi : fresh.(i) + 2 < 0x1000) by (vm_compute; reflexivity).
  assert (Hl : length (replicate 16 7) = 16%nat) by reflexivity.
  split; [exact wf_fresh | split; [exact Hx | split; [exact Hi | split; [exact Hl |]]]].
  exact (store_then_load_registers idle_blitter 0 0 fresh 2 (replicate 16 7)
           wf_fresh Hx Hi Hl).
Defined.

Lemma Execute_shiftRightX
  (DS : Z -> Z -> Z -> Processor -> result Processor)
  (rnd info : Z) (p : Processor) (x y : Z) :
  nibble x -> nibble y ->
  Execute DS rnd (word 8 x y 6) info p = no_info (shiftRightX x p) info.
Proof. intros Hx Hy. dispatch Hx Hy. Qed.

Lemma Execute_shiftLeftX
  (DS : Z -> Z -> Z -> Processor -> result Processor)
  (rnd info : Z) (p : Processor) (x y : Z) :
  nibble x -> nibble y ->
  Execute DS rnd (word 8 x y 0xE) info p = no_info (shiftLeftX x p) info.
Proof. intros Hx Hy. dispatch Hx Hy. Qed.

Lemma land_1 (b : Z) : Z.land b 0x1 = b mod 2.
Proof. change 1 with (Z.ones 1). apply Z.land_ones. lia. Qed.

Lemma top_bit (b : Z) : 0 <= b < 256 -> Z.shiftr (Z.land b 0x80) 7 = b / 128.
Proof.
  intros Hb. rewrite Z.shiftr_land. rewrite !Z.shiftr_div_pow2 by lia.
  change (128 / 2 ^ 7) with (Z.ones 1). change (2 ^ 7) with 128.
  rewrite Z.land_ones by lia. apply Z.mod_small. Z.div_mod_to_equations. lia.
Qed.

(** X11.  The shifts work on [Vx] alone and keep the bit they push out:
    8XY6 halves [Vx] and leaves its low bit in [VF], 8XYE doubles [Vx]
    modulo 256 and leaves its top bit in [VF], so the operand can be
    recovered from the two; [Vy] plays no part and stays as it is.
    ([x] other than [0xF].) *)
Theorem shifts_keep_the_lost_bit
  (DS : Z -> Z -> Z -> Processor -> result Processor)
  (rnd info : Z) (p : Processor) (x y : Z) :
  wf p -> nibble x -> nibble y -> x <> CarryFlag ->
  (exists c,
     Execute DS rnd (word 8 x y 6) info p = Ok (c, info) /\
     V c x = V p x / 2 /\ V c CarryFlag = V p x mod 2 /\
     2 * V c x + V c CarryFlag = V p x /\
     (forall r, nibble r -> r <> x -> r <> CarryFlag -> V c r = V p r) /\
     c = set_v p c.(v)) /\
  (exists c,
     Execute DS rnd (word 8 x y 0xE) info p = Ok (c, info) /\
     V c x = (2 * V p x) mod 256 /\ V c CarryFlag = V p x / 128 /\
     V c x + 256 * V c CarryFlag = 2 * V p x /\
     (forall r, nibble r -> r <> x -> r <> CarryFlag -> V c r = V p r) /\
     c = set_v p c.(v)).
Proof.
  intros Hwf Hx Hy Hne.
  pose proof (wf_v p Hwf) as Hl.
  pose proof (V_byte p x (wf_v_bytes p Hwf)) as B. unfold is_byte in B.
  rewrite V_Vl in B.
  assert (HF : nibble CarryFlag) by exact nibble_CarryFlag.
  unfold CarryFlag in *. destruct Hx as [Hx0 Hx1].
  split.
  - rewrite Execute_shiftRightX by (assumption || split; assumption).
    unfold shiftRightX. rewrite reg_V by (assumption || split; assumption).
    cbn [bind]. rewrite set_reg_ok by assumption. cbn [bind].
    rewrite reg_V by (cbn [v set_v]; rewrite ?length_insert; assumption || split; assumption).
    cbn [bind]. rewrite set_reg_ok
      by (cbn [v set_v]; rewrite ?length_insert; assumption || split; assumption).
    cbn [no_info bind]. eexists. split; [reflexivity|].
    rewrite !V_Vl. cbn [v set_v].
    rewrite (Vl_insert_ne _ 15 x) by lia.
    rewrite Vl_insert_eq by (rewrite ?length_insert; lia).
    rewrite (Vl_insert_ne _ x 15) by lia.
    rewrite Vl_insert_eq by (rewrite ?length_insert; lia).
    rewrite land_1, Z.shiftr_div_pow2 by lia. change (2 ^ 1) with 2.
    split; [reflexivity|]. split; [reflexivity|].
    split; [Z.div_mod_to_equations; lia|]. split.
    + intros r [Hr0 Hr1] Hrx HrF. rewrite !V_Vl. cbn [v set_v].
      unfold CarryFlag. rewrite !(Vl_insert_ne _ _ r) by lia. reflexivity.
    + destruct p; reflexivity.
  - rewrite Execute_shiftLeftX by (assumption || split; assumption).
    unfold shiftLeftX. rewrite reg_V by (assumption || split; assumption).
    cbn [bind]. rewrite set_reg_ok by assumption. cbn [bind].
    rewrite reg_V by (cbn [v set_v]; rewrite ?length_insert; assumption || split; assumption).
    cbn [bind]. rewrite set_reg_ok
      by (cbn [v set_v]; rewrite ?length_insert; assumption || split; assumption).
    cbn [no_info bind]. eexists. split; [reflexivity|].
    rewrite !V_Vl. cbn [v set_v].
    rewrite (Vl_insert_ne _ 15 x) by lia.
    rewrite Vl_insert_eq by (rewrite ?length_insert; lia).
    rewrite (Vl_insert_ne _ x 15) by lia.
    rewrite Vl_insert_eq by (rewrite ?length_insert; lia).
    rewrite top_bit by lia. unfold u8. rewrite Z.shiftl_mul_pow2 by lia.
    change (2 ^ 1) with 2. rewrite (Z.mul_comm _ 2).
    split; [reflexivity|]. split; [reflexivity|].
    split; [Z.div_mod_to_equations; lia|]. split.
    + intros r [Hr0 Hr1] Hrx HrF. rewrite !V_Vl. cbn [v set_v].
      unfold CarryFlag. rewrite !(Vl_insert_ne _ _ r) by lia. reflexivity.
    + destruct p; reflexivity.
Qed.

Lemma shifts_keep_the_lost_bit_witness :
  wf (with_regs regs_ff_01) /\ nibble 1 /\ nibble 2 /\ 1 <> CarryFlag /\
  exists c,
    Execute idle_blitter 0 (word 8 1 2 6) 0 (with_regs regs_ff_01) = Ok (c, 0) /\
    V c 1 = V (with_regs regs_ff_01) 1 / 2 /\
    V c CarryFlag = V (with_regs regs_ff_01) 1 mod 2.
Proof.
  assert (Hw : wf (with_regs regs_ff_01))
    by (apply wf_with_regs; [reflexivity | apply bytes_check; reflexivity]).
  assert (H1 : nibble 1) by (unfold nibble; lia).
  assert (H2 : nibble 2) by (unfold nibble; lia).
  assert (Hne : 1 <> CarryFlag) by (unfold CarryFlag; lia).
  split; [exact Hw | split; [exact H1 | split; [exact H2 | split; [exact Hne |]]]].
  destruct (proj1 (shifts_keep_the_lost_bit idle_blitter 0 0 (with_regs regs_ff_01)
                     1 2 Hw H1 H2 Hne)) as (c & He & Hv & Hf & _).
  exists c. split; [exact He | split; [exact Hv | exact Hf]].
Defined.

(** ** Skips, keys, the random byte and the immediates *)

Section Families.

Variable DS : Z -> Z -> Z -> Processor -> result Processor.
Variables (rnd info : Z) (p : Processor) (x y : Z).
Hypothesis Hx : nibble x.
Hypothesis Hy : nibble y.

Lemma Execute_stepIfXEqualsNN (nn : Z) :
  0 <= nn < 256 ->
  Execute DS rnd (0x3000 + x * 256 + nn) info p
  = no_info (stepIfXEqualsNN x nn p) info.
Proof.
  intros Hn. destruct (decode_x_nn 3 x nn) as (Dk & Dx & Dn);
    [unfold nibble; lia | exact Hx | exact Hn |].
  change (3 * 4096) with 0x3000 in *.
  unfold Execute. cbv zeta. rewrite Dk, Dx, Dn. reflexivity.
Qed.

Lemma Execute_stepIfXNotEqualsNN (nn : Z) :
  0 <= nn < 256 ->
  Execute DS rnd (0x4000 + x * 256 + nn) info p
  = no_info (stepIfXNotEqualsNN x nn p) info.
Proof.
  intros Hn. destruct (decode_x_nn 4 x nn) as (Dk & Dx & Dn);
    [unfold nibble; lia | exact Hx | exact Hn |].
  change (4 * 4096) with 0x4000 in *.
  unfold Execute. cbv zeta. rewrite Dk, Dx, Dn. reflexivity.
Qed.

Lemma Execute_setXToNN (nn : Z) :
  0 <= nn < 256 ->
  Execute DS rnd (0x6000 + x * 256 + nn) info p = no_info (setXToNN x nn p) info.
Proof.
  intros Hn. destruct (decode_x_nn 6 x nn) as (Dk & Dx & Dn);
    [unfold nibble; lia | exact Hx | exact Hn |].
  change (6 * 4096) with 0x6000 in *.
  unfold Execute. cbv zeta. rewrite Dk, Dx, Dn. reflexivity.
Qed.

Lemma Execute_addNNToX (nn : Z) :
  0 <= nn < 256 ->
  Execute DS rnd (0x7000 + x * 256 + nn) info p = no_info (addNNToX x nn p) info.
Proof.
  intros Hn. destruct (decode_x_nn 7 x nn) as (Dk & Dx & Dn);
    [unfold nibble; lia | exact Hx | exact Hn |].
  change (7 * 4096) with 0x7000 in *.
  unfold Execute. cbv zeta. rewrite Dk, Dx, Dn. reflexivity.
Qed.

Lemma Execute_setXToRandom (nn : Z) :
  0 <= nn < 256 ->
  Execute DS rnd (0xC000 + x * 256 + nn) info p
  = no_info (setXToRandom rnd x nn p) info.
Proof.
  intros Hn. destruct (decode_x_nn 12 x nn) as (Dk & Dx & Dn);
    [unfold nibble; lia | exact Hx | exact Hn |].
  change (12 * 4096) with 0xC000 in *.
  unfold Execute. cbv zeta. rewrite Dk, Dx, Dn. reflexivity.
Qed.

Lemma Execute_stepIfXEqualsY (n : Z) :
  nibble n ->
  Execute DS rnd (word 5 x y n) info p = no_info (stepIfXEqualsY x y p) info.
Proof. intros Hn. dispatch Hx Hy. Qed.

Lemma Execute_stepIfXNotEqualsY (n : Z) :
  nibble n ->
  Execute DS rnd (word 9 x y n) info p = no_info (stepIfXNotEqualsY x y p) info.
Proof. intros Hn. dispatch Hx Hy. Qed.

Lemma Execute_stepIfKeyDown :
  Execute DS rnd (word 0xE x 9 0xE) info p = no_info (stepIfKeyDown x p) info.
Proof. dispatch Hx Hx. Qed.

Lemma Execute_stepIfKeyUp :
  Execute DS rnd (word 0xE x 0xA 1) info p = no_info (stepIfKeyUp x p) info.
Proof. dispatch Hx Hx. Qed.

Lemma Execute_setXToDelay :
  Execute DS rnd (word 0xF x 0 7) info p = no_info (setXToDelay x p) info.
Proof. dispatch Hx Hx. Qed.

Lemma Execute_setDelayToX :
  Execute DS rnd (word 0xF x 1 5) info p = no_info (setDelayToX x p) info.
Proof. dispatch Hx Hx. Qed.

Lemma Execute_setSoundToX :
  Execute DS rnd (word 0xF x 1 8) info p = no_info (setSoundToX x p) info.
Proof. dispatch Hx Hx. Qed.

End Families.

(** X12.  The conditional skips come in complementary pairs: on the same
    state exactly one of 3XNN and 4XNN, and exactly one of 5XYN and 9XYN,
    moves the program counter on by two (modulo [2^16]), the other leaves
    the state as it is; the test is [Vx = NN], respectively [Vx = Vy], and
    the last nibble of 5XYN and 9XYN is not looked at. *)
Theorem skips_are_complementary
  (DS : Z -> Z -> Z -> Processor -> result Processor)
  (rnd info : Z) (p : Processor) (x y n nn : Z) :
  wf p -> nibble x -> nibble y -> nibble n -> 0 <= nn < 256 ->
  Execute DS rnd (0x3000 + x * 256 + nn) info p
    = Ok ((if V p x =? nn then skip p else p), info) /\
  Execute DS rnd (0x4000 + x * 256 + nn) info p
    = Ok ((if V p x =? nn then p else skip p), info) /\
  Execute DS rnd (word 5 x y n) info p
    = Ok ((if V p x =? V p y then skip p else p), info) /\
  Execute DS rnd (word 9 x y n) info p
    = Ok ((if V p x =? V p y then p else skip p), info) /\
  skip p = set_pc p ((p.(pc) + 2) mod 65536).
Proof.
  intros Hwf Hx Hy Hn Hnn. pose proof (wf_v p Hwf) as Hl.
  rewrite Execute_stepIfXEqualsNN, Execute_stepIfXNotEqualsNN,
    Execute_stepIfXEqualsY, Execute_stepIfXNotEqualsY by assumption.
  unfold stepIfXEqualsNN, stepIfXNotEqualsNN, stepIfXEqualsY, stepIfXNotEqualsY.
  rewrite !reg_V by assumption. cbn [bind].
  unfold u8. rewrite (Z.mod_small nn) by lia.
  destruct (V p x =? nn); destruct (V p x =? V p y); cbn [negb no_info bind];
    repeat split.
Qed.

Lemma skips_are_complementary_witness :
  wf (with_regs regs_ff_01) /\ nibble 1 /\ nibble 2 /\ nibble 7 /\
  0 <= 0xFF < 256 /\
  Execute idle_blitter 0 (0x3000 + 1 * 256 + 0xFF) 0 (with_regs regs_ff_01)
    = Ok ((if V (with_regs regs_ff_01) 1 =? 0xFF
           then skip (with_regs regs_ff_01) else with_regs regs_ff_01), 0).
Proof.
  assert (Hw : wf (with_regs regs_ff_01))
    by (apply wf_with_regs; [reflexivity | apply bytes_check; reflexivity]).
  assert (H1 : nibble 1) by (unfold nibble; lia).
  assert (H2 : nibble 2) by (unfold nibble; lia).
  assert (H7 : nibble 7) by (unfold nibble; lia).
  assert (Hn : 0 <= 0xFF < 256) by lia.
  split; [exact Hw | split; [exact H1 | split; [exact H2 | split; [exact H7 |
    split; [exact Hn |]]]]].
  exact (proj1 (skips_are_complementary idle_blitter 0 0 (with_regs regs_ff_01)
                  1 2 7 0xFF Hw H1 H2 H7 Hn)).
Defined.

Lemma land_15 (b : Z) : Z.land b 0x0F = b mod 16.
Proof. change 15 with (Z.ones 4). apply Z.land_ones. lia. Qed.

(** X13.  [SetKey] records a key under the low four bits of its number and
    never fails; EX9E and EXA1 read the key named by the low four bits of
    [Vx] and, on the same state, exactly one of them skips: EX9E when that
    key is down, EXA1 when it is up.  So after [SetKey key b] an EX9E on a
    register holding [key] skips exactly when [b] is true. *)
Theorem key_skips_follow_SetKey
  (DS : Z -> Z -> Z -> Processor -> result Processor)
  (rnd info : Z) (p : Processor) (x key : Z) (b : bool) :
  wf p -> nibble x ->
  exists q,
    SetKey key b p = Ok q /\
    q = set_keyState p (<[Z.to_nat (key mod 16) := b]> p.(keyState)) /\
    Execute DS rnd (word 0xE x 9 0xE) info q
      = Ok ((if key_down q (V p x mod 16) then skip q else q), info) /\
    Execute DS rnd (word 0xE x 0xA 1) info q
      = Ok ((if key_down q (V p x mod 16) then q else skip q), info) /\
    key_down q (key mod 16) = b /\
    (forall k, nibble k -> k <> key mod 16 -> key_down q k = key_down p k).
Proof.
  intros Hwf Hx. pose proof (wf_keyState p Hwf) as Hk.
  pose proof (Z.mod_pos_bound key 16 ltac:(lia)) as Hkey.
  pose proof (Z.mod_pos_bound (V p x) 16 ltac:(lia)) as Hvx.
  unfold SetKey. rewrite land_15. rewrite index_set_in_range by lia.
  cbn [bind]. eexists. split; [reflexivity|]. split; [reflexivity|].
  rewrite Execute_stepIfKeyDown, Execute_stepIfKeyUp by exact Hx.
  unfold stepIfKeyDown, stepIfKeyUp.
  rewrite !reg_V by (cbn [v set_keyState]; apply Hwf || exact Hx).
  cbn [bind]. rewrite land_15.
  change (V (set_keyState p _) x) with (V p x).
  rewrite !key_state_read
    by (cbn [keyState set_keyState]; rewrite ?length_insert; lia).
  cbn [bind]. split; [destruct (key_down _ _); reflexivity|].
  split; [destruct (key_down _ _); reflexivity|].
  unfold key_down, index_get. cbn [keyState set_keyState]. split.
  - destruct (Z.ltb_spec (key mod 16) 0); [lia|].
    rewrite list_lookup_insert_eq by lia. reflexivity.
  - intros k [Hk0 Hk1] Hne. destruct (Z.ltb_spec k 0); [lia|].
    rewrite list_lookup_insert_ne by lia. reflexivity.
Qed.

Lemma key_skips_follow_SetKey_witness :
  wf fresh /\ nibble 0 /\
  exists q,
    SetKey 0x1A true fresh = Ok q /\
    q = set_keyState fresh (<[Z.to_nat (0x1A mod 16) := true]> fresh.(keyState)) /\
    key_down q (0x1A mod 16) = true.
Proof.
  assert (Hx : nibble 0) by (unfold nibble; lia).
  split; [exact wf_fresh | split; [exact Hx |]].
  destruct (key_skips_follow_SetKey idle_blitter 0 0 fresh 0 0x1A true wf_fresh Hx)
    as (q & Hs & Hq & _ & _ & Hd & _).
  exists q. split; [exact Hs | split; [exact Hq | exact Hd]].
Defined.

Lemma land_le_r (a b : Z) : 0 <= a -> 0 <= b -> Z.land a b <= b.
Proof.
  intros Ha Hb.
  assert (E : Z.land a b + Z.ldiff b a = b).
  { rewrite Z.add_nocarry_lor.
    - apply Z.bits_inj'. intros n Hn.
      rewrite Z.lor_spec, Z.land_spec, Z.ldiff_spec.
      destruct (Z.testbit a n), (Z.testbit b n); reflexivity.
    - apply Z.bits_inj'. intros n Hn.
      rewrite !Z.land_spec, Z.ldiff_spec, Z.bits_0.
      destruct (Z.testbit a n), (Z.testbit b n); reflexivity. }
  assert (0 <= Z.ldiff b a) by (apply Z.ldiff_nonneg; lia).
  lia.
Qed.

(** X14.  CXNN stores the random byte masked by [NN]: the new [Vx] is
    [(rnd mod 256) land NN], so it never exceeds [NN], has no bit outside
    [NN], and is 0 for the mask 0 whatever was drawn; no other register
    changes. *)
Theorem random_is_masked
  (DS : Z -> Z -> Z -> Processor -> result Processor)
  (rnd info : Z) (p : Processor) (x nn : Z) :
  wf p -> nibble x -> 0 <= nn < 256 ->
  exists c,
    Execute DS rnd (0xC000 + x * 256 + nn) info p = Ok (c, info) /\
    c = set_v p (<[Z.to_nat x := Z.land (rnd mod 256) nn]> p.(v)) /\
    V c x = Z.land (rnd mod 256) nn /\
    0 <= V c x <= nn /\
    Z.land (V c x) nn = V c x /\
    (nn = 0 -> V c x = 0) /\
    (nn = 0xFF -> V c x = rnd mod 256).
Proof.
  intros Hwf Hx Hnn. pose proof (wf_v p Hwf) as Hl.
  rewrite Execute_setXToRandom by assumption. unfold setXToRandom.
  rewrite set_reg_ok by assumption. cbn [no_info bind].
  unfold u8. rewrite (Z.mod_small nn) by lia.
  eexists. split; [reflexivity|]. split; [reflexivity|].
  rewrite V_Vl. cbn [v set_v]. destruct Hx as [Hx0 Hx1].
  rewrite Vl_insert_eq by lia.
  pose proof (Z.mod_pos_bound rnd 256 ltac:(lia)) as Hr.
  pose proof (land_le_r (rnd mod 256) nn ltac:(lia) ltac:(lia)) as Hle.
  assert (H0 : 0 <= Z.land (rnd mod 256) nn) by (apply Z.land_nonneg; lia).
  split; [reflexivity|]. split; [lia|].
  split; [rewrite <- Z.land_assoc, Z.land_diag; reflexivity|].
  split.
  - intros ->. apply Z.land_0_r.
  - intros ->. change 255 with (Z.ones 8). rewrite Z.land_ones by lia.
    apply Z.mod_small. change (2 ^ 8) with 256. lia.
Qed.

Lemma random_is_masked_witness :
  wf fresh /\ nibble 4 /\ 0 <= 0x0F < 256 /\
  exists c,
    Execute idle_blitter 0xABCD (0xC000 + 4 * 256 + 0x0F) 0 fresh = Ok (c, 0) /\
    c = set_v fresh (<[Z.to_nat 4 := Z.land (0xABCD mod 256) 0x0F]> fresh.(v)) /\
    V c 4 = Z.land (0xABCD mod 256) 0x0F.
Proof.
  assert (Hx : nibble 4) by (unfold nibble; lia).
  assert (Hn : 0 <= 0x0F < 256) by lia.
  split; [exact wf_fresh | split; [exact Hx | split; [exact Hn |]]].
  destruct (random_is_masked idle_blitter 0xABCD 0 fresh 4 0x0F wf_fresh Hx Hn)
    as (c & He & Hc & Hv & _).
  exists c. split; [exact He | split; [exact Hc | exact Hv]].
Defined.

Lemma add_immediate_store
  (DS : Z -> Z -> Z -> Processor -> result Processor)
  (rnd info : Z) (p : Processor) (x nn : Z) :
  wf p -> nibble x -> 0 <= nn < 256 ->
  exists c,
    Execute DS rnd (0x6000 + x * 256 + nn) info p = Ok (c, info) /\
    V c x = nn /\ length c.(v) = 16%nat.
Proof.
  intros Hwf Hx Hnn. pose proof (wf_v p Hwf) as Hl.
  rewrite Execute_setXToNN by assumption. unfold setXToNN.
  rewrite set_reg_ok by assumption. cbn [no_info bind].
  unfold u8. rewrite (Z.mod_small nn) by lia.
  eexists. split; [reflexivity|]. destruct Hx as [H0 H1].
  rewrite V_Vl. cbn [v set_v]. rewrite length_insert.
  split; [apply Vl_insert_eq; lia | exact Hl].
Qed.

(** X15.  The immediates: 6XNN sets [Vx] to [NN], and 7XNN adds [NN] to
    [Vx] modulo 256 without recording the carry: unlike 8XY4 it leaves
    register [0xF] (and every register but [Vx]) as it was, also when the
    sum wraps. *)
Theorem add_immediate_keeps_flag
  (DS : Z -> Z -> Z -> Processor -> result Processor)
  (rnd info : Z) (p : Processor) (x nn : Z) :
  wf p -> nibble x -> 0 <= nn < 256 ->
  Execute DS rnd (0x6000 + x * 256 + nn) info p
    = Ok (set_v p (<[Z.to_nat x := nn]> p.(v)), info) /\
  exists c,
    Execute DS rnd (0x7000 + x * 256 + nn) info p = Ok (c, info) /\
    c = set_v p (<[Z.to_nat x := (V p x + nn) mod 256]> p.(v)) /\
    V c x = (V p x + nn) mod 256 /\
    (forall r, nibble r -> r <> x -> V c r = V p r) /\
    (x <> CarryFlag -> V c CarryFlag = V p CarryFlag).
Proof.
  intros Hwf Hx Hnn. pose proof (wf_v p Hwf) as Hl.
  rewrite Execute_setXToNN, Execute_addNNToX by assumption.
  unfold setXToNN, addNNToX. rewrite reg_V by assumption. cbn [bind].
  rewrite !set_reg_ok by assumption. cbn [no_info bind].
  unfold u8. rewrite (Z.mod_small nn) by lia.
  split; [reflexivity|].
  eexists. split; [reflexivity|]. split; [reflexivity|].
  destruct Hx as [Hx0 Hx1].
  assert (Hframe : forall r, nibble r -> r <> x ->
            V (set_v p (<[Z.to_nat x := (V p x + nn) mod 256]> p.(v))) r = V p r).
  { intros r [Hr0 Hr1] Hne. rewrite !V_Vl. cbn [v set_v].
    rewrite Vl_insert_ne by lia. reflexivity. }
  split; [| split; [exact Hframe |]].
  - rewrite V_Vl. cbn [v set_v]. rewrite Vl_insert_eq by lia. reflexivity.
  - intros Hne. apply Hframe; [exact nibble_CarryFlag | congruence].
Qed.

Lemma add_immediate_keeps_flag_witness :
  wf (with_regs regs_ff_01) /\ nibble 1 /\ 0 <= 2 < 256 /\
  exists c,
    Execute idle_blitter 0 (0x7000 + 1 * 256 + 2) 0 (with_regs regs_ff_01)
      = Ok (c, 0) /\
    V c 1 = (V (with_regs regs_ff_01) 1 + 2) mod 256 /\
    (1 <> CarryFlag -> V c CarryFlag = V (with_regs regs_ff_01) CarryFlag).
Proof.
  assert (Hw : wf (with_regs regs_ff_01))
    by (apply wf_with_regs; [reflexivity | apply bytes_check; reflexivity]).
  assert (Hx : nibble 1) by (unfold nibble; lia).
  assert (Hn : 0 <= 2 < 256) by lia.
  split; [exact Hw | split; [exact Hx | split; [exact Hn |]]].
  destruct (proj2 (add_immediate_keeps_flag idle_blitter 0 0
                     (with_regs regs_ff_01) 1 2 Hw Hx Hn))
    as (c & He & _ & Hv & _ & Hf).
  exists c. split; [exact He | split; [exact Hv | exact Hf]].
Defined.

(** X16.  The delay timer is written and read through registers: after
    FX15 the timer holds [Vx], and an FY07 that follows puts that value
    into [Vy]; FX18 does the same for the sound timer.  None of the three
    touches memory, the index register or the program counter. *)
Theorem timer_registers_round_trip
  (DS : Z -> Z -> Z -> Processor -> result Processor)
  (rnd info : Z) (p : Processor) (x y : Z) :
  wf p -> nibble x -> nibble y ->
  Execute DS rnd (word 0xF x 1 5) info p = Ok (set_delay p (V p x), info) /\
  Execute DS rnd (word 0xF x 1 8) info p = Ok (set_sound p (V p x), info) /\
  exists c,
    Execute DS rnd (word 0xF y 0 7) info (set_delay p (V p x)) = Ok (c, info) /\
    c = set_v (set_delay p (V p x)) (<[Z.to_nat y := V p x]> p.(v)) /\
    V c y = V p x /\ c.(delay) = V p x.
Proof.
  intros Hwf Hx Hy. pose proof (wf_v p Hwf) as Hl.
  rewrite Execute_setDelayToX, Execute_setSoundToX, Execute_setXToDelay
    by assumption.
  unfold setDelayToX, setSoundToX, setXToDelay.
  rewrite !reg_V by assumption. cbn [bind no_info].
  split; [reflexivity|]. split; [reflexivity|].
  rewrite set_reg_ok by assumption. cbn [bind delay set_delay v].
  eexists. split; [reflexivity|]. split; [reflexivity|].
  split; [| reflexivity].
  rewrite V_Vl. cbn [v set_v]. destruct Hy as [Hy0 Hy1].
  rewrite Vl_insert_eq by lia. reflexivity.
Qed.

Lemma timer_registers_round_trip_witness :
  wf (with_regs regs_ff_01) /\ nibble 1 /\ nibble 3 /\
  Execute idle_blitter 0 (word 0xF 1 1 5) 0 (with_regs regs_ff_01)
  = Ok (set_delay (with_regs regs_ff_01) (V (with_regs regs_ff_01) 1), 0).
Proof.
  assert (Hw : wf (with_regs regs_ff_01))
    by (apply wf_with_regs; [reflexivity | apply bytes_check; reflexivity]).
  assert (H1 : nibble 1) by (unfold nibble; lia).
  assert (H3 : nibble 3) by (unfold nibble; lia).
  split; [exact Hw | split; [exact H1 | split; [exact H3 |]]].
  exact (proj1 (timer_registers_round_trip idle_blitter 0 0
                  (with_regs regs_ff_01) 1 3 Hw H1 H3)).
Defined.

(** ** What an instruction leaves alone *)

Lemma set_v_frame (p c : Processor) :
  c = set_v p c.(v) ->
  c.(memory) = p.(memory) /\ c.(keyState) = p.(keyState) /\
  c.(display) = p.(display) /\ c.(stack) = p.(stack) /\ c.(sp) = p.(sp) /\
  c.(pc) = p.(pc) /\ c.(i) = p.(i) /\ c.(delay) = p.(delay) /\
  c.(sound) = p.(sound) /\ c.(lastTimerUpdate) = p.(lastTimerUpdate).
Proof. intros ->. cbn. repeat split. Qed.

Lemma set_memory_frame (p c : Processor) :
  c = set_memory p c.(memory) ->
  c.(v) = p.(v) /\ c.(keyState) = p.(keyState) /\
  c.(display) = p.(display) /\ c.(stack) = p.(stack) /\ c.(sp) = p.(sp) /\
  c.(pc) = p.(pc) /\ c.(i) = p.(i) /\ c.(delay) = p.(delay) /\
  c.(sound) = p.(sound) /\ c.(lastTimerUpdate) = p.(lastTimerUpdate).
Proof. intros ->. cbn. repeat split. Qed.

Lemma scan_keys_frame (x : Z) (n : nat) :
  forall k p f c, scan_keys x n k p = Ok (f, c) -> c = set_v p c.(v).
Proof.
  induction n as [|n IH]; intros k p f c H; simpl in H.
  - injection H as _ <-. destruct p; reflexivity.
  - apply bind_Ok_inv in H as (down & _ & H). destruct down.
    + apply bind_Ok_inv in H as (c' & Hs & H). injection H as _ <-.
      exact (set_reg_frame _ _ _ _ Hs).
    + exact (IH _ _ _ _ H).
Qed.

Lemma setRegistersToMemory_loop_frame (n : nat) :
  forall k p c,
    setRegistersToMemory_loop n k p = Ok c -> c = set_memory p c.(memory).
Proof.
  induction n as [|n IH]; intros k p c H; simpl in H.
  - injection H as <-. destruct p; reflexivity.
  - apply bind_Ok_inv in H as (b & _ & H).
    apply bind_Ok_inv in H as (c' & Hs & H).
    apply set_mem_frame in Hs. apply IH in H. rewrite H, Hs. reflexivity.
Qed.

Lemma setMemoryToRegisters_loop_frame (n : nat) :
  forall k p c,
    setMemoryToRegisters_loop n k p = Ok c -> c = set_v p c.(v).
Proof.
  induction n as [|n IH]; intros k p c H; simpl in H.
  - injection H as <-. destruct p; reflexivity.
  - apply bind_Ok_inv in H as (b & _ & H).
    apply bind_Ok_inv in H as (c' & Hs & H).
    apply set_reg_frame in Hs. apply IH in H. rewrite H, Hs. reflexivity.
Qed.

(** Case analysis on the instruction word of a successful [Execute],
    keeping what each case says of the word. *)
Ltac cases_of_Execute_eq H :=
  unfold Execute in H; cbv zeta in H;
  repeat match type of H with
  | context [match ?z with _ => _ end] => destruct z eqn:?; try discriminate H
  end;
  subst;
  unfold no_info in H; unfold_handlers H.

(** Turn every store of a run into what it leaves alone. *)
Ltac store_frames :=
  repeat match goal with
  | H : set_reg _ _ _ = Ok _ |- _ =>
      apply set_reg_frame, set_v_frame in H
  | H : set_mem _ _ _ = Ok _ |- _ =>
      apply set_mem_frame, set_memory_frame in H
  | H : scan_keys _ _ _ _ = Ok _ |- _ =>
      apply scan_keys_frame, set_v_frame in H
  | H : setRegistersToMemory_loop _ _ _ = Ok _ |- _ =>
      apply setRegistersToMemory_loop_frame, set_memory_frame in H
  | H : setMemoryToRegisters_loop _ _ _ = Ok _ |- _ =>
      apply setMemoryToRegisters_loop_frame, set_v_frame in H
  | H : reg _ _ = Ok _ |- _ => clear H
  | H : mem _ _ = Ok _ |- _ => clear H
  | H : index_get _ _ = Ok _ |- _ => clear H
  | H : index_set _ _ _ = Ok _ |- _ => clear H
  | H : _ /\ _ |- _ => destruct H
  end.

Lemma Execute_info (DS : Z -> Z -> Z -> Processor -> result Processor)
  (rnd op info : Z) (p c : Processor) (info' : Z) :
  Execute DS rnd op info p = Ok (c, info') ->
  info' = if (op =? 0x00E0) || (op_kind op =? 0xD)
          then Z.lor info Redraw else info.
Proof.
  intros H. cases_of_Execute_eq H.
  all: invert_run; subst.
  all: try (destruct (Z.eqb_spec op 0x00E0) as [-> |];
            [match goal with E : op_kind _ = _ |- _ =>
               vm_compute in E; discriminate E end |]).
  all: repeat match goal with E : op_kind _ = _ |- _ => rewrite E; clear E end.
  all: reflexivity.
Qed.

(** X17.  What an instruction other than a sprite draw never touches: the
    key states and the timers' reference instant, whatever the
    instruction; the frame buffer unless it is 00E0; the memory and the two
    timers unless it is of the [0xF] family; the index register unless it
    is ANNN or of the [0xF] family; the call stack unless it is a call or a
    return; the registers for the jumps, the call and return, the skips
    and ANNN. *)
Theorem Execute_frame
  (DS : Z -> Z -> Z -> Processor -> result Processor)
  (rnd op info : Z) (p c : Processor) (info' : Z) :
  Execute DS rnd op info p = Ok (c, info') -> op_kind op <> 0xD ->
  c.(keyState) = p.(keyState) /\
  c.(lastTimerUpdate) = p.(lastTimerUpdate) /\
  (op <> 0x00E0 -> c.(display) = p.(display)) /\
  (op_kind op <> 0xF ->
     c.(memory) = p.(memory) /\ c.(delay) = p.(delay) /\ c.(sound) = p.(sound)) /\
  (op_kind op <> 0xA -> op_kind op <> 0xF -> c.(i) = p.(i)) /\
  (op_kind op <> 0x2 -> op <> 0x00EE ->
     c.(stack) = p.(stack) /\ c.(sp) = p.(sp)) /\
  (In (op_kind op) [0x0; 0x1; 0x2; 0x3; 0x4; 0x5; 0x9; 0xA; 0xB; 0xE] ->
     c.(v) = p.(v)).
Proof.
  intros H Hk. cases_of_Execute_eq H.
  all: try congruence.
  all: invert_run; store_frames; subst.
  all: repeat match goal with
       | E : op_kind _ = _ |- _ => rewrite E in *; clear E
       end.
  all: cbn [In keyState lastTimerUpdate display memory delay sound i stack sp v
            set_pc set_sp set_stack set_i set_delay set_sound set_display] in *.
  all: intuition (try congruence; try discriminate).
Qed.

Lemma Execute_frame_witness :
  Execute idle_blitter 0 0xA123 0 fresh = Ok (set_i fresh 0x123, 0) /\
  op_kind 0xA123 <> 0xD /\
  (set_i fresh 0x123).(keyState) = fresh.(keyState).
Proof.
  assert (H : Execute idle_blitter 0 0xA123 0 fresh = Ok (set_i fresh 0x123, 0))
    by reflexivity.
  assert (Hk : op_kind 0xA123 <> 0xD) by (vm_compute; discriminate).
  split; [exact H | split; [exact Hk |]].
  exact (proj1 (Execute_frame idle_blitter 0 0xA123 0 fresh (set_i fresh 0x123) 0
                  H Hk)).
Defined.

(** ** The flags a step returns, unknown words and whole runs *)

(** X18.  The flags returned by [Step] say exactly this: bit [Redraw] is
    set when the word executed was 00E0 or a sprite draw, bit [Sound] when
    the sound timer is above 0 after the step, bit [Delay] when the delay
    timer is; no other bit is ever set. *)
Theorem Step_info_flags
  (DS : Z -> Z -> Z -> Processor -> result Processor)
  (rnd t_since t_now : Z) (p c : Processor) (info : Z) :
  Step DS rnd t_since t_now p = Ok (c, info) ->
  exists op,
    OpcodeAt (ProgramCounter p) p = Ok op /\
    info = (if (op =? 0x00E0) || (op_kind op =? 0xD) then Redraw else 0)
           + (if 0 <? c.(sound) then Sound else 0)
           + (if 0 <? c.(delay) then Delay else 0) /\
    0 <= info < 8.
Proof.
  intros H. unfold Step, fetch_execute in H.
  apply bind_Ok_inv in H as ([q info0] & Hq & H).
  apply bind_Ok_inv in Hq as (op & Hop & Hq).
  apply Execute_info in Hq. injection H as <- <-.
  exists op. split; [exact Hop|]. rewrite Hq. unfold timer_flags.
  destruct ((op =? 0x00E0) || (op_kind op =? 0xD));
    destruct (0 <? sound (tick t_since t_now q));
    destruct (0 <? delay (tick t_since t_now q));
    split; (reflexivity || (vm_compute; split; congruence)).
Qed.

Lemma Step_info_flags_witness :
  exists c op,
    Step idle_blitter 0 1500000 1500000 timer_state = Ok (c, Delay) /\
    OpcodeAt (ProgramCounter timer_state) timer_state = Ok op /\
    0 <= Delay < 8.
Proof.
  assert (E : exists c, Step idle_blitter 0 1500000 1500000 timer_state
                        = Ok (c, Delay))
    by (eexists; vm_compute; reflexivity).
  destruct E as (c & E).
  destruct (Step_info_flags idle_blitter 0 1500000 1500000 timer_state c Delay E)
    as (op & Hop & _ & Hr).
  exists c, op. split; [exact E | split; [exact Hop | exact Hr]].
Defined.

Lemma kind_range (op : Z) : 0 <= op < 65536 -> nibble (op_kind op).
Proof.
  intros H. unfold nibble. rewrite op_kind_div. Z.div_mod_to_equations. lia.
Qed.

(** X19.  The words that are no instruction: in family [0x0] everything
    but 00E0 and 00EE, in family [0x8] the last nibbles 8 to D and F, in
    family [0xE] every low byte but 9E and A1, in family [0xF] every low
    byte outside the nine known ones; each stops [Execute] with the panic
    of its family, whatever the state.  The panic "unknown opcode" of the
    outer switch is dead code for a 16-bit word. *)
Theorem unknown_words
  (DS : Z -> Z -> Z -> Processor -> result Processor)
  (rnd op info : Z) (p : Processor) :
  (op_kind op = 0x0 -> op <> 0x00E0 -> op <> 0x00EE ->
     Execute DS rnd op info p = Panic "unknown 0x0 opcode") /\
  (op_kind op = 0x8 -> In (op_n op) [0x8; 0x9; 0xA; 0xB; 0xC; 0xD; 0xF] ->
     Execute DS rnd op info p = Panic "unknown 0x8 opcode") /\
  (op_kind op = 0xE -> op_nn op <> 0x9E -> op_nn op <> 0xA1 ->
     Execute DS rnd op info p = Panic "unknown 0xE opcode") /\
  (op_kind op = 0xF ->
     ~ In (op_nn op) [0x07; 0x0A; 0x15; 0x18; 0x1E; 0x29; 0x33; 0x55; 0x65] ->
     Execute DS rnd op info p = Panic "unknown 0xF opcode") /\
  (0 <= op < 65536 -> Decoder.Decode op <> Panic "unknown opcode").
Proof.
  split; [| split; [| split; [| split]]].
  - intros Hk H1 H2. unfold Execute. cbv zeta. rewrite Hk.
    repeat match goal with
    | |- context [match ?z with _ => _ end] => destruct z
    end; try reflexivity; congruence.
  - intros Hk Hn. unfold Execute. cbv zeta. rewrite Hk.
    cbn [In] in Hn.
    destruct Hn as [<- | [<- | [<- | [<- | [<- | [<- | [<- | []]]]]]]];
      reflexivity.
  - intros Hk H1 H2. unfold Execute. cbv zeta. rewrite Hk.
    repeat match goal with
    | |- context [match ?z with _ => _ end] => destruct z
    end; try reflexivity; congruence.
  - intros Hk Hn. unfold Execute. cbv zeta. rewrite Hk. cbn [In] in Hn.
    repeat match goal with
    | |- context [match ?z with _ => _ end] => destruct z
    end; try reflexivity; exfalso; apply Hn; tauto.
  - intros Hop. pose proof (kind_range op Hop) as [K0 K1].
    rewrite Decode_fields.
    assert (D : In (op_kind op) [0; 1; 2; 3; 4; 5; 6; 7; 8; 9; 10; 11; 12; 13; 14; 15]).
    { cbn [In]. lia. }
    cbn [In] in D.
    repeat (destruct D as [D | D]; [rewrite <- D; clear D |]); [.. | contradiction].
    all: repeat match goal with
         | |- context [match ?z with _ => _ end] => destruct z
         end; discriminate.
Qed.

Lemma unknown_words_witness :
  op_kind 0x8128 = 0x8 /\
  In (op_n 0x8128) [0x8; 0x9; 0xA; 0xB; 0xC; 0xD; 0xF] /\
  Execute idle_blitter 0 0x8128 0 fresh = Panic "unknown 0x8 opcode".
Proof.
  assert (Hk : op_kind 0x8128 = 0x8) by reflexivity.
  assert (Hn : In (op_n 0x8128) [0x8; 0x9; 0xA; 0xB; 0xC; 0xD; 0xF])
    by (left; reflexivity).
  split; [exact Hk | split; [exact Hn |]].
  exact (proj1 (proj2 (unknown_words idle_blitter 0 0x8128 0 fresh)) Hk Hn).
Defined.

Lemma run_wf (DS : Z -> Z -> Z -> Processor -> result Processor)
  (inputs : list StepInput) :
  keeps_wf DS -> keeps_stack DS ->
  forall p c n,
    wf p -> depth_ok p -> run DS inputs p = Ok (c, n) ->
    wf c /\ depth_ok c /\ 0 <= n <= Z.of_nat (length inputs).
Proof.
  intros Hwf Hst.
  induction inputs as [|x rest IH]; intros p c n Wp Dp H; simpl in H.
  - injection H as <- <-. simpl. split; [exact Wp | split; [exact Dp | lia]].
  - apply bind_Ok_inv in H as ([c1 info1] & Hstep & H).
    apply bind_Ok_inv in H as ([c2 n2] & Hrun & H). injection H as <- <-.
    cbn [fst snd] in *.
    pose proof (Step_wf DS _ _ _ p c1 info1 Hwf Wp Hstep) as W1.
    pose proof (Step_depth DS _ _ _ p c1 info1 Hst Dp Hstep) as D1.
    destruct (IH c1 c2 n2 W1 D1 Hrun) as (W2 & D2 & Hn).
    split; [exact W2 | split; [exact D2 |]].
    rewrite length_cons, Nat2Z.inj_succ.
    destruct (due (in_since x) p); lia.
Qed.

(** X20.  A whole session stays in range: from the state that [Reset] and
    a successful [Load] of any bytes leave, any run of steps that does not
    panic ends in a state of the declared shape (arrays of their lengths,
    registers, memory and timers within a byte, program counter and index
    within 16 bits) with a call stack of depth at most 16, for every sprite
    blitter that itself respects the shape and the call stack. *)
Theorem session_stays_in_range
  (DS : Z -> Z -> Z -> Processor -> result Processor)
  (b : list Z) (inputs : list StepInput) (p0 p c : Processor) (n : Z) :
  keeps_wf DS -> keeps_stack DS -> Forall is_byte b ->
  Reset = Ok p0 -> Load b p0 = Ok p -> run DS inputs p = Ok (c, n) ->
  wf c /\ 0 <= StackDepth c <= 16 /\ 0 <= n <= Z.of_nat (length inputs).
Proof.
  intros Hwf Hst Hb Hr Hl Hrun.
  destruct (proj2 Reset_wf_font p0 Hr) as [W0 _].
  pose proof (Load_wf b p0 p W0 Hb Hl) as Wp.
  assert (Dp : depth_ok p).
  { unfold Load in Hl. apply bind_Ok_inv in Hl as ([q w] & Hw & Hl).
    destruct (w <? _); [discriminate|]. injection Hl as <-.
    destruct (Write_spec ProgramStartAddress b p0 (wf_memory _ W0))
      as (q' & n' & Hw' & _ & Hq & _); [unfold ProgramStartAddress; lia|].
    rewrite Hw in Hw'. injection Hw' as -> _. rewrite Hq.
    rewrite Reset_value in Hr. injection Hr as <-.
    unfold depth_ok. vm_compute. split; discriminate. }
  exact (run_wf DS inputs Hwf Hst p c n Wp Dp Hrun).
Qed.

Lemma idle_blitter_keeps_stack : keeps_stack idle_blitter.
Proof. intros a b n q q' H. injection H as <-. split; reflexivity. Qed.

Lemma session_stays_in_range_witness :
  keeps_wf idle_blitter /\ keeps_stack idle_blitter /\
  Forall is_byte [0x12; 0x00] /\
  exists p0 c n,
    Reset = Ok p0 /\ Load [0x12; 0x00] p0 = Ok (with_program [0x12; 0x00]) /\
    run idle_blitter quick_inputs (with_program [0x12; 0x00]) = Ok (c, n) /\
    wf c /\ 0 <= StackDepth c <= 16.
Proof.
  assert (Hb : Forall is_byte [0x12; 0x00]) by (apply bytes_check; reflexivity).
  split; [exact idle_blitter_keeps_wf |].
  split; [exact idle_blitter_keeps_stack |].
  split; [exact Hb |].
  assert (E1 : Load [0x12; 0x00] (set_pc fresh 0) = Ok (with_program [0x12; 0x00]))
    by (vm_compute; reflexivity).
  assert (E2 : exists c n,
             run idle_blitter quick_inputs (with_program [0x12; 0x00]) = Ok (c, n))
    by (eexists; eexists; vm_compute; reflexivity).
  destruct E2 as (c & n & E2).
  exists (set_pc fresh 0), c, n.
  destruct (session_stays_in_range idle_blitter [0x12; 0x00] quick_inputs
              (set_pc fresh 0) (with_program [0x12; 0x00]) c n
              idle_blitter_keeps_wf idle_blitter_keeps_stack Hb Reset_value
              E1 E2) as (W & D & _).
  split; [exact Reset_value | split; [exact E1 | split; [exact E2 |
    split; [exact W | exact D]]]].
Defined.

(** ** The older [Emulator] and the object-style call stack *)

Lemma legacy_Load_loop_ok (b : list Z) :
  forall k e,
    0 <= ProgramStartAddress + k ->
    ProgramStartAddress + k + Z.of_nat (length b)
      <= Z.of_nat (length e.(Emulator.memory)) ->
    exists e',
      Emulator.Load_loop k b e = Ok e' /\
      e' = Emulator.set_memory e e'.(Emulator.memory) /\
      length e'.(Emulator.memory) = length e.(Emulator.memory) /\
      (forall j, 0 <= j < Z.of_nat (length b) ->
         Vl e'.(Emulator.memory) (ProgramStartAddress + k + j) = Vl b j) /\
      (forall a, ~ (ProgramStartAddress + k <= a
                    < ProgramStartAddress + k + Z.of_nat (length b)) ->
         Vl e'.(Emulator.memory) a = Vl e.(Emulator.memory) a).
Proof.
  unfold ProgramStartAddress.
  induction b as [|x rest IH]; intros k e Hk Hlen.
  - exists e. split; [reflexivity|]. split; [destruct e; reflexivity|].
    split; [reflexivity|]. split; [simpl; lia | reflexivity].
  - rewrite length_cons, Nat2Z.inj_succ in *. cbn [Emulator.Load_loop].
    unfold ProgramStartAddress.
    rewrite index_set_in_range by lia. cbn [bind].
    destruct (IH (k + 1)
                (Emulator.set_memory e
                   (<[Z.to_nat (512 + k) := x]> e.(Emulator.memory))))
      as (e' & Hrun & He & Hl & Hin & Hout);
      [lia | cbn [Emulator.memory Emulator.set_memory];
             rewrite length_insert; lia |].
    cbn [Emulator.memory Emulator.set_memory] in *.
    rewrite length_insert in Hl.
    exists e'. split; [exact Hrun|].
    split; [rewrite He at 1; destruct e; reflexivity|].
    split; [exact Hl|]. split.
    + intros j Hj. destruct (Z.eq_dec j 0) as [-> | Hne].
      * rewrite Hout by lia. rewrite Z.add_0_r.
        rewrite Vl_insert_eq by lia. reflexivity.
      * replace (512 + k + j) with (512 + (k + 1) + (j - 1)) by lia.
        rewrite Hin by lia.
        replace j with (j - 1 + 1) at 2 by lia. symmetry.
        apply Vl_cons_succ. lia.
    + intros a Ha. rewrite Hout by lia.
      apply Vl_insert_other; lia.
Qed.

Lemma legacy_Load_loop_out (b : list Z) :
  forall k e,
    0 <= ProgramStartAddress + k ->
    ProgramStartAddress + k <= Z.of_nat (length e.(Emulator.memory)) ->
    Z.of_nat (length e.(Emulator.memory))
      < ProgramStartAddress + k + Z.of_nat (length b) ->
    Emulator.Load_loop k b e = Panic out_of_range.
Proof.
  unfold ProgramStartAddress.
  induction b as [|x rest IH]; intros k e Hk Hstart Hlen; [simpl in Hlen; lia|].
  rewrite length_cons, Nat2Z.inj_succ in Hlen. cbn [Emulator.Load_loop].
  unfold ProgramStartAddress.
  destruct (Z.lt_ge_cases (512 + k) (Z.of_nat (length e.(Emulator.memory))))
    as [Hin | Hout].
  - rewrite index_set_in_range by lia. cbn [bind].
    apply IH; cbn [Emulator.memory Emulator.set_memory];
      rewrite ?length_insert; lia.
  - rewrite index_set_out by lia. reflexivity.
Qed.

Lemma loadFont_loop_as_Load_loop (s : list Z) :
  forall k e,
    Legacy.loadFont_loop k s e
    = Emulator.Load_loop (k + FontStartAddress - ProgramStartAddress) s e.
Proof.
  induction s as [|x rest IH]; intros k e; [reflexivity|].
  cbn [Legacy.loadFont_loop Emulator.Load_loop].
  replace (ProgramStartAddress + (k + FontStartAddress - ProgramStartAddress))
    with (FontStartAddress + k) by lia.
  destruct (index_set _ _ _) as [m|msg]; [| reflexivity]. cbn [bind].
  rewrite IH. f_equal. lia.
Qed.

(** X21.  The older [Emulator.Load] has no bound of its own: a program of
    up to 3584 bytes (one more than [Processor.Load] accepts) is copied
    from [0x200] on and nothing else changes, and a longer one stops the
    routine with Go's index panic, so the [error] it returns can only be
    nil. *)
Theorem legacy_Load_bounds (b : list Z) (e : Emulator.Emulator) :
  legacy_shape e ->
  (Z.of_nat (length b) <= 3584 ->
     exists e',
       Emulator.Load b e = Ok e' /\
       e' = Emulator.set_memory e e'.(Emulator.memory) /\
       length e'.(Emulator.memory) = 4096%nat /\
       (forall j, 0 <= j < Z.of_nat (length b) ->
          Vl e'.(Emulator.memory) (ProgramStartAddress + j) = Vl b j) /\
       (forall a, ~ (ProgramStartAddress <= a
                     < ProgramStartAddress + Z.of_nat (length b)) ->
          Vl e'.(Emulator.memory) a = Vl e.(Emulator.memory) a)) /\
  (3584 < Z.of_nat (length b) -> Emulator.Load b e = Panic out_of_range).
Proof.
  intros [Hm _]. unfold Emulator.Load. split.
  - intros Hb.
    destruct (legacy_Load_loop_ok b 0 e) as (e' & Hrun & He & Hl & Hin & Hout);
      [unfold ProgramStartAddress; lia
      | rewrite Hm; unfold ProgramStartAddress; lia |].
    rewrite Z.add_0_r in *.
    exists e'. split; [exact Hrun|]. split; [exact He|].
    split; [congruence|]. split; [exact Hin | exact Hout].
  - intros Hb. apply legacy_Load_loop_out;
      [unfold ProgramStartAddress; lia
      | rewrite Hm; unfold ProgramStartAddress; lia
      | rewrite Hm; unfold ProgramStartAddress; lia].
Qed.

Lemma legacy_shape_zero : legacy_shape zero_Emulator.
Proof. split; reflexivity. Qed.

Lemma legacy_Load_bounds_witness :
  legacy_shape zero_Emulator /\
  Z.of_nat (length [0x12; 0x00]) <= 3584 /\
  exists e',
    Emulator.Load [0x12; 0x00] zero_Emulator = Ok e' /\
    length e'.(Emulator.memory) = 4096%nat.
Proof.
  assert (Hb : Z.of_nat (length [0x12; 0x00]) <= 3584) by (simpl; lia).
  split; [exact legacy_shape_zero | split; [exact Hb |]].
  destruct (proj1 (legacy_Load_bounds [0x12; 0x00] zero_Emulator legacy_shape_zero)
              Hb) as (e' & Hrun & _ & Hl & _).
  exists e'. split; [exact Hrun | exact Hl].
Defined.

(** X22.  The two font loaders agree: [loadFont] of the older emulator
    never fails on a 4096-byte memory and leaves in [0x50..0x9F] the same
    80 bytes, those of [fontSet], that [Reset] leaves there in the
    [Processor]; outside that range it changes nothing. *)
Theorem legacy_loadFont_matches_Reset (e : Emulator.Emulator) (p : Processor) :
  legacy_shape e -> Reset = Ok p ->
  exists e',
    Legacy.loadFont e = Ok e' /\
    e' = Emulator.set_memory e e'.(Emulator.memory) /\
    (forall k, 0 <= k < 80 ->
       Vl e'.(Emulator.memory) (FontStartAddress + k) = Vl fontSet k /\
       Vl e'.(Emulator.memory) (FontStartAddress + k)
       = M p (FontStartAddress + k)) /\
    (forall a, ~ (FontStartAddress <= a < FontStartAddress + 80) ->
       Vl e'.(Emulator.memory) a = Vl e.(Emulator.memory) a).
Proof.
  intros [Hm _] Hr. unfold Legacy.loadFont. rewrite loadFont_loop_as_Load_loop.
  destruct (legacy_Load_loop_ok fontSet
              (0 + FontStartAddress - ProgramStartAddress) e)
    as (e' & Hrun & He & _ & Hin & Hout);
    [unfold ProgramStartAddress, FontStartAddress; lia
    | rewrite Hm; unfold ProgramStartAddress, FontStartAddress; simpl; lia |].
  exists e'. split; [exact Hrun|]. split; [exact He|].
  change (Z.of_nat (length fontSet)) with 80 in *.
  unfold ProgramStartAddress, FontStartAddress in *. split.
  - intros k Hk. specialize (Hin k Hk).
    replace (512 + (0 + 80 - 512) + k) with (80 + k) in Hin by lia.
    split; [exact Hin|]. rewrite Hin. symmetry.
    exact (proj2 (proj2 Reset_wf_font p Hr) k Hk).
  - intros a Ha. apply Hout. lia.
Qed.

Lemma legacy_loadFont_matches_Reset_witness :
  legacy_shape zero_Emulator /\ Reset = Ok (set_pc fresh 0) /\
  exists e',
    Legacy.loadFont zero_Emulator = Ok e' /\
    e' = Emulator.set_memory zero_Emulator e'.(Emulator.memory).
Proof.
  split; [exact legacy_shape_zero | split; [exact Reset_value |]].
  destruct (legacy_loadFont_matches_Reset zero_Emulator (set_pc fresh 0)
              legacy_shape_zero Reset_value) as (e' & Hrun & He & _).
  exists e'. split; [exact Hrun | exact He].
Defined.

(** X23.  The older delay timer counts down to 0 and stays there: [n]
    calls of [Dec] on a timer [t] leave [max 0 (t - n)], never a wrapped
    value; [Add] on the contrary wraps modulo 256. *)
Theorem legacy_delay_counts_down (n : nat) (t m : Z) :
  is_byte t ->
  Legacy.delay_Value (delay_Dec_times n t) = Z.max 0 (t - Z.of_nat n) /\
  is_byte (delay_Dec_times n t) /\
  Legacy.delay_Value (Legacy.delay_Add m t) = (t + m) mod 256.
Proof.
  unfold is_byte, Legacy.delay_Value. intros Ht.
  split; [| split; [| reflexivity]].
  - revert t Ht. induction n as [|n IH]; intros t Ht.
    + simpl. lia.
    + cbn [delay_Dec_times]. unfold Legacy.delay_Dec.
      destruct (Z.ltb_spec 0 t).
      * unfold u8. rewrite Z.mod_small by lia. rewrite IH by lia. lia.
      * rewrite IH by lia. lia.
  - revert t Ht. induction n as [|n IH]; intros t Ht; [exact Ht|].
    cbn [delay_Dec_times]. apply IH. unfold Legacy.delay_Dec.
    destruct (Z.ltb_spec 0 t); [| lia].
    unfold u8. rewrite Z.mod_small by lia. lia.
Qed.

Lemma legacy_delay_counts_down_witness :
  is_byte 3 /\
  Legacy.delay_Value (delay_Dec_times 5 3) = Z.max 0 (3 - Z.of_nat 5).
Proof.
  assert (H : is_byte 3) by (unfold is_byte; lia).
  split; [exact H |].
  exact (proj1 (legacy_delay_counts_down 5 3 0 H)).
Defined.

(** X24.  The key handlers of the older emulator: [keyMap] sends the 16
    key names one-to-one onto the 16 keys [0..F]; a key-down event sets the
    state of its key and of no other, a key-up event clears it again, and
    an event for any other name leaves the emulator as it is.  On 16 key
    states neither handler can fail. *)
Theorem legacy_key_events (name : Legacy.KeyName) (e : Emulator.Emulator) :
  legacy_shape e ->
  (forall hex, Legacy.keyMap name = Some hex ->
     nibble hex /\
     (forall name', Legacy.keyMap name' = Some hex -> name' = name) /\
     exists e1 e2,
       Legacy.onKeyDown name e = Ok e1 /\
       legacy_key_down e1 hex = true /\
       (forall k, k <> hex -> legacy_key_down e1 k = legacy_key_down e k) /\
       Legacy.onKeyUp name e1 = Ok e2 /\
       legacy_key_down e2 hex = false /\
       (forall k, k <> hex -> legacy_key_down e2 k = legacy_key_down e k)) /\
  (Legacy.keyMap name = None ->
     Legacy.onKeyDown name e = Ok e /\ Legacy.onKeyUp name e = Ok e) /\
  (forall hex, nibble hex -> exists name', Legacy.keyMap name' = Some hex).
Proof.
  intros [_ Hk]. split; [| split].
  - intros hex Hmap.
    assert (Hn : nibble hex).
    { unfold nibble. destruct name; simpl in Hmap; inversion Hmap; lia. }
    split; [exact Hn|]. split.
    + intros name' Hmap'.
      destruct name; simpl in Hmap; inversion Hmap; subst hex;
        destruct name'; simpl in Hmap'; try discriminate Hmap'; reflexivity.
    + destruct Hn as [H0 H1]. unfold Legacy.onKeyDown, Legacy.onKeyUp.
      rewrite Hmap. rewrite index_set_in_range by lia. cbn [bind].
      exists (Legacy.set_keyState e (<[Z.to_nat hex := true]> e.(Emulator.keyState))).
      exists (Legacy.set_keyState e (<[Z.to_nat hex := false]> e.(Emulator.keyState))).
      cbn [Emulator.keyState Legacy.set_keyState].
      rewrite index_set_in_range by (rewrite length_insert; lia).
      cbn [bind]. rewrite list_insert_insert_eq.
      unfold legacy_key_down, index_get.
      cbn [Emulator.keyState Legacy.set_keyState].
      destruct (Z.ltb_spec hex 0); [lia|].
      rewrite !list_lookup_insert_eq by lia.
      split; [reflexivity|]. split; [reflexivity|]. split.
      { intros k Hne. destruct (k <? 0) eqn:E; [reflexivity|].
        apply Z.ltb_ge in E. rewrite list_lookup_insert_ne by lia. reflexivity. }
      split; [destruct e; reflexivity|]. split; [reflexivity|].
      intros k Hne. destruct (k <? 0) eqn:E; [reflexivity|].
      apply Z.ltb_ge in E. rewrite list_lookup_insert_ne by lia. reflexivity.
  - intros Hnone. unfold Legacy.onKeyDown, Legacy.onKeyUp. rewrite Hnone.
    split; reflexivity.
  - intros hex [H0 H1].
    assert (D : In hex [0; 1; 2; 3; 4; 5; 6; 7; 8; 9; 10; 11; 12; 13; 14; 15])
      by (cbn [In]; lia).
    cbn [In] in D.
    repeat (destruct D as [<- | D];
            [ first [ now exists Legacy.KeyX | now exists Legacy.Key1
                    | now exists Legacy.Key2 | now exists Legacy.Key3
                    | now exists Legacy.KeyQ | now exists Legacy.KeyW
                    | now exists Legacy.KeyE | now exists Legacy.KeyA
                    | now exists Legacy.KeyS | now exists Legacy.KeyD
                    | now exists Legacy.KeyZ | now exists Legacy.KeyC
                    | now exists Legacy.Key4 | now exists Legacy.KeyR
                    | now exists Legacy.KeyF | now exists Legacy.KeyV ] |]).
    contradiction.
Qed.

Lemma legacy_key_events_witness :
  legacy_shape zero_Emulator /\
  Legacy.keyMap (Legacy.KeyOther "Escape") = None /\
  Legacy.onKeyDown (Legacy.KeyOther "Escape") zero_Emulator = Ok zero_Emulator.
Proof.
  assert (Hn : Legacy.keyMap (Legacy.KeyOther "Escape") = None) by reflexivity.
  split; [exact legacy_shape_zero | split; [exact Hn |]].
  exact (proj1 (proj1 (proj2 (legacy_key_events (Legacy.KeyOther "Escape")
                                zero_Emulator legacy_shape_zero)) Hn)).
Defined.

(** X25.  The object-style call stack is a linked list without a fixed
    capacity: any number [n] of nested calls succeeds, and [n] returns
    after them lead back to the caller, program counter and stack as they
    were; one more return than there were calls, on a stack that was
    empty, panics with "return from empty stack". *)
Theorem linked_calls_then_returns (n : nat) (nnn : Z) (cpu : Objects.Control) :
  exists c,
    Objects.calls n nnn cpu = Ok c /\
    length c.(Objects.stack) = (n + length cpu.(Objects.stack))%nat /\
    linked_returns n c = Ok cpu /\
    (cpu.(Objects.stack) = [] ->
       linked_returns (S n) c = Panic "return from empty stack").
Proof.
  revert cpu. induction n as [|n IH]; intros cpu.
  - exists cpu. split; [reflexivity|]. split; [reflexivity|].
    split; [reflexivity|]. intros He. cbn [linked_returns bind].
    unfold Objects.SubroutineReturn_Execute. rewrite He. reflexivity.
  - cbn [Objects.calls Objects.SubroutineCall_Execute bind].
    destruct (IH (Objects.mkControl nnn
                    (cpu.(Objects.pc) :: cpu.(Objects.stack))))
      as (c & Hc & Hl & Hr & _).
    exists c. split; [exact Hc|].
    split; [rewrite Hl; simpl; lia|].
    assert (Hback : linked_returns (S n) c = Ok cpu).
    { cbn [linked_returns]. rewrite Hr. cbn [bind].
      unfold Objects.SubroutineReturn_Execute. cbn [Objects.stack].
      destruct cpu; reflexivity. }
    split; [exact Hback|].
    intros He. change (linked_returns (S (S n)) c)
      with (cpu' <- linked_returns (S n) c ;; Objects.SubroutineReturn_Execute cpu').
    rewrite Hback. cbn [bind]. unfold Objects.SubroutineReturn_Execute.
    rewrite He. reflexivity.
Qed.

Lemma linked_calls_then_returns_witness :
  (Objects.mkControl 0x200 []).(Objects.stack) = [] /\
  exists c,
    Objects.calls 2 0x300 (Objects.mkControl 0x200 []) = Ok c /\
    linked_returns 3 c = Panic "return from empty stack".
Proof.
  assert (He : (Objects.mkControl 0x200 []).(Objects.stack) = []) by reflexivity.
  split; [exact He |].
  destruct (linked_calls_then_returns 2 0x300 (Objects.mkControl 0x200 []))
    as (c & Hc & _ & _ & Hp).
  exists c. split; [exact Hc | exact (Hp He)].
Defined.

(** ** Decimal digits into registers; reading a register *)

(** X26.  FX33 followed by F265 puts the three decimal digits of [Vx] into
    [V0], [V1], [V2]: hundreds, tens, ones, with
    [100 * V0 + 10 * V1 + V2 = Vx]; the registers above [V2] keep their
    values. *)
Theorem digits_into_registers
  (DS : Z -> Z -> Z -> Processor -> result Processor)
  (rnd info : Z) (p : Processor) (x : Z) :
  wf p -> nibble x -> p.(i) + 2 <= 0xFFF ->
  exists c c',
    Execute DS rnd (word 0xF x 3 3) info p = Ok (c, info) /\
    Execute DS rnd (word 0xF 2 6 5) info c = Ok (c', info) /\
    V c' 0 = V p x / 100 /\ V c' 1 = (V p x / 10) mod 10 /\
    V c' 2 = V p x mod 10 /\
    100 * V c' 0 + 10 * V c' 1 + V c' 2 = V p x /\
    (forall j, 2 < j -> V c' j = V p j).
Proof.
  intros Hwf Hx Hi.
  pose proof (wf_i p Hwf) as HI. pose proof (wf_memory p Hwf) as Hm.
  rewrite Execute_binaryCodedDecimal by exact Hx.
  rewrite binaryCodedDecimal_run by assumption. cbn [no_info bind].
  match goal with
  | |- context [Ok (?q0, info)] =>
      destruct (setMemoryToRegisters_loop_ok (Z.to_nat (2 + 1)) 0 q0)
        as (c' & Hrun & _ & _ & Hin & Hout)
  end;
    cbn [memory v i set_memory]; rewrite ?length_insert;
    try (apply Hwf); try lia.
  eexists. exists c'. split; [reflexivity|].
  rewrite Execute_setMemoryToRegisters by (unfold nibble; lia).
  unfold setMemoryToRegisters. rewrite Hrun.
  cbn [no_info bind]. split; [reflexivity|].
  cbn [i set_memory] in Hin.
  assert (D0 : V c' 0 = V p x / 100).
  { rewrite Hin by lia. rewrite M_Vl. cbn [memory set_memory].
    rewrite Z.add_0_r. rewrite !Vl_insert_ne by lia.
    rewrite Vl_insert_eq by lia. reflexivity. }
  assert (D1 : V c' 1 = (V p x / 10) mod 10).
  { rewrite Hin by lia. rewrite M_Vl. cbn [memory set_memory].
    rewrite Vl_insert_ne by lia.
    rewrite Vl_insert_eq by (rewrite length_insert; lia). reflexivity. }
  assert (D2 : V c' 2 = V p x mod 10).
  { rewrite Hin by lia. rewrite M_Vl. cbn [memory set_memory].
    rewrite Vl_insert_eq by (rewrite !length_insert; lia). reflexivity. }
  pose proof (V_byte p x (wf_v_bytes p Hwf)) as B. unfold is_byte in B.
  split; [exact D0|]. split; [exact D1|]. split; [exact D2|].
  split; [rewrite D0, D1, D2; Z.div_mod_to_equations; lia|].
  intros j Hj. rewrite Hout by lia. reflexivity.
Qed.

Lemma digits_into_registers_witness :
  wf (bcd_state 0x300) /\ nibble 1 /\ (bcd_state 0x300).(i) + 2 <= 0xFFF /\
  exists c c',
    Execute idle_blitter 0 (word 0xF 1 3 3) 0 (bcd_state 0x300) = Ok (c, 0) /\
    Execute idle_blitter 0 (word 0xF 2 6 5) 0 c = Ok (c', 0) /\
    100 * V c' 0 + 10 * V c' 1 + V c' 2 = V (bcd_state 0x300) 1.
Proof.
  assert (Hw : wf (bcd_state 0x300)) by (apply wf_bcd_state; lia).
  assert (Hx : nibble 1) by (unfold nibble; lia).
  assert (Hi : (bcd_state 0x300).(i) + 2 <= 0xFFF) by (vm_compute; discriminate).
  split; [exact Hw | split; [exact Hx | split; [exact Hi |]]].
  destruct (digits_into_registers idle_blitter 0 0 (bcd_state 0x300) 1 Hw Hx Hi)
    as (c & c' & H1 & H2 & _ & _ & _ & Hs & _).
  exists c, c'. split; [exact H1 | split; [exact H2 | exact Hs]].
Defined.

(** X27.  [Register] cannot fail: it reads the register named by the low
    four bits of its argument, so every argument is answered with a byte,
    and arguments that differ by a multiple of 16 with the same one.
    After 6XNN it returns [NN] for [X]. *)
Theorem Register_masks_its_index
  (DS : Z -> Z -> Z -> Processor -> result Processor)
  (rnd info : Z) (p : Processor) (r x nn : Z) :
  wf p ->
  Register r p = Ok (V p (r mod 16)) /\
  is_byte (V p (r mod 16)) /\
  Register (r + 16) p = Register r p /\
  (nibble x -> 0 <= nn < 256 ->
   exists c,
     Execute DS rnd (0x6000 + x * 256 + nn) info p = Ok (c, info) /\
     Register x c = Ok nn).
Proof.
  intros Hwf. pose proof (wf_v p Hwf) as Hl.
  assert (E : forall z q, length q.(v) = 16%nat ->
                Register z q = Ok (V q (z mod 16))).
  { intros z q Hq. unfold Register. cbv zeta. rewrite land_15.
    apply reg_V; [exact Hq|]. unfold nibble.
    pose proof (Z.mod_pos_bound z 16 ltac:(lia)). lia. }
  split; [apply E; exact Hl|].
  split; [apply V_byte, Hwf|].
  split.
  - rewrite !E by exact Hl. do 2 f_equal.
    replace (r + 16) with (r + 1 * 16) by lia. apply Z.mod_add. lia.
  - intros Hx Hnn. destruct (add_immediate_store DS rnd info p x nn Hwf Hx Hnn)
      as (c & Hc & Hv & Hlc).
    exists c. split; [exact Hc|]. rewrite E by exact Hlc.
    destruct Hx as [H0 H1]. rewrite Z.mod_small by lia. rewrite Hv. reflexivity.
Qed.

Lemma Register_masks_its_index_witness :
  wf fresh /\ Register 0x13 fresh = Ok (V fresh (0x13 mod 16)).
Proof.
  split; [exact wf_fresh |].
  exact (proj1 (Register_masks_its_index idle_blitter 0 0 fresh 0x13 0 0 wf_fresh)).
Defined.

(** ** Jumps *)

Lemma Execute_jumpToLocation
  (DS : Z -> Z -> Z -> Processor -> result Processor)
  (rnd info : Z) (p : Processor) (nnn : Z) :
  0 <= nnn < 4096 ->
  Execute DS rnd (0x1000 + nnn) info p = no_info (jumpToLocation nnn p) info.
Proof.
  intros Hn. destruct (decode_addr 1 nnn) as [Dk Dn];
    [unfold nibble; lia | exact Hn |].
  change (1 * 4096) with 0x1000 in *.
  unfold Execute. cbv zeta. rewrite Dk, Dn. reflexivity.
Qed.

Lemma Execute_jumpWithOffset
  (DS : Z -> Z -> Z -> Processor -> result Processor)
  (rnd info : Z) (p : Processor) (nnn : Z) :
  0 <= nnn < 4096 ->
  Execute DS rnd (0xB000 + nnn) info p = no_info (jumpWithOffset nnn p) info.
Proof.
  intros Hn. destruct (decode_addr 11 nnn) as [Dk Dn];
    [unfold nibble; lia | exact Hn |].
  change (11 * 4096) with 0xB000 in *.
  unfold Execute. cbv zeta. rewrite Dk, Dn. reflexivity.
Qed.

(** X28.  The jumps change the program counter and nothing else: 1NNN
    sets it to [NNN], BNNN to [NNN + V0], a sum that never wraps but can
    lie above the memory; a jump that lands at [0xFFE] or beyond makes the
    next step stop with "program runaway". *)
Theorem jumps_set_the_program_counter
  (DS : Z -> Z -> Z -> Processor -> result Processor)
  (rnd info t_since t_now : Z) (p : Processor) (nnn : Z) :
  wf p -> 0 <= nnn < 4096 ->
  Execute DS rnd (0x1000 + nnn) info p = Ok (set_pc p nnn, info) /\
  Execute DS rnd (0xB000 + nnn) info p = Ok (set_pc p (nnn + V p 0), info) /\
  nnn + V p 0 <= 0x10FE /\
  (LastAddress <= nnn + V p 0 ->
     Step DS rnd t_since t_now (set_pc p (nnn + V p 0))
     = Panic "program runaway").
Proof.
  intros Hwf Hn.
  pose proof (V_byte p 0 (wf_v_bytes p Hwf)) as B. unfold is_byte in B.
  rewrite Execute_jumpToLocation, Execute_jumpWithOffset by exact Hn.
  unfold jumpToLocation, jumpWithOffset.
  rewrite reg_V by (apply Hwf || (unfold nibble; lia)). cbn [no_info bind].
  unfold u16. rewrite (Z.mod_small (V p 0)), (Z.mod_small (nnn + V p 0)) by lia.
  split; [reflexivity|]. split; [reflexivity|]. split; [lia|].
  intros Hge. unfold Step, fetch_execute, ProgramCounter. cbn [pc set_pc].
  rewrite OpcodeAt_runaway; [reflexivity | |].
  - apply wf_set_pc; [exact Hwf | lia].
  - unfold LastAddress in Hge. lia.
Qed.

Lemma jumps_set_the_program_counter_witness :
  wf fresh /\ 0 <= 0xFFF < 4096 /\
  Execute idle_blitter 0 (0x1000 + 0xFFF) 0 fresh = Ok (set_pc fresh 0xFFF, 0) /\
  Step idle_blitter 0 0 0 (set_pc fresh (0xFFF + V fresh 0))
  = Panic "program runaway".
Proof.
  assert (Hn : 0 <= 0xFFF < 4096) by lia.
  split; [exact wf_fresh | split; [exact Hn |]].
  destruct (jumps_set_the_program_counter idle_blitter 0 0 0 0 fresh 0xFFF
              wf_fresh Hn) as (H1 & _ & _ & H2).
  split; [exact H1 |]. apply H2. vm_compute. discriminate.
Defined.
